(** * http-file-maker: the OpenAPI walker and the request-file maker

    A shallow embedding of [src/openapi_parser.py] and
    [src/http_file_maker.py], and the properties of the walker that the
    specification states.

    Python values are dynamically typed, so the embedding keeps them that
    way: a document loaded by [yaml.safe_load] is a [value], every
    operation of the interpreter that the two files use is a total
    function on [value] that either returns or raises, and the methods of
    [OpenAPIParser] are written in the error monad [result].

    Scope of the data model.  Documents are built from null, booleans,
    integers, strings, sequences and mappings with string keys; floats and
    timestamps are left out.  A document is a tree: nodes shared through
    YAML anchors are not represented.  A Python [str] is a [string] whose
    characters are the code points below 256.

    Scope of the embedding.  [OpenAPIParser] is embedded whole, and of
    [HTTPFileMaker] the constructor and the generators.  The rendering of
    the endpoints to one text ([generate_http_file_from_openapi]) and the
    command line ([parse_headers], [main]) are not: nothing below is
    about them.  [urllib.parse.urljoin], which [_build_url] calls for a
    path without a leading slash, is a parameter. *)

From Stdlib Require Import String Ascii List ZArith Bool Lia DecimalString.
From Stdlib Require Import Sorted Permutation.
Import ListNotations.

Local Open Scope list_scope.
Local Open Scope string_scope.

(* ================================================================== *)
(** * Values and exceptions *)
(* ================================================================== *)

Unset Elimination Schemes.

Inductive value : Type :=
| VNone
| VBool (b : bool)
| VInt (n : Z)
| VStr (s : string)
| VList (l : list value)
| VDict (d : list (string * value)).

Set Elimination Schemes.

(** The built-in exceptions the modelled code can raise. *)
Inductive pyerr : Type :=
| AttributeError
| TypeError
| KeyError
| IndexError
| ValueError.

Inductive result (A : Type) : Type :=
| Ok (a : A)
| Raise (e : pyerr).

Arguments Ok {A} a.
Arguments Raise {A} e.

Definition bind {A B : Type} (m : result A) (k : A -> result B) : result B :=
  match m with
  | Ok a => k a
  | Raise e => Raise e
  end.

Notation "x <- m ;; k" := (bind m (fun x => k))
  (at level 61, m at next level, right associativity).

Definition is_ok {A : Type} (m : result A) : bool :=
  match m with Ok _ => true | Raise _ => false end.

(* ================================================================== *)
(** * Strings *)
(* ================================================================== *)

Module Str.

(** [s.startswith(p)] *)
Fixpoint startswith (p s : string) : bool :=
  match p with
  | EmptyString => true
  | String a p' =>
      match s with
      | EmptyString => false
      | String b s' => Ascii.eqb a b && startswith p' s'
      end
  end.

(** [sub in s] for two strings. *)
Fixpoint contains (sub s : string) : bool :=
  startswith sub s ||
  match s with
  | EmptyString => false
  | String _ s' => contains sub s'
  end.

(** [s.rstrip(c)] for a single character [c]: the longest suffix made of
    [c] only is dropped. *)
Fixpoint rstrip (c : ascii) (s : string) : string :=
  match s with
  | EmptyString => EmptyString
  | String a s' =>
      match rstrip c s' with
      | EmptyString => if Ascii.eqb a c then EmptyString else String a EmptyString
      | r => String a r
      end
  end.

(** [s.split(c)[-1]]: the text after the last [c], the whole of [s] when
    [c] does not occur. *)
Fixpoint split_last (c : ascii) (s : string) : string :=
  match s with
  | EmptyString => EmptyString
  | String a s' =>
      if existsb (Ascii.eqb c) (list_ascii_of_string s') then split_last c s'
      else if Ascii.eqb a c then s' else s
  end.

(** [s.replace(old, new)], scanning left to right; [skip] counts the
    characters of a matched [old] still to be passed over. *)
Fixpoint replace_from (old new : string) (skip : nat) (s : string) : string :=
  match s with
  | EmptyString => EmptyString
  | String a s' =>
      match skip with
      | S k => replace_from old new k s'
      | O =>
          if startswith old s
          then new ++ replace_from old new (String.length old - 1) s'
          else String a (replace_from old new 0 s')
      end
  end.

(** With an empty [old] Python puts [new] before every character and at
    the end. *)
Fixpoint interleave (new s : string) : string :=
  match s with
  | EmptyString => new
  | String a s' => new ++ String a (interleave new s')
  end.

Definition replace (old new s : string) : string :=
  match old with
  | EmptyString => interleave new s
  | _ => replace_from old new 0 s
  end.

(** [sep.join(l)] *)
Definition join (sep : string) (l : list string) : string := String.concat sep l.

(** [s.upper()] on ASCII text: the letters a-z are raised and every other
    character is kept.  (The walker applies it to the seven method names
    only.) *)
Definition upper_char (a : ascii) : ascii :=
  let n := nat_of_ascii a in
  if (97 <=? n)%nat && (n <=? 122)%nat then ascii_of_nat (n - 32) else a.

Fixpoint upper (s : string) : string :=
  match s with
  | EmptyString => EmptyString
  | String a s' => String (upper_char a) (upper s')
  end.

(** Decimal text of an integer, as [str(n)] and [json.dumps(n)] print it. *)
Definition of_Z (n : Z) : string := NilZero.string_of_int (Z.to_int n).

Definition hex_digit (n : nat) : ascii :=
  if (n <? 10)%nat then ascii_of_nat (48 + n) else ascii_of_nat (87 + n).

(** Two lowercase hexadecimal digits of a character code. *)
Definition hex2 (a : ascii) : string :=
  let n := nat_of_ascii a in
  String (hex_digit (n / 16)) (String (hex_digit (n mod 16)) EmptyString).

Definition chars (s : string) : list string :=
  map (fun a => String a EmptyString) (list_ascii_of_string s).

(** [c.isspace()] for a code point below 256: the controls 9-13 and
    28-31, the space, NEL and the no-break space. *)
Definition is_space (a : ascii) : bool :=
  let n := nat_of_ascii a in
  ((9 <=? n)%nat && (n <=? 13)%nat) || ((28 <=? n)%nat && (n <=? 32)%nat)
  || (n =? 133)%nat || (n =? 160)%nat.

(** [s.lstrip()], [s.rstrip()] and [s.strip()] without argument. *)
Fixpoint lstrip_space (s : string) : string :=
  match s with
  | EmptyString => EmptyString
  | String a s' => if is_space a then lstrip_space s' else s
  end.

Fixpoint rstrip_space (s : string) : string :=
  match s with
  | EmptyString => EmptyString
  | String a s' =>
      match rstrip_space s' with
      | EmptyString => if is_space a then EmptyString else String a EmptyString
      | r => String a r
      end
  end.

Definition strip (s : string) : string := rstrip_space (lstrip_space s).

(** [s.split(c)[0]]: the text before the first [c]. *)
Fixpoint split_first (c : ascii) (s : string) : string :=
  match s with
  | EmptyString => EmptyString
  | String a s' => if Ascii.eqb a c then EmptyString else String a (split_first c s')
  end.

(** [s.split(c, 1)]: one piece when [c] does not occur, else the text
    before the first [c] and the text after it. *)
Fixpoint split_once (c : ascii) (s : string) : list string :=
  match s with
  | EmptyString => [EmptyString]
  | String a s' =>
      if Ascii.eqb a c then [EmptyString; s']
      else
        match split_once c s' with
        | k :: rest => String a k :: rest
        | [] => []
        end
  end.

End Str.

(* ================================================================== *)
(** * The operations of the interpreter on values *)
(* ================================================================== *)

Module Py.

Definition dquote : ascii := "034"%char.
Definition newline : ascii := "010"%char.

Fixpoint lookup (k : string) (d : list (string * value)) : option value :=
  match d with
  | [] => None
  | (k', v) :: d' => if String.eqb k k' then Some v else lookup k d'
  end.

(** [d[k] = v] on a mapping: an existing key keeps its place, a new key
    goes to the end. *)
Fixpoint setitem (k : string) (v : value) (d : list (string * value))
  : list (string * value) :=
  match d with
  | [] => [(k, v)]
  | (k', v') :: d' =>
      if String.eqb k k' then (k, v) :: d' else (k', v') :: setitem k v d'
  end.

(** [bool(v)] *)
Definition truthy (v : value) : bool :=
  match v with
  | VNone => false
  | VBool b => b
  | VInt n => negb (n =? 0)%Z
  | VStr s => negb (String.eqb s "")
  | VList l => match l with [] => false | _ => true end
  | VDict d => match d with [] => false | _ => true end
  end.

(** [v == 's'] for a string literal ['s']. *)
Definition eq_str (v : value) (s : string) : bool :=
  match v with
  | VStr s' => String.eqb s' s
  | _ => false
  end.

(** [o.get(k, dflt)]; only mappings have the method. *)
Definition get (o : value) (k : string) (dflt : value) : result value :=
  match o with
  | VDict d => Ok (match lookup k d with Some v => v | None => dflt end)
  | _ => Raise AttributeError
  end.

(** ['k' in o]: a key of a mapping, an element of a sequence, a substring
    of a string. *)
Definition contains (o : value) (k : string) : result bool :=
  match o with
  | VDict d => Ok (match lookup k d with Some _ => true | None => false end)
  | VList l => Ok (existsb (fun v => eq_str v k) l)
  | VStr s => Ok (Str.contains k s)
  | _ => Raise TypeError
  end.

(** [o['k']] *)
Definition getitem (o : value) (k : string) : result value :=
  match o with
  | VDict d => match lookup k d with Some v => Ok v | None => Raise KeyError end
  | _ => Raise TypeError
  end.

(** [o[0]].  The mappings of this model have strings for keys, so the
    integer [0] is no key of one. *)
Definition getitem0 (o : value) : result value :=
  match o with
  | VList l => match l with v :: _ => Ok v | [] => Raise IndexError end
  | VStr s =>
      match s with
      | String a _ => Ok (VStr (String a EmptyString))
      | EmptyString => Raise IndexError
      end
  | VDict _ => Raise KeyError
  | _ => Raise TypeError
  end.

(** [o.items()] *)
Definition items (o : value) : result (list (string * value)) :=
  match o with
  | VDict d => Ok d
  | _ => Raise AttributeError
  end.

(** [for x in o]: the values a loop over [o] visits. *)
Definition iter (o : value) : result (list value) :=
  match o with
  | VList l => Ok l
  | VDict d => Ok (map (fun kv => VStr (fst kv)) d)
  | VStr s => Ok (map VStr (Str.chars s))
  | _ => Raise TypeError
  end.

(** [a + b] *)
Definition add (a b : value) : result value :=
  match a, b with
  | VList l1, VList l2 => Ok (VList (l1 ++ l2)%list)
  | VStr s1, VStr s2 => Ok (VStr (s1 ++ s2))
  | VInt n1, VInt n2 => Ok (VInt (n1 + n2))
  | VInt n1, VBool b2 => Ok (VInt (n1 + Z.b2z b2))
  | VBool b1, VInt n2 => Ok (VInt (Z.b2z b1 + n2))
  | VBool b1, VBool b2 => Ok (VInt (Z.b2z b1 + Z.b2z b2))
  | _, _ => Raise TypeError
  end.

(** [o['k'] = v], on a mapping; the modelled values of other types do not
    take a string index. *)
Definition store (o : value) (k : string) (v : value) : result value :=
  match o with
  | VDict d => Ok (VDict (setitem k v d))
  | _ => Raise TypeError
  end.

(** [o.startswith(p)] and [o.split(c)[-1]]: methods of strings only. *)
Definition startswith (o : value) (p : string) : result bool :=
  match o with
  | VStr s => Ok (Str.startswith p s)
  | _ => Raise AttributeError
  end.

Definition split_last (o : value) (c : ascii) : result string :=
  match o with
  | VStr s => Ok (Str.split_last c s)
  | _ => Raise AttributeError
  end.

(** [c.isprintable()] for a code point below 256. *)
Definition printable (a : ascii) : bool :=
  let n := nat_of_ascii a in
  ((32 <=? n)%nat && (n <=? 126)%nat) || ((161 <=? n)%nat && negb (n =? 173)%nat).

Definition repr_char (q a : ascii) : string :=
  if Ascii.eqb a q || Ascii.eqb a "\"%char then String "\"%char (String a EmptyString)
  else if Ascii.eqb a "009"%char then "\t"
  else if Ascii.eqb a "010"%char then "\n"
  else if Ascii.eqb a "013"%char then "\r"
  else if printable a then String a EmptyString
  else "\x" ++ Str.hex2 a.

(** [repr(s)] of a string: single quotes unless [s] has a single quote and
    no double quote. *)
Definition repr_str (s : string) : string :=
  let l := list_ascii_of_string s in
  let q := if existsb (Ascii.eqb "'"%char) l && negb (existsb (Ascii.eqb dquote) l)
           then dquote else "'"%char in
  String q (String.concat "" (map (repr_char q) l)) ++ String q EmptyString.

Fixpoint repr (v : value) : string :=
  match v with
  | VNone => "None"
  | VBool b => if b then "True" else "False"
  | VInt n => Str.of_Z n
  | VStr s => repr_str s
  | VList l => "[" ++ Str.join ", " (map repr l) ++ "]"
  | VDict d =>
      "{" ++ Str.join ", "
               (map (fun kv => let '(k, x) := kv in repr_str k ++ ": " ++ repr x) d)
          ++ "}"
  end.

(** [str(v)], which is also how an f-string renders [{v}]. *)
Definition str (v : value) : string :=
  match v with
  | VStr s => s
  | _ => repr v
  end.

(** Keys of the header mapping: the hashable values.  [True == 1] and
    [False == 0] are one key each. *)
Definition hashable (v : value) : bool :=
  match v with
  | VList _ | VDict _ => false
  | _ => true
  end.

Definition key_eqb (a b : value) : bool :=
  match a, b with
  | VNone, VNone => true
  | VStr s1, VStr s2 => String.eqb s1 s2
  | VInt n1, VInt n2 => (n1 =? n2)%Z
  | VInt n1, VBool b2 => (n1 =? Z.b2z b2)%Z
  | VBool b1, VInt n2 => (Z.b2z b1 =? n2)%Z
  | VBool b1, VBool b2 => Bool.eqb b1 b2
  | _, _ => false
  end.

End Py.

(* ================================================================== *)
(** * [json.dumps(obj, indent=2)] *)
(* ================================================================== *)

Module Json.

(** One character of a string literal, as the encoder escapes it with
    [ensure_ascii] on: the characters from space to tilde stand for
    themselves except the quote and the backslash. *)
Definition escape_char (a : ascii) : string :=
  let n := nat_of_ascii a in
  if Ascii.eqb a Py.dquote then String "\"%char (String Py.dquote EmptyString)
  else if Ascii.eqb a "\"%char then "\\"
  else if (32 <=? n)%nat && (n <=? 126)%nat then String a EmptyString
  else if (n =? 8)%nat then "\b"
  else if (n =? 12)%nat then "\f"
  else if (n =? 10)%nat then "\n"
  else if (n =? 13)%nat then "\r"
  else if (n =? 9)%nat then "\t"
  else "\u00" ++ Str.hex2 a.

Definition encode_string (s : string) : string :=
  String Py.dquote
    (String.concat "" (map escape_char (list_ascii_of_string s)))
  ++ String Py.dquote EmptyString.

Fixpoint spaces (n : nat) : string :=
  match n with
  | O => EmptyString
  | S n' => String " "%char (spaces n')
  end.

(** A line break followed by the indentation of nesting depth [level]. *)
Definition newline_indent (level : nat) : string :=
  String Py.newline (spaces (2 * level)).

Fixpoint encode (level : nat) (v : value) : string :=
  match v with
  | VNone => "null"
  | VBool b => if b then "true" else "false"
  | VInt n => Str.of_Z n
  | VStr s => encode_string s
  | VList l =>
      match l with
      | [] => "[]"
      | _ =>
          "[" ++ newline_indent (S level)
              ++ Str.join ("," ++ newline_indent (S level)) (map (encode (S level)) l)
              ++ newline_indent level ++ "]"
      end
  | VDict d =>
      match d with
      | [] => "{}"
      | _ =>
          "{" ++ newline_indent (S level)
              ++ Str.join ("," ++ newline_indent (S level))
                   (map (fun kv => let '(k, x) := kv in
                                   encode_string k ++ ": " ++ encode (S level) x) d)
              ++ newline_indent level ++ "}"
      end
  end.

Definition dumps (v : value) : string := encode 0 v.

End Json.

(* ================================================================== *)
(** * Loops *)
(* ================================================================== *)

(** [for x in l: acc = f acc x], stopping at the first exception. *)
Fixpoint for_each {A B : Type} (f : B -> A -> result B) (l : list A) (acc : B)
  : result B :=
  match l with
  | [] => Ok acc
  | x :: l' => acc' <- f acc x ;; for_each f l' acc'
  end.

(** A loop whose body may [return]: [Some r] leaves the loop with [r],
    [None] goes on to the next element. *)
Fixpoint for_return {A R : Type} (body : A -> result (option R)) (l : list A)
  : result (option R) :=
  match l with
  | [] => Ok None
  | x :: l' =>
      r <- body x ;;
      match r with
      | Some v => Ok (Some v)
      | None => for_return body l'
      end
  end.

(* ================================================================== *)
(** * [class OpenAPIParser] *)
(* ================================================================== *)

(** The header mapping of an endpoint: keys are whatever the security
    scheme declares as [name], values are the placeholder texts. *)
Definition header_map : Type := list (value * string).

Fixpoint header_set (k : value) (v : string) (h : header_map) : header_map :=
  match h with
  | [] => [(k, v)]
  | (k', v') :: h' =>
      if Py.key_eqb k k' then (k', v) :: h' else (k', v') :: header_set k v h'
  end.

(** [headers[k] = v] *)
Definition header_setitem (k : value) (v : string) (h : header_map)
  : result header_map :=
  if Py.hashable k then Ok (header_set k v h) else Raise TypeError.

(** One endpoint dictionary as [extract_endpoints] builds it. *)
Record endpoint : Type := {
  ep_method : string;
  ep_url : string;
  ep_headers : header_map;
  ep_body : option string;
  ep_summary : value;
  ep_description : value;
  ep_operation_id : value;
  ep_path : string;
  ep_tags : value
}.

Module OpenAPIParser.

(** The attributes of a parser object. *)
Record t : Type := { spec : value; base_url : string }.

Definition _build_base_url (doc : value) : result string :=
  schemes <- Py.get doc "schemes" (VList [VStr "https"]) ;;
  scheme <- Py.getitem0 schemes ;;
  host <- Py.get doc "host" (VStr "") ;;
  base_path <- Py.get doc "basePath" (VStr "") ;;
  Ok (Py.str scheme ++ "://" ++ Py.str host ++ Py.str base_path).

(** [__init__], from the document that [yaml.safe_load] returned. *)
Definition __init__ (doc : value) : result t :=
  base <- _build_base_url doc ;;
  Ok {| spec := doc; base_url := base |}.

(* ------------------------------------------------------------------ *)
(** ** [_get_security_headers] *)

(** The body of the inner loop, for one scheme name of a requirement. *)
Definition security_scheme_step (security_defs : value) (headers : header_map)
    (sec_name : string) : result header_map :=
  known <- Py.contains security_defs sec_name ;;
  if known then
    sec_def <- Py.getitem security_defs sec_name ;;
    ty <- Py.get sec_def "type" VNone ;;
    if Py.eq_str ty "apiKey" then
      loc <- Py.get sec_def "in" VNone ;;
      if Py.eq_str loc "header" then
        header_name <- Py.get sec_def "name" (VStr "") ;;
        description <- Py.get sec_def "description" (VStr "") ;;
        bearer <- Py.contains description "Bearer" ;;
        header_setitem header_name
          (if bearer then "Bearer <your-token>" else "<your-token>") headers
      else Ok headers
    else Ok headers
  else Ok headers.

(** The body of the outer loop, for one security requirement. *)
Definition security_requirement_step (security_defs : value)
    (headers : header_map) (sec : value) : result header_map :=
  entries <- Py.items sec ;;
  for_each (security_scheme_step security_defs) (map fst entries) headers.

Definition _get_security_headers (self : t) (operation : value)
  : result header_map :=
  op_security <- Py.get operation "security" (VList []) ;;
  security <- (if negb (Py.truthy op_security)
               then Py.get (spec self) "security" (VList [])
               else Ok op_security) ;;
  security_defs <- Py.get (spec self) "securityDefinitions" (VDict []) ;;
  requirements <- Py.iter security ;;
  for_each (security_requirement_step security_defs) requirements [].

(* ------------------------------------------------------------------ *)
(** ** [_get_request_body] *)

Definition has_key (k : string) (d : list (string * value)) : bool :=
  match Py.lookup k d with Some _ => true | None => false end.

(** The loop over the properties of an array's item definition: the
    property's own example, else the bare placeholder. *)
Definition item_property_step (item_example : list (string * value))
    (kv : string * value) : result (list (string * value)) :=
  let '(item_prop, item_prop_schema) := kv in
  has_example <- Py.contains item_prop_schema "example" ;;
  if has_example then
    ex <- Py.getitem item_prop_schema "example" ;;
    Ok (Py.setitem item_prop ex item_example)
  else Ok (Py.setitem item_prop (VStr ("<" ++ item_prop ++ ">")) item_example).

(** The value given to a property of type [string]. *)
Definition string_value (prop_name : string) (prop_schema : value)
  : result value :=
  format <- Py.get prop_schema "format" VNone ;;
  if Py.eq_str format "email" then Ok (VStr "user@example.com")
  else if Py.eq_str format "date-time" then Ok (VStr "2024-12-31T23:59:59Z")
  else Ok (VStr ("<" ++ prop_name ++ ">")).

(** The value given to a property of type [array] under a referenced
    definition: one example object when [items] refers to a definition
    with properties, else the empty list. *)
Definition array_value (self : t) (prop_schema : value) : result value :=
  items <- Py.get prop_schema "items" (VDict []) ;;
  item_ref <- Py.get items "$ref" VNone ;;
  if Py.truthy item_ref then
    item_ref' <- Py.getitem items "$ref" ;;
    item_def_name <- Py.split_last item_ref' "/" ;;
    definitions <- Py.get (spec self) "definitions" (VDict []) ;;
    item_def <- Py.get definitions item_def_name (VDict []) ;;
    has_properties <- Py.contains item_def "properties" ;;
    if has_properties then
      item_properties <- Py.getitem item_def "properties" ;;
      entries <- Py.items item_properties ;;
      item_example <- for_each item_property_step entries [] ;;
      Ok (VList [VDict item_example])
    else Ok (VList [])
  else Ok (VList []).

(** The [if prop_type == ...] chain of the referenced-definition branch
    (lines 87-119): the value assigned to [example[prop_name]], or [None]
    when no arm of the chain applies. *)
Definition definition_property_value (self : t) (prop_name : string)
    (prop_schema : value) : result (option value) :=
  prop_type <- Py.get prop_schema "type" (VStr "string") ;;
  if Py.eq_str prop_type "string" then
    v <- string_value prop_name prop_schema ;; Ok (Some v)
  else if Py.eq_str prop_type "integer" then
    v <- Py.get prop_schema "default" (VInt 0) ;; Ok (Some v)
  else if Py.eq_str prop_type "boolean" then
    v <- Py.get prop_schema "default" (VBool false) ;; Ok (Some v)
  else if Py.eq_str prop_type "array" then
    v <- array_value self prop_schema ;; Ok (Some v)
  else if Py.eq_str prop_type "object" then Ok (Some (VDict []))
  else Ok None.

(** The same chain in the inline-schema branch (lines 138-153). *)
Definition inline_property_value (prop_name : string) (prop_schema : value)
  : result (option value) :=
  prop_type <- Py.get prop_schema "type" (VStr "string") ;;
  if Py.eq_str prop_type "string" then
    v <- string_value prop_name prop_schema ;; Ok (Some v)
  else if Py.eq_str prop_type "integer" then
    v <- Py.get prop_schema "default" (VInt 0) ;; Ok (Some v)
  else if Py.eq_str prop_type "boolean" then
    v <- Py.get prop_schema "default" (VBool false) ;; Ok (Some v)
  else if Py.eq_str prop_type "array" then Ok (Some (VList []))
  else if Py.eq_str prop_type "object" then Ok (Some (VDict []))
  else Ok None.

Definition assign (prop_name : string) (produced : option value)
    (example : list (string * value)) : list (string * value) :=
  match produced with
  | Some v => Py.setitem prop_name v example
  | None => example
  end.

(** One iteration of the loop over a referenced definition's properties
    (lines 81-123).  The final test can only [continue], at the end of
    the body. *)
Definition definition_property_step (self : t) (required : value)
    (example : list (string * value)) (kv : string * value)
  : result (list (string * value)) :=
  let '(prop_name, prop_schema) := kv in
  has_example <- Py.contains prop_schema "example" ;;
  if has_example then
    ex <- Py.getitem prop_schema "example" ;;
    Ok (Py.setitem prop_name ex example)
  else
    produced <- definition_property_value self prop_name prop_schema ;;
    let example' := assign prop_name produced example in
    is_required <- Py.contains required prop_name ;;
    if negb is_required && negb (has_key prop_name example')
    then Ok example'
    else Ok example'.

(** One iteration of the loop over an inline schema's properties
    (lines 132-157).  The final test guards a [pass]. *)
Definition inline_property_step (required : value)
    (example : list (string * value)) (kv : string * value)
  : result (list (string * value)) :=
  let '(prop_name, prop_schema) := kv in
  has_example <- Py.contains prop_schema "example" ;;
  if has_example then
    ex <- Py.getitem prop_schema "example" ;;
    Ok (Py.setitem prop_name ex example)
  else
    produced <- inline_property_value prop_name prop_schema ;;
    let example' := assign prop_name produced example in
    is_required <- Py.contains required prop_name ;;
    if is_required || has_key prop_name example'
    then Ok example'
    else Ok example'.

(** The example object built from a referenced definition (lines 78-123). *)
Definition definition_example (self : t) (definition : value)
  : result value :=
  required <- Py.get definition "required" (VList []) ;;
  properties <- Py.get definition "properties" (VDict []) ;;
  entries <- Py.items properties ;;
  example <- for_each (definition_property_step self required) entries [] ;;
  Ok (VDict example).

(** The example object built from an inline schema (lines 129-157). *)
Definition inline_example (schema : value) : result value :=
  required <- Py.get schema "required" (VList []) ;;
  properties <- Py.get schema "properties" (VDict []) ;;
  entries <- Py.items properties ;;
  example <- for_each (inline_property_step required) entries [] ;;
  Ok (VDict example).

(** The body of the loop over the parameters (lines 64-207): [Some text]
    where the code returns, [None] where control reaches the end of the
    body and the loop goes on. *)
Definition body_of_parameter (self : t) (param : value)
  : result (option string) :=
  loc <- Py.get param "in" VNone ;;
  if Py.eq_str loc "body" then
    schema <- Py.get param "schema" (VDict []) ;;
    has_example <- Py.contains schema "example" ;;
    if has_example then
      ex <- Py.getitem schema "example" ;;
      Ok (Some (Json.dumps ex))
    else
      ref <- Py.get schema "$ref" (VStr "") ;;
      is_definition_ref <- (if Py.truthy ref
                            then Py.startswith ref "#/definitions/"
                            else Ok false) ;;
      if is_definition_ref then
        def_name <- Py.split_last ref "/" ;;
        definitions <- Py.get (spec self) "definitions" (VDict []) ;;
        definition <- Py.get definitions def_name (VDict []) ;;
        def_has_example <- Py.contains definition "example" ;;
        if def_has_example then
          ex <- Py.getitem definition "example" ;;
          Ok (Some (Json.dumps ex))
        else
          has_properties <- Py.contains definition "properties" ;;
          if has_properties then
            example <- definition_example self definition ;;
            Ok (Some (Json.dumps example))
          else Ok None
      else
        has_type <- Py.contains schema "type" ;;
        is_object <- (if has_type
                      then ty <- Py.get schema "type" VNone ;;
                           Ok (Py.eq_str ty "object")
                      else Ok false) ;;
        if is_object then
          has_properties <- Py.contains schema "properties" ;;
          if has_properties then
            example <- inline_example schema ;;
            Ok (Some (Json.dumps example))
          else Ok None
        else Ok None
  else Ok None.

Definition _get_request_body (self : t) (operation : value)
  : result (option string) :=
  parameters <- Py.get operation "parameters" (VList []) ;;
  params <- Py.iter parameters ;;
  for_return (body_of_parameter self) params.

(* ------------------------------------------------------------------ *)
(** ** [_build_url] and [extract_endpoints] *)

(** The body of the first loop: a path parameter replaces its [{name}]
    in the URL. *)
Definition path_parameter_step (url : string) (param : value) : result string :=
  loc <- Py.get param "in" VNone ;;
  if Py.eq_str loc "path" then
    param_name <- Py.get param "name" (VStr "") ;;
    example <- Py.get param "example" (VStr ("<" ++ Py.str param_name ++ ">")) ;;
    Ok (Str.replace ("{" ++ Py.str param_name ++ "}") (Py.str example) url)
  else Ok url.

(** The body of the second loop: a query parameter appends [name=value]. *)
Definition query_parameter_step (query_params : list string) (param : value)
  : result (list string) :=
  loc <- Py.get param "in" VNone ;;
  if Py.eq_str loc "query" then
    param_name <- Py.get param "name" (VStr "") ;;
    default <- Py.get param "default" (VStr ("<" ++ Py.str param_name ++ ">")) ;;
    example <- Py.get param "example" default ;;
    Ok (app query_params [Py.str param_name ++ "=" ++ Py.str example])
  else Ok query_params.

(** [method not in ['get', 'post', ...]] is false for these keys. *)
Definition is_method (method : string) : bool :=
  existsb (String.eqb method)
    ["get"; "post"; "put"; "patch"; "delete"; "head"; "options"].

(** The document is a tree, as [yaml.safe_load] builds it from a file
    without anchors and aliases: the operation that the loops hold a
    reference to is then the node at [spec['paths'][path][method]] and
    no other, and an assignment to one of its keys is a write at that
    address.  A node that an alias shares between two places is outside
    this model. *)
Fixpoint upsert (k : string) (f : value -> value) (d : list (string * value))
  : list (string * value) :=
  match d with
  | [] => [(k, f VNone)]
  | (k', v) :: d' =>
      if String.eqb k k' then (k', f v) :: d' else (k', v) :: upsert k f d'
  end.

Fixpoint write_at (address : list string) (x : value) (doc : value) : value :=
  match address with
  | [] => x
  | k :: rest =>
      match doc with
      | VDict d => VDict (upsert k (write_at rest x) d)
      | _ => doc
      end
  end.

Section WithUrljoin.

(** [urllib.parse.urljoin], of the standard library, is left abstract. *)
Variable urljoin : string -> string -> result string.

(** Lines 216-220: the path put after the base URL. *)
Definition joined_url (self : t) (path : string) : result string :=
  if Str.startswith "/" path
  then Ok (Str.rstrip "/" (base_url self) ++ path)
  else urljoin (Str.rstrip "/" (base_url self) ++ "/") path.

Definition _build_url (self : t) (path : string) (operation : value)
  : result string :=
  url <- joined_url self path ;;
  parameters <- Py.get operation "parameters" (VList []) ;;
  params <- Py.iter parameters ;;
  url <- for_each path_parameter_step params url ;;
  query_params <- for_each query_parameter_step params [] ;;
  match query_params with
  | [] => Ok url
  | _ => Ok (url ++ "?" ++ Str.join "&" query_params)
  end.

(** The body of the inner loop of [extract_endpoints] (lines 252-287),
    for the entry [method: operation] of the path item at [path].  The
    state is the parser, whose document the assignment of line 259
    changes. *)
Definition operation_step (path : string) (common_params : value)
    (st : list endpoint * t) (entry : string * value)
  : result (list endpoint * t) :=
  let '(endpoints, self) := st in
  let '(method, operation) := entry in
  if negb (is_method method) then Ok (endpoints, self)
  else
    op_params <- Py.get operation "parameters" (VList []) ;;
    all_params <- Py.add common_params op_params ;;
    operation <- Py.store operation "parameters" all_params ;;
    let self :=
      {| spec := write_at ["paths"; path; method; "parameters"] all_params
                   (spec self);
         base_url := base_url self |} in
    url <- _build_url self path operation ;;
    headers <- _get_security_headers self operation ;;
    request_body <- _get_request_body self operation ;;
    headers <- (match request_body with
                | Some text =>
                    if negb (String.eqb text "")
                    then header_setitem (VStr "Content-Type") "application/json" headers
                    else Ok headers
                | None => Ok headers
                end) ;;
    summary <- Py.get operation "summary" (VStr "") ;;
    description <- Py.get operation "description" (VStr "") ;;
    operation_id <- Py.get operation "operationId" (VStr "") ;;
    tags <- Py.get operation "tags" (VList []) ;;
    Ok (app endpoints [{| ep_method := Str.upper method;
                         ep_url := url;
                         ep_headers := headers;
                         ep_body := request_body;
                         ep_summary := summary;
                         ep_description := description;
                         ep_operation_id := operation_id;
                         ep_path := path;
                         ep_tags := tags |}], self).

(** The body of the outer loop, for the entry [path: path_item]. *)
Definition path_step (st : list endpoint * t) (entry : string * value)
  : result (list endpoint * t) :=
  let '(path, path_item) := entry in
  common_params <- Py.get path_item "parameters" (VList []) ;;
  operations <- Py.items path_item ;;
  for_each (operation_step path common_params) operations st.

(** [extract_endpoints]: the endpoints, and the parser as the call
    leaves it. *)
Definition extract_endpoints (self : t) : result (list endpoint * t) :=
  paths <- Py.get (spec self) "paths" (VDict []) ;;
  entries <- Py.items paths ;;
  for_each path_step entries ([], self).

End WithUrljoin.

End OpenAPIParser.

(* ================================================================== *)
(** * [class HTTPFileMaker] *)
(* ================================================================== *)

Module HTTPFileMaker.

Definition FORMATS : list string := ["rest-client"; "httpie"; "curl"].

Record t : Type := {
  method : string;
  url : string;
  headers : list (string * string);
  body : option string;
  format_type : string
}.

(** [__init__]: the attributes are set, then the format is checked. *)
Definition __init__ (method url : string)
    (headers : option (list (string * string))) (body : option string)
    (format_type : string) : result t :=
  let self := {| method := Str.upper method;
                 url := url;
                 headers := match headers with Some h => h | None => [] end;
                 body := body;
                 format_type := format_type |} in
  if negb (existsb (String.eqb format_type) FORMATS)
  then Raise ValueError
  else Ok self.

(** [if self.body] *)
Definition has_body (self : t) : option string :=
  match body self with
  | Some text => if String.eqb text "" then None else Some text
  | None => None
  end.

Definition backslash_newline : string :=
  String " "%char (String "\"%char (String Py.newline EmptyString)).

Definition generate_rest_client (self : t) : string :=
  let lines := [method self ++ " " ++ url self] in
  let lines := app lines (map (fun kv => fst kv ++ ": " ++ snd kv) (headers self)) in
  let lines := match has_body self with
               | Some text => app lines [""; text]
               | None => lines
               end in
  Str.join (String Py.newline EmptyString) lines.

Definition generate_httpie (self : t) : string :=
  let lines := ["http " ++ method self ++ " " ++ url self] in
  let lines := app lines (map (fun kv => "  " ++ fst kv ++ ":" ++ snd kv) (headers self)) in
  let lines := match has_body self with
               | Some text => app lines ["  <<< '" ++ text ++ "'"]
               | None => lines
               end in
  Str.join backslash_newline lines.

Definition generate_curl (self : t) : string :=
  let parts := ["curl -X " ++ method self] in
  let parts := app parts (map (fun kv => "-H '" ++ fst kv ++ ": " ++ snd kv ++ "'") (headers self)) in
  let parts := match has_body self with
               | Some text => app parts ["-d '" ++ text ++ "'"]
               | None => parts
               end in
  let parts := app parts ["'" ++ url self ++ "'"] in
  Str.join (backslash_newline ++ "  ") parts.

Definition generate (self : t) : result string :=
  if String.eqb (format_type self) "rest-client" then Ok (generate_rest_client self)
  else if String.eqb (format_type self) "httpie" then Ok (generate_httpie self)
  else if String.eqb (format_type self) "curl" then Ok (generate_curl self)
  else Raise ValueError.

End HTTPFileMaker.

(* ================================================================== *)
(** * Vocabulary of the statements *)
(* ================================================================== *)

(** [d.get(k, dflt)] on the entries of a mapping. *)
Definition get_or (k : string) (dflt : value) (d : list (string * value)) : value :=
  match Py.lookup k d with
  | Some v => v
  | None => dflt
  end.

(** The part of the base URL after [scheme://]. *)
Definition host_and_base_path (d : list (string * value)) : string :=
  Py.str (get_or "host" (VStr "") d) ++ Py.str (get_or "basePath" (VStr "") d).

(** A text given line by line, with ['] written for the double quote. *)
Definition text_of_lines (l : list string) : string :=
  Str.join (String Py.newline EmptyString)
    (map (Str.replace "'" (String Py.dquote EmptyString)) l).

(** Stands for [urljoin] where every path starts with a slash, so that it
    is not called. *)
Definition urljoin_unused (base path : string) : result string :=
  Raise ValueError.

Definition parser_of (doc : value) (base : string) : OpenAPIParser.t :=
  {| OpenAPIParser.spec := doc; OpenAPIParser.base_url := base |}.

(** A body parameter with the given schema. *)
Definition body_parameter (schema : value) : value :=
  VDict [("in", VStr "body"); ("name", VStr "body"); ("schema", schema)].

Definition operation_with (params : list value) : value :=
  VDict [("parameters", VList params)].

(** The document and the property schema on which the two branches of
    [_get_request_body] are compared: an array whose items refer to a
    definition with properties. *)
Definition tags_schema : value :=
  VDict [("type", VStr "array");
         ("items", VDict [("$ref", VStr "#/definitions/Tag")])].

Definition pet_document : value :=
  VDict
    [("definitions",
      VDict
        [("Tag", VDict [("properties", VDict [("name", VDict [("type", VStr "string")])])]);
         ("Pet", VDict [("properties", VDict [("tags", tags_schema)])])])].

(** The body schema that refers to the definition, and the one that spells
    the same properties inline. *)
Definition pet_by_reference : value :=
  VDict [("$ref", VStr "#/definitions/Pet")].

Definition pet_inline : value :=
  VDict [("type", VStr "object"); ("properties", VDict [("tags", tags_schema)])].

(* ------------------------------------------------------------------ *)
(** ** Reading JSON *)

(** A reader for JSON texts (RFC 8259), by which a text is stated to be
    valid JSON and to denote a given value.  Numbers are read when they
    are integers, and [\u] escapes below 256; duplicate names in an
    object keep the place of the first and the value of the last. *)
Module JsonSyntax.

Definition is_ws (a : ascii) : bool :=
  Ascii.eqb a " "%char || Ascii.eqb a "009"%char
  || Ascii.eqb a "010"%char || Ascii.eqb a "013"%char.

Fixpoint skip_ws (s : string) : string :=
  match s with
  | String a s' => if is_ws a then skip_ws s' else s
  | EmptyString => s
  end.

Definition digit_of (a : ascii) : option Z :=
  let n := nat_of_ascii a in
  if (48 <=? n)%nat && (n <=? 57)%nat then Some (Z.of_nat (n - 48)) else None.

Fixpoint read_digits (acc : Z) (s : string) : Z * string :=
  match s with
  | String a s' =>
      match digit_of a with
      | Some d => read_digits (10 * acc + d) s'
      | None => (acc, s)
      end
  | EmptyString => (acc, s)
  end.

(** An integer: an optional minus, then [0] or a digit string that does
    not start with [0]; a fraction or an exponent is refused. *)
Definition read_number (s : string) : option (Z * string) :=
  let '(negative, s1) :=
    match s with
    | String a s' => if Ascii.eqb a "-"%char then (true, s') else (false, s)
    | EmptyString => (false, s)
    end in
  match s1 with
  | String a s2 =>
      match digit_of a with
      | Some d =>
          let '(n, rest) := if (d =? 0)%Z then (0%Z, s2) else read_digits d s2 in
          let n := if negative then (- n)%Z else n in
          match rest with
          | String c _ =>
              if Ascii.eqb c "."%char || Ascii.eqb c "e"%char || Ascii.eqb c "E"%char
                 || match digit_of c with Some _ => true | None => false end
              then None
              else Some (n, rest)
          | EmptyString => Some (n, rest)
          end
      | None => None
      end
  | EmptyString => None
  end.

Definition hex_of (a : ascii) : option nat :=
  let n := nat_of_ascii a in
  if (48 <=? n)%nat && (n <=? 57)%nat then Some (n - 48)%nat
  else if (97 <=? n)%nat && (n <=? 102)%nat then Some (n - 87)%nat
  else if (65 <=? n)%nat && (n <=? 70)%nat then Some (n - 55)%nat
  else None.

Definition unescape (e : ascii) : option ascii :=
  if Ascii.eqb e Py.dquote then Some Py.dquote
  else if Ascii.eqb e "\"%char then Some "\"%char
  else if Ascii.eqb e "/"%char then Some "/"%char
  else if Ascii.eqb e "b"%char then Some "008"%char
  else if Ascii.eqb e "f"%char then Some "012"%char
  else if Ascii.eqb e "n"%char then Some "010"%char
  else if Ascii.eqb e "r"%char then Some "013"%char
  else if Ascii.eqb e "t"%char then Some "009"%char
  else None.

Definition prepend (a : ascii) (r : option (string * string))
  : option (string * string) :=
  match r with
  | Some (text, rest) => Some (String a text, rest)
  | None => None
  end.

(** The characters of a string literal, after its opening quote. *)
Fixpoint read_string (s : string) : option (string * string) :=
  match s with
  | EmptyString => None
  | String a s' =>
      if Ascii.eqb a Py.dquote then Some (EmptyString, s')
      else if Ascii.eqb a "\"%char then
        match s' with
        | String e s'' =>
            if Ascii.eqb e "u"%char then
              match s'' with
              | String h1 (String h2 (String h3 (String h4 r))) =>
                  match hex_of h1, hex_of h2, hex_of h3, hex_of h4 with
                  | Some 0%nat, Some 0%nat, Some n3, Some n4 =>
                      prepend (ascii_of_nat (16 * n3 + n4)) (read_string r)
                  | _, _, _, _ => None
                  end
              | _ => None
              end
            else
              match unescape e with
              | Some c => prepend c (read_string s'')
              | None => None
              end
        | EmptyString => None
        end
      else if (nat_of_ascii a <? 32)%nat then None
      else prepend a (read_string s')
  end.

Definition strip (p s : string) : option string :=
  if Str.startswith p s
  then Some (String.substring (String.length p) (String.length s - String.length p) s)
  else None.

Fixpoint read_value (fuel : nat) (s : string) : option (value * string) :=
  match fuel with
  | O => None
  | S fuel' =>
      match skip_ws s with
      | EmptyString => None
      | String a r as s0 =>
          if Ascii.eqb a "{"%char then
            match skip_ws r with
            | String c r' =>
                if Ascii.eqb c "}"%char then Some (VDict [], r')
                else
                  match read_members fuel' r with
                  | Some (ms, rest) =>
                      Some (VDict (fold_left (fun d kv => Py.setitem (fst kv) (snd kv) d)
                                             ms []), rest)
                  | None => None
                  end
            | EmptyString => None
            end
          else if Ascii.eqb a "["%char then
            match skip_ws r with
            | String c r' =>
                if Ascii.eqb c "]"%char then Some (VList [], r')
                else
                  match read_elements fuel' r with
                  | Some (vs, rest) => Some (VList vs, rest)
                  | None => None
                  end
            | EmptyString => None
            end
          else if Ascii.eqb a Py.dquote then
            match read_string r with
            | Some (text, rest) => Some (VStr text, rest)
            | None => None
            end
          else
            match strip "null" s0, strip "true" s0, strip "false" s0 with
            | Some rest, _, _ => Some (VNone, rest)
            | _, Some rest, _ => Some (VBool true, rest)
            | _, _, Some rest => Some (VBool false, rest)
            | None, None, None =>
                match read_number s0 with
                | Some (n, rest) => Some (VInt n, rest)
                | None => None
                end
            end
      end
  end

with read_elements (fuel : nat) (s : string) : option (list value * string) :=
  match fuel with
  | O => None
  | S fuel' =>
      match read_value fuel' s with
      | Some (v, r) =>
          match skip_ws r with
          | String c r' =>
              if Ascii.eqb c ","%char then
                match read_elements fuel' r' with
                | Some (vs, rest) => Some (v :: vs, rest)
                | None => None
                end
              else if Ascii.eqb c "]"%char then Some ([v], r')
              else None
          | EmptyString => None
          end
      | None => None
      end
  end

with read_members (fuel : nat) (s : string)
  : option (list (string * value) * string) :=
  match fuel with
  | O => None
  | S fuel' =>
      match skip_ws s with
      | String q r =>
          if Ascii.eqb q Py.dquote then
            match read_string r with
            | Some (k, r1) =>
                match skip_ws r1 with
                | String c r2 =>
                    if Ascii.eqb c ":"%char then
                      match read_value fuel' r2 with
                      | Some (v, r3) =>
                          match skip_ws r3 with
                          | String c' r4 =>
                              if Ascii.eqb c' ","%char then
                                match read_members fuel' r4 with
                                | Some (ms, rest) => Some ((k, v) :: ms, rest)
                                | None => None
                                end
                              else if Ascii.eqb c' "}"%char then Some ([(k, v)], r4)
                              else None
                          | EmptyString => None
                          end
                      | None => None
                      end
                    else None
                | EmptyString => None
                end
            | None => None
            end
          else None
      | EmptyString => None
      end
  end.

(** The value a text denotes, when the whole of it is one JSON value. *)
Definition loads (s : string) : option value :=
  match read_value (2 * String.length s + 2) s with
  | Some (v, rest) =>
      match skip_ws rest with
      | EmptyString => Some v
      | _ => None
      end
  | None => None
  end.

End JsonSyntax.

(* ------------------------------------------------------------------ *)
(** ** Synthesis from a definition's properties *)

(** The types for which the [if prop_type == ...] chain has an arm. *)
Definition synthesized_types : list string :=
  ["string"; "integer"; "boolean"; "array"; "object"].

(** A property is processed to a value when it carries an example or its
    type, [string] when it has none, is one of the types above. *)
Definition produces_value (ps : list (string * value)) : bool :=
  OpenAPIParser.has_key "example" ps
  || existsb (Py.eq_str (get_or "type" (VStr "string") ps)) synthesized_types.

(** The values on which ['k' in v] is defined. *)
Definition is_container (v : value) : bool :=
  match v with
  | VList _ | VDict _ | VStr _ => true
  | _ => false
  end.

(** The loop body of lines 81-119, that is without the test on
    [required] that closes it. *)
Definition property_step_without_guard (self : OpenAPIParser.t)
    (example : list (string * value)) (kv : string * value)
  : result (list (string * value)) :=
  let '(prop_name, prop_schema) := kv in
  has_example <- Py.contains prop_schema "example" ;;
  if has_example then
    ex <- Py.getitem prop_schema "example" ;;
    Ok (Py.setitem prop_name ex example)
  else
    produced <- OpenAPIParser.definition_property_value self prop_name prop_schema ;;
    Ok (OpenAPIParser.assign prop_name produced example).

(** The properties whose processing returns: mappings that carry an
    example or whose value rule does not raise. *)
Definition property_returns (self : OpenAPIParser.t) (kv : string * value) : bool :=
  match snd kv with
  | VDict ps =>
      OpenAPIParser.has_key "example" ps
      || is_ok (OpenAPIParser.definition_property_value self (fst kv) (VDict ps))
  | _ => false
  end.

(** The definition of the scenario: [name] a string, [age] an integer
    with default 0, [name] required. *)
Definition user_properties : list (string * value) :=
  [("name", VDict [("type", VStr "string")]);
   ("age", VDict [("type", VStr "integer"); ("default", VInt 0)])].

Definition user_definition : list (string * value) :=
  [("properties", VDict user_properties); ("required", VList [VStr "name"])].

Definition user_document : value :=
  VDict [("definitions", VDict [("User", VDict user_definition)])].

Definition user_operation : value :=
  operation_with [body_parameter (VDict [("$ref", VStr "#/definitions/User")])].

Definition user_body : string :=
  text_of_lines ["{"; "  'name': '<name>',"; "  'age': 0"; "}"].

(* ------------------------------------------------------------------ *)
(** ** Security headers, in the words of the specification *)

(** The requirement list of an operation: its own [security] when present
    and non-empty, else the one of the document. *)
Definition effective_security (doc op : list (string * value)) : value :=
  match Py.lookup "security" op with
  | Some s => if Py.truthy s then s else get_or "security" (VList []) doc
  | None => get_or "security" (VList []) doc
  end.

Definition token_placeholder (description : string) : string :=
  if Str.contains "Bearer" description then "Bearer <your-token>" else "<your-token>".

Definition is_header_api_key (sd : list (string * value)) : bool :=
  Py.eq_str (get_or "type" VNone sd) "apiKey"
  && Py.eq_str (get_or "in" VNone sd) "header".

(** The header a security scheme stands for: none unless the scheme is an
    apiKey sent in a header. *)
Definition scheme_header (sd : list (string * value)) : option (string * string) :=
  if is_header_api_key sd then
    match get_or "name" (VStr "") sd, get_or "description" (VStr "") sd with
    | VStr name, VStr description => Some (name, token_placeholder description)
    | _, _ => None
    end
  else None.

(** Well-formed schemes: an apiKey-in-header scheme names its header by a
    string and describes itself by a string, when it does. *)
Definition scheme_ok (sd : list (string * value)) : bool :=
  if is_header_api_key sd then
    match get_or "name" (VStr "") sd, get_or "description" (VStr "") sd with
    | VStr _, VStr _ => true
    | _, _ => false
    end
  else true.

(** Well-formed requirements: mappings whose scheme names are unknown to
    [securityDefinitions] or defined there by a well-formed scheme. *)
Definition requirement_ok (defs : list (string * value)) (req : value) : bool :=
  match req with
  | VDict entries =>
      forallb (fun kv => match Py.lookup (fst kv) defs with
                         | None => true
                         | Some (VDict sd) => scheme_ok sd
                         | Some _ => false
                         end) entries
  | _ => false
  end.

Definition headers_of_scheme_name (defs : list (string * value)) (sec_name : string)
  : list (string * string) :=
  match Py.lookup sec_name defs with
  | Some (VDict sd) =>
      match scheme_header sd with
      | Some h => [h]
      | None => []
      end
  | _ => []
  end.

(** The headers the requirements declare, in the order of the
    requirements and of the scheme names in each. *)
Definition declared_headers (defs : list (string * value)) (reqs : list value)
  : list (string * string) :=
  flat_map (fun req => match req with
                       | VDict entries =>
                           flat_map (fun kv => headers_of_scheme_name defs (fst kv)) entries
                       | _ => []
                       end) reqs.

(** The mapping that results from storing the pairs one after the other. *)
Definition store_headers (pairs : list (string * string)) (h : header_map) : header_map :=
  fold_left (fun h kv => header_set (VStr (fst kv)) (snd kv) h) pairs h.

(** That a header comes from a scheme named by the requirements: an
    apiKey-in-header scheme whose [name] is the header's key and whose
    [description] decides the value. *)
Definition header_declared_by (defs : list (string * value)) (reqs : list value)
    (name v : string) : Prop :=
  exists entries sec_name sec_value sd description,
    In (VDict entries) reqs /\
    In (sec_name, sec_value) entries /\
    Py.lookup sec_name defs = Some (VDict sd) /\
    get_or "type" VNone sd = VStr "apiKey" /\
    get_or "in" VNone sd = VStr "header" /\
    get_or "name" (VStr "") sd = VStr name /\
    get_or "description" (VStr "") sd = VStr description /\
    v = (if Str.contains "Bearer" description
         then "Bearer <your-token>" else "<your-token>").

(** A document whose only scheme is an apiKey in the header [X-API-Key],
    required by the document and not by the operation. *)
Definition api_key_document : list (string * value) :=
  [("securityDefinitions",
    VDict [("api_key", VDict [("type", VStr "apiKey"); ("in", VStr "header");
                              ("name", VStr "X-API-Key");
                              ("description", VStr "Bearer token")]);
           ("login", VDict [("type", VStr "basic")])]);
   ("security", VList [VDict [("api_key", VList []); ("login", VList [])]])].

(* ------------------------------------------------------------------ *)
(** ** The query string, in the words of the specification *)

Definition is_query (p : list (string * value)) : bool :=
  Py.eq_str (get_or "in" VNone p) "query".

Definition parameter_name (p : list (string * value)) : string :=
  Py.str (get_or "name" (VStr "") p).

(** The entry's [example] if present, else its [default], else [<name>]. *)
Definition query_value (p : list (string * value)) : string :=
  match Py.lookup "example" p with
  | Some example => Py.str example
  | None =>
      match Py.lookup "default" p with
      | Some default => Py.str default
      | None => "<" ++ parameter_name p ++ ">"
      end
  end.

Definition query_entry (p : list (string * value)) : string :=
  parameter_name p ++ "=" ++ query_value p.

(** The query parameters in declaration order, each as [name=value]. *)
Definition query_entries (params : list (list (string * value))) : list string :=
  map query_entry (filter is_query params).

(** What is put after the path: nothing without query parameters, else
    [?] and the entries joined by [&]. *)
Definition query_string (params : list (list (string * value))) : string :=
  match query_entries params with
  | [] => ""
  | entries => "?" ++ Str.join "&" entries
  end.

(* ------------------------------------------------------------------ *)
(** ** Path templates *)

(** A template is literal text and placeholders; [Hole "id"] is written
    [{id}]. *)
Inductive segment : Type :=
| Lit (text : string)
| Hole (name : string).

Definition placeholder (name : string) : string := "{" ++ name ++ "}".

Definition render_segment (g : segment) : string :=
  match g with
  | Lit text => text
  | Hole name => placeholder name
  end.

Fixpoint render (t : list segment) : string :=
  match t with
  | [] => ""
  | g :: t' => render_segment g ++ render t'
  end.

(** No opening brace, and no brace at all. *)
Fixpoint no_open (s : string) : bool :=
  match s with
  | EmptyString => true
  | String a s' => negb (Ascii.eqb a "{"%char) && no_open s'
  end.

Fixpoint brace_free (s : string) : bool :=
  match s with
  | EmptyString => true
  | String a s' =>
      negb (Ascii.eqb a "{"%char) && negb (Ascii.eqb a "}"%char) && brace_free s'
  end.

(** Well-formed templates: braces occur only around placeholder names. *)
Definition segment_ok (g : segment) : bool :=
  match g with
  | Lit text => no_open text
  | Hole name => brace_free name
  end.

Definition is_path (p : list (string * value)) : bool :=
  Py.eq_str (get_or "in" VNone p) "path".

(** The entry's [example] if present, else [<name>]. *)
Definition path_value (p : list (string * value)) : string :=
  match Py.lookup "example" p with
  | Some example => Py.str example
  | None => "<" ++ parameter_name p ++ ">"
  end.

(** The value of the first path parameter with the given name. *)
Fixpoint first_path_value (params : list (list (string * value))) (name : string)
  : option string :=
  match params with
  | [] => None
  | p :: params' =>
      if is_path p && String.eqb (parameter_name p) name
      then Some (path_value p)
      else first_path_value params' name
  end.

(** One substitution: the placeholders of one name take one value. *)
Definition fill_one (name v : string) (g : segment) : segment :=
  match g with
  | Lit text => Lit text
  | Hole m => if String.eqb name m then Lit v else Hole m
  end.

(** The template after the substitution of one parameter. *)
Definition after_parameter (p : list (string * value)) (t : list segment)
  : list segment :=
  if is_path p then map (fill_one (parameter_name p) (path_value p)) t else t.

(** The template with the placeholders of the path parameters filled. *)
Definition fill_segment (params : list (list (string * value))) (g : segment)
  : segment :=
  match g with
  | Lit text => Lit text
  | Hole name =>
      match first_path_value params name with
      | Some v => Lit v
      | None => Hole name
      end
  end.

Definition fill (params : list (list (string * value))) (t : list segment)
  : list segment :=
  map (fill_segment params) t.

(** Parameters whose name, example and default are rendered without
    braces. *)
Definition parameter_brace_free (p : list (string * value)) : bool :=
  brace_free (parameter_name p)
  && brace_free (Py.str (get_or "example" (VStr "") p))
  && brace_free (Py.str (get_or "default" (VStr "") p)).

(** The document of the scenario, and the same with the parameter [id]
    declared for the whole path without an example. *)
Definition id_with_example : value :=
  VDict [("in", VStr "path"); ("name", VStr "id"); ("example", VInt 42)].

Definition id_without_example : value :=
  VDict [("in", VStr "path"); ("name", VStr "id")].

Definition users_document (path_item : list (string * value)) : value :=
  VDict [("schemes", VList [VStr "https"]);
         ("host", VStr "api.example.com");
         ("basePath", VStr "/v1");
         ("paths", VDict [("/users/{id}", VDict path_item)])].

Definition scenario_document : value :=
  users_document [("get", VDict [("parameters", VList [id_with_example])])].

Definition shadowed_document : value :=
  users_document [("parameters", VList [id_without_example]);
                  ("get", VDict [("parameters", VList [id_with_example])])].

(** The URLs of the endpoints extracted from a document. *)
Definition extracted_urls (doc : value) : result (list string) :=
  self <- OpenAPIParser.__init__ doc ;;
  r <- OpenAPIParser.extract_endpoints urljoin_unused self ;;
  Ok (map ep_url (fst r)).

(* ------------------------------------------------------------------ *)
(** ** The document after the extraction *)

(** An operation after line 259: its [parameters] are the parameters of
    the path followed by its own. *)
Definition merged_operation (common_params operation : value) : value :=
  match operation with
  | VDict o =>
      match Py.add common_params (get_or "parameters" (VList []) o) with
      | Ok all_params => VDict (Py.setitem "parameters" all_params o)
      | Raise _ => operation
      end
  | _ => operation
  end.

(** An entry of a path item: changed when its key is a method. *)
Definition merged_entry (common_params : value) (entry : string * value)
  : string * value :=
  if OpenAPIParser.is_method (fst entry)
  then (fst entry, merged_operation common_params (snd entry))
  else entry.

Definition merged_path_item (entry : string * value) : string * value :=
  match snd entry with
  | VDict item =>
      (fst entry,
       VDict (map (merged_entry (get_or "parameters" (VList []) item)) item))
  | _ => entry
  end.

(** The document with the given entries under [paths]. *)
Definition with_paths (top paths : list (string * value)) : value :=
  VDict (Py.setitem "paths" (VDict paths) top).

Definition merged_document (doc : value) : value :=
  match doc with
  | VDict top =>
      match Py.lookup "paths" top with
      | Some (VDict paths) => with_paths top (map merged_path_item paths)
      | _ => doc
      end
  | _ => doc
  end.

(** Mappings have each key once. *)
Fixpoint unique_keys (d : list (string * value)) : bool :=
  match d with
  | [] => true
  | (k, _) :: d' => negb (existsb (String.eqb k) (map fst d')) && unique_keys d'
  end.

Definition well_keyed (doc : value) : bool :=
  match doc with
  | VDict top =>
      match Py.lookup "paths" top with
      | Some (VDict paths) =>
          unique_keys paths
          && forallb (fun kv => match snd kv with
                                | VDict item => unique_keys item
                                | _ => true
                                end) paths
      | _ => true
      end
  | _ => true
  end.

(** The document a parser holds after one call of [extract_endpoints]. *)
Definition document_after (doc : value) : result value :=
  self <- OpenAPIParser.__init__ doc ;;
  r <- OpenAPIParser.extract_endpoints urljoin_unused self ;;
  Ok (OpenAPIParser.spec (snd r)).

(* ================================================================== *)
(** * [parse_headers] *)
(* ================================================================== *)

(** A mapping from strings to strings, as [parse_headers] builds it and
    [HTTPFileMaker] takes it. *)
Fixpoint header_store (k v : string) (h : list (string * string))
  : list (string * string) :=
  match h with
  | [] => [(k, v)]
  | (k', v') :: h' =>
      if String.eqb k k' then (k', v) :: h' else (k', v') :: header_store k v h'
  end.

(** [key, value = pieces]: the unpacking of a two-element list. *)
Definition unpack2 (pieces : list string) : result (string * string) :=
  match pieces with
  | [key; value] => Ok (key, value)
  | _ => Raise ValueError
  end.

Definition invalid_header_warning (header_str : string) : string :=
  "Warning: Invalid header format '" ++ header_str ++ "', skipping.".

(** The body of the loop of [parse_headers]; the state is the mapping and
    the lines printed to the standard error stream. *)
Definition parse_header_step (st : list (string * string) * list string)
    (header_str : string) : result (list (string * string) * list string) :=
  let '(headers, stderr) := st in
  if Str.contains ":" header_str then
    kv <- unpack2 (Str.split_once ":"%char header_str) ;;
    Ok (header_store (Str.strip (fst kv)) (Str.strip (snd kv)) headers, stderr)
  else Ok (headers, app stderr [invalid_header_warning header_str]).

Definition parse_headers (header_strings : list string)
  : result (list (string * string) * list string) :=
  for_each parse_header_step header_strings ([], []).

(* ================================================================== *)
(** * [generate_http_file_from_openapi] *)
(* ================================================================== *)

(** The function reads and parses the file by constructing the parser;
    here it starts from the parsed document.  Its result is the content
    together with the files written. *)

(** [tags[0] if tags else 'Other'] *)
Definition tag_of (ep : endpoint) : result value :=
  if Py.truthy (ep_tags ep) then Py.getitem0 (ep_tags ep) else Ok (VStr "Other").

(** [by_tag[tag].append(endpoint)] on a [defaultdict(list)]. *)
Fixpoint group_append (tag : value) (ep : endpoint)
    (by_tag : list (value * list endpoint)) : list (value * list endpoint) :=
  match by_tag with
  | [] => [(tag, [ep])]
  | (tag', eps) :: rest =>
      if Py.key_eqb tag tag' then (tag', app eps [ep]) :: rest
      else (tag', eps) :: group_append tag ep rest
  end.

Definition group_step (by_tag : list (value * list endpoint)) (ep : endpoint)
  : result (list (value * list endpoint)) :=
  tag <- tag_of ep ;;
  if Py.hashable tag then Ok (group_append tag ep by_tag) else Raise TypeError.

(** [a < b] between two keys of the grouping: defined among strings and
    among integers and booleans, the orderable values of this model
    (which has no floating point numbers and no dates). *)
Definition tag_lt (a b : value) : result bool :=
  match a, b with
  | VStr s1, VStr s2 => Ok (String.ltb s1 s2)
  | VInt n1, VInt n2 => Ok (n1 <? n2)%Z
  | VInt n1, VBool b2 => Ok (n1 <? Z.b2z b2)%Z
  | VBool b1, VInt n2 => Ok (Z.b2z b1 <? n2)%Z
  | VBool b1, VBool b2 => Ok (Z.b2z b1 <? Z.b2z b2)%Z
  | _, _ => Raise TypeError
  end.

(** [sorted(by_tag.items())]: the keys of a mapping differ, so a pair is
    before another exactly when its key is smaller. *)
Fixpoint sorted_insert (g : value * list endpoint)
    (sorted : list (value * list endpoint)) : result (list (value * list endpoint)) :=
  match sorted with
  | [] => Ok [g]
  | g' :: rest =>
      smaller <- tag_lt (fst g) (fst g') ;;
      if smaller then Ok (g :: g' :: rest)
      else rest' <- sorted_insert g rest ;; Ok (g' :: rest')
  end.

Definition sorted_groups (by_tag : list (value * list endpoint))
  : result (list (value * list endpoint)) :=
  for_each (fun sorted g => sorted_insert g sorted) by_tag [].

(** The comment line taken from the description (lines 328-332). *)
Definition description_lines (ep : endpoint) : result (list string) :=
  if Py.truthy (ep_description ep) then
    match ep_description ep with
    | VStr text =>
        let desc_line := Str.strip (Str.split_first Py.newline text) in
        if negb (String.eqb desc_line "") && negb (Py.eq_str (ep_summary ep) desc_line)
        then Ok ["### " ++ desc_line]
        else Ok []
    | _ => Raise AttributeError
    end
  else Ok [].

(** The request of an endpoint (lines 335-344). *)
Definition request_lines (ep : endpoint) : list string :=
  let lines := [ep_method ep ++ " " ++ ep_url ep] in
  let lines := app lines (map (fun kv => Py.str (fst kv) ++ ": " ++ snd kv)
                              (ep_headers ep)) in
  match ep_body ep with
  | Some text => if String.eqb text "" then lines else app lines [""; text]
  | None => lines
  end.

(** The body of the loop over the endpoints of a tag (lines 324-348). *)
Definition endpoint_lines_step (lines : list string) (ep : endpoint)
  : result (list string) :=
  let lines := if Py.truthy (ep_summary ep)
               then app lines ["### " ++ Py.str (ep_summary ep)]
               else lines in
  description <- description_lines ep ;;
  Ok (app (app (app lines description) (request_lines ep)) [""; ""]).

(** The body of the loop over the tags (lines 320-348). *)
Definition tag_lines_step (lines : list string) (g : value * list endpoint)
  : result (list string) :=
  for_each endpoint_lines_step (snd g) (app lines ["### " ++ Py.str (fst g); ""]).

Definition banner (base : string) : list string :=
  ["### Generated from OpenAPI/Swagger specification";
   "### Base URL: " ++ base;
   ""].

Definition generate_http_file_from_openapi
    (urljoin : string -> string -> result string)
    (doc : value) (output_file : option string)
  : result (string * list (string * string)) :=
  parser <- OpenAPIParser.__init__ doc ;;
  r <- OpenAPIParser.extract_endpoints urljoin parser ;;
  by_tag <- for_each group_step (fst r) [] ;;
  groups <- sorted_groups by_tag ;;
  lines <- for_each tag_lines_step groups (banner (OpenAPIParser.base_url parser)) ;;
  let content := Str.join (String Py.newline EmptyString) lines in
  match output_file with
  | Some file => if String.eqb file "" then Ok (content, [])
                 else Ok (content, [(file, content)])
  | None => Ok (content, [])
  end.

(* ================================================================== *)
(** * Vocabulary of the further properties *)
(* ================================================================== *)

(** The two texts a security header can hold. *)
Definition is_token_placeholder (v : string) : Prop :=
  v = "Bearer <your-token>" \/ v = "<your-token>".

(** The header that announces a JSON body. *)
Definition has_json_content_type (ep : endpoint) : Prop :=
  In (VStr "Content-Type", "application/json") (ep_headers ep).

(** The operations a document declares: for each path in document order,
    the method keys of its path item in document order, in capitals. *)
Definition declared_operations (paths : value) : list (string * string) :=
  match paths with
  | VDict entries =>
      flat_map (fun kv =>
                  match snd kv with
                  | VDict item =>
                      map (fun e => (fst kv, Str.upper (fst e)))
                          (filter (fun e => OpenAPIParser.is_method (fst e)) item)
                  | _ => []
                  end) entries
  | _ => []
  end.

Definition http_methods : list string :=
  ["GET"; "POST"; "PUT"; "PATCH"; "DELETE"; "HEAD"; "OPTIONS"].

(** A document with one path, a parameter shared by its operations, an
    operation without body and one with the body of the user definition,
    and an entry that is no operation. *)
Definition page_parameter : value :=
  VDict [("in", VStr "query"); ("name", VStr "page"); ("default", VInt 1)].

Definition users_api_document : value :=
  VDict
    [("host", VStr "api.example.com");
     ("definitions", VDict [("User", VDict user_definition)]);
     ("paths",
      VDict
        [("/users",
          VDict
            [("parameters", VList [page_parameter]);
             ("get", VDict [("tags", VList [VStr "users"])]);
             ("x-internal", VBool true);
             ("post",
              VDict [("parameters",
                      VList [body_parameter
                               (VDict [("$ref", VStr "#/definitions/User")])])])])])].

Definition users_api_parser : OpenAPIParser.t :=
  parser_of users_api_document "https://api.example.com".

(** A property that is processed to a value: a mapping with an example
    or a synthesized type. *)
Definition producing (kv : string * value) : bool :=
  match snd kv with
  | VDict ps => produces_value ps
  | _ => false
  end.

(** The entry an item property gets in the example of an array: its own
    example, else the bare placeholder. *)
Definition item_entry (kv : string * value) : string * value :=
  (fst kv,
   match snd kv with
   | VDict ips => get_or "example" (VStr ("<" ++ fst kv ++ ">")) ips
   | _ => VNone
   end).

Definition is_mapping (v : value) : bool :=
  match v with
  | VDict _ => true
  | _ => false
  end.

(** A property schema whose type is not [array]. *)
Definition not_array (kv : string * value) : Prop :=
  forall ty, Py.get (snd kv) "type" (VStr "string") = Ok ty ->
             Py.eq_str ty "array" = false.

(** The shape of one iteration, for either loop: the schema is a mapping,
    and the property is stored exactly when it is processed to a value. *)
Definition step_stores_producing
    (step : list (string * value) -> string * value -> result (list (string * value)))
  : Prop :=
  forall example prop_name schema example',
    step example (prop_name, schema) = Ok example' ->
    (producing (prop_name, schema) = true /\
     exists v, example' = Py.setitem prop_name v example) \/
    (producing (prop_name, schema) = false /\ example' = example).

(** A definition with a number among its properties. *)
Definition product_properties : list (string * value) :=
  [("name", VDict [("type", VStr "string")]);
   ("price", VDict [("type", VStr "number")]);
   ("stock", VDict [("type", VStr "integer")])].

(** The same properties in a definition that requires the number, and an
    operation whose body refers to it. *)
Definition product_definition : list (string * value) :=
  [("properties", VDict product_properties); ("required", VList [VStr "price"])].

Definition product_document : value :=
  VDict [("definitions", VDict [("Product", VDict product_definition)])].

Definition product_operation : value :=
  operation_with [body_parameter (VDict [("$ref", VStr "#/definitions/Product")])].

Definition product_body : string :=
  text_of_lines ["{"; "  'name': '<name>',"; "  'stock': 0"; "}"].

(** A document whose order definition has an array of items; the item
    definition gives a type and a format to its properties. *)
Definition order_document : list (string * value) :=
  [("definitions",
    VDict [("Item",
            VDict [("properties",
                    VDict [("sku", VDict [("type", VStr "string"); ("example", VStr "A-1")]);
                           ("count", VDict [("type", VStr "integer"); ("default", VInt 1)]);
                           ("mail", VDict [("type", VStr "string");
                                           ("format", VStr "email")])])])])].

Definition order_items_schema : list (string * value) :=
  [("type", VStr "array");
   ("items", VDict [("$ref", VStr "#/components/schemas/Item")])].

(** A definition of type object without arrays, in a document. *)
Definition account_definition : list (string * value) :=
  [("type", VStr "object");
   ("required", VList [VStr "mail"]);
   ("properties",
    VDict [("mail", VDict [("type", VStr "string"); ("format", VStr "email")]);
           ("active", VDict [("type", VStr "boolean")]);
           ("profile", VDict [("type", VStr "object")])])].

Definition account_document : list (string * value) :=
  [("definitions", VDict [("Account", VDict account_definition)])].

(** A header that the command line can pass on unchanged: no colon in
    its name, and no blank around its name or its value. *)
Definition plain_header (kv : string * string) : bool :=
  negb (Str.contains ":" (fst kv))
  && String.eqb (Str.strip (fst kv)) (fst kv)
  && String.eqb (Str.strip (snd kv)) (snd kv).

Fixpoint unique_names (h : list (string * string)) : bool :=
  match h with
  | [] => true
  | (k, _) :: h' => negb (existsb (String.eqb k) (map fst h')) && unique_names h'
  end.

(** The header lines of the REST Client format. *)
Definition rest_client_header_lines (h : list (string * string)) : list string :=
  map (fun kv => fst kv ++ ": " ++ snd kv) h.

Definition sample_maker : HTTPFileMaker.t :=
  {| HTTPFileMaker.method := "POST";
     HTTPFileMaker.url := "https://api.example.com/users";
     HTTPFileMaker.headers := [("Content-Type", "application/json");
                               ("X-Token", "a:b")];
     HTTPFileMaker.body := Some "{}";
     HTTPFileMaker.format_type := "rest-client" |}.

(** That an endpoint falls under a tag of the grouping. *)
Definition has_tag (tag : value) (ep : endpoint) : bool :=
  match tag_of ep with
  | Ok t => Py.key_eqb t tag
  | Raise _ => false
  end.

(** The first group is before the second: its tag is the smaller. *)
Definition group_before (a b : value * list endpoint) : Prop :=
  tag_lt (fst a) (fst b) = Ok true.

(** The tags of a grouping are different keys. *)
Fixpoint distinct_tags (g : list (value * list endpoint)) : Prop :=
  match g with
  | [] => True
  | (t, _) :: g' =>
      (forall t' ms, In (t', ms) g' -> Py.key_eqb t t' = false) /\ distinct_tags g'
  end.

(** The first line of the request of an endpoint. *)
Definition request_line (ep : endpoint) : string :=
  ep_method ep ++ " " ++ ep_url ep.

(** A grouping of endpoints: different tags, under each tag the endpoints
    of that tag in their order, none left out and none twice. *)
Definition grouping_of (eps : list endpoint) (g : list (value * list endpoint))
  : Prop :=
  distinct_tags g /\
  (forall t ms, In (t, ms) g -> ms <> [] /\ ms = filter (has_tag t) eps) /\
  Permutation (flat_map snd g) eps.

(** The tags that [<] can compare with each other: all of them strings, or
    all of them integers and booleans. *)
Definition is_text_tag (g : value * list endpoint) : Prop :=
  exists s, fst g = VStr s.

Definition is_number_tag (g : value * list endpoint) : Prop :=
  (exists n, fst g = VInt n) \/ (exists b, fst g = VBool b).

Definition comparable_tags (g : list (value * list endpoint)) : Prop :=
  Forall is_text_tag g \/ Forall is_number_tag g.

(** Endpoints as the walker gives them, for the examples of the grouping:
    only the method, the URL and the tags matter there. *)
Definition tagged_endpoint (method url : string) (tags : value) : endpoint :=
  {| ep_method := method;
     ep_url := url;
     ep_headers := [];
     ep_body := None;
     ep_summary := VStr "";
     ep_description := VStr "";
     ep_operation_id := VStr "";
     ep_path := url;
     ep_tags := tags |}.

Definition tagged_endpoints : list endpoint :=
  [tagged_endpoint "GET" "/zebras" (VList [VStr "zoo"; VStr "animals"]);
   tagged_endpoint "GET" "/health" (VList []);
   tagged_endpoint "POST" "/zebras" (VList [VStr "zoo"]);
   tagged_endpoint "GET" "/apples" (VList [VStr "fruit"])].

(** The request maker of the single request mode, for the request of an
    endpoint. *)
Definition maker_headers (ep : endpoint) : list (string * string) :=
  map (fun kv => (Py.str (fst kv), snd kv)) (ep_headers ep).

(** The groups of these endpoints, as the grouping leaves them. *)
Definition tagged_groups : list (value * list endpoint) :=
  [(VStr "zoo",
    [tagged_endpoint "GET" "/zebras" (VList [VStr "zoo"; VStr "animals"]);
     tagged_endpoint "POST" "/zebras" (VList [VStr "zoo"])]);
   (VStr "Other", [tagged_endpoint "GET" "/health" (VList [])]);
   (VStr "fruit", [tagged_endpoint "GET" "/apples" (VList [VStr "fruit"])])].

(** [headers.get(k)] on the mapping of the parsed headers. *)
Definition header_value (k : string) (h : list (string * string)) : option string :=
  option_map snd (find (fun kv => String.eqb k (fst kv)) h).

(* ================================================================== *)
(** * Properties *)
(* ================================================================== *)

Example rstrip_ex : Str.rstrip "/" "http://h/v1//" = "http://h/v1".
Proof. reflexivity. Qed.

Example split_last_ex : Str.split_last "/" "#/definitions/User" = "User".
Proof. reflexivity. Qed.

Example replace_ex : Str.replace "{id}" "42" "/u/{id}/x/{id}" = "/u/42/x/42".
Proof. reflexivity. Qed.

Example of_Z_ex : (Str.of_Z 0, Str.of_Z 42, Str.of_Z (-7)) = ("0", "42", "-7").
Proof. reflexivity. Qed.



#[local] Arguments Ascii.eqb : simpl never.
#[local] Arguments String.eqb : simpl never.

(* ------------------------------------------------------------------ *)
(** ** Strings *)

Lemma append_nil_r (s : string) : s ++ "" = s.
Proof. induction s as [|a s IH]; simpl; [reflexivity | now rewrite IH]. Qed.

Lemma append_assoc (s1 s2 s3 : string) : (s1 ++ s2) ++ s3 = s1 ++ s2 ++ s3.
Proof. induction s1 as [|a s1 IH]; simpl; [reflexivity | now rewrite IH]. Qed.

Lemma length_append (s1 s2 : string) :
  String.length (s1 ++ s2) = (String.length s1 + String.length s2)%nat.
Proof. induction s1 as [|a s1 IH]; simpl; [reflexivity | now rewrite IH]. Qed.

Lemma startswith_append (p rest : string) : Str.startswith p (p ++ rest) = true.
Proof.
  induction p as [|a p IH]; simpl; [reflexivity|].
  now rewrite Ascii.eqb_refl, IH.
Qed.

(* ------------------------------------------------------------------ *)
(** ** The error monad and the primitives *)

Lemma bind_ok (A B : Type) (m : result A) (k : A -> result B) (b : B) :
  bind m k = Ok b -> exists a, m = Ok a /\ k a = Ok b.
Proof.
  destruct m as [a|e]; simpl; intros H; [exists a; auto | discriminate].
Qed.

Lemma eq_str_true (v : value) (s : string) :
  Py.eq_str v s = true <-> v = VStr s.
Proof.
  destruct v; simpl; split; intros H; try discriminate.
  - apply String.eqb_eq in H. now subst.
  - inversion H. apply String.eqb_refl.
Qed.

Lemma eq_str_false (v : value) (s : string) :
  Py.eq_str v s = false <-> v <> VStr s.
Proof.
  rewrite <- eq_str_true. destruct (Py.eq_str v s); split; congruence.
Qed.

Lemma existsb_eqb_In (s : string) (l : list string) :
  existsb (String.eqb s) l = true <-> In s l.
Proof.
  rewrite existsb_exists. split.
  - intros [x [Hin Heq]]. apply String.eqb_eq in Heq. now subst.
  - intros Hin. exists s. split; [assumption | apply String.eqb_refl].
Qed.

(* ------------------------------------------------------------------ *)
(** ** The output format selector *)

Section FormatSelector.

Import HTTPFileMaker.

Lemma generate_known_format (self : t) :
  In (format_type self) FORMATS -> exists text, generate self = Ok text.
Proof.
  unfold generate, FORMATS. simpl.
  intros [H | [H | [H | []]]]; rewrite <- H; simpl; eauto.
Qed.

(** C9.  Construction raises exactly when the format is not one of
    rest-client, httpie, curl; for one of these it returns the maker
    holding that format, and [generate] on it returns a text: its
    closing [raise] is never reached. *)
Theorem C9_format_checked_at_construction
    (m u : string) (h : option (list (string * string))) (b : option string)
    (f : string) :
  ((exists e, __init__ m u h b f = Raise e) <-> ~ In f FORMATS) /\
  ((exists self, __init__ m u h b f = Ok self /\ format_type self = f /\
                 exists text, generate self = Ok text) <-> In f FORMATS).
Proof.
  unfold __init__.
  destruct (existsb (String.eqb f) FORMATS) eqn:E; simpl.
  - apply existsb_eqb_In in E. split; split.
    + intros [e He]. discriminate.
    + intros Hn. contradiction.
    + intros _. assumption.
    + intros _. eexists. split; [reflexivity|]. split; [reflexivity|].
      apply generate_known_format. exact E.
  - assert (Hn : ~ In f FORMATS).
    { intros Hin. apply existsb_eqb_In in Hin. congruence. }
    split; split.
    + intros _. assumption.
    + intros _. exists ValueError. reflexivity.
    + intros [self [He _]]. discriminate.
    + intros Hin. contradiction.
Qed.

End FormatSelector.

(* ------------------------------------------------------------------ *)
(** ** The base URL *)

Section BaseUrl.

Import OpenAPIParser.

Lemma build_base_url_unfold (d : list (string * value)) :
  _build_base_url (VDict d) =
  (scheme <- Py.getitem0 (get_or "schemes" (VList [VStr "https"]) d) ;;
   Ok (Py.str scheme ++ "://" ++ host_and_base_path d)).
Proof.
  unfold _build_base_url, host_and_base_path, get_or. simpl.
  destruct (Py.getitem0 _); reflexivity.
Qed.

(** C10.  The scheme is [https] when the document has no [schemes] key;
    when it has one, the scheme is element 0 of its value and the default
    plays no part.  With [schemes: []] that indexing raises [IndexError],
    out of [_build_base_url] and so out of the constructor. *)
Theorem C10_empty_schemes_raises (d : list (string * value)) :
  match Py.lookup "schemes" d with
  | None =>
      _build_base_url (VDict d) = Ok ("https://" ++ host_and_base_path d)
  | Some schemes =>
      _build_base_url (VDict d) =
      (scheme <- Py.getitem0 schemes ;;
       Ok (Py.str scheme ++ "://" ++ host_and_base_path d))
  end /\
  (Py.lookup "schemes" d = Some (VList []) ->
   _build_base_url (VDict d) = Raise IndexError /\
   __init__ (VDict d) = Raise IndexError).
Proof.
  split.
  - rewrite build_base_url_unfold. unfold get_or.
    destruct (Py.lookup "schemes" d); reflexivity.
  - intros H. unfold __init__. rewrite build_base_url_unfold.
    unfold get_or. rewrite H. split; reflexivity.
Qed.

Lemma C10_empty_schemes_raises_witness :
  _build_base_url (VDict [("schemes", VList []); ("host", VStr "api.example.com")])
    = Raise IndexError /\
  __init__ (VDict [("schemes", VList []); ("host", VStr "api.example.com")])
    = Raise IndexError.
Proof.
  apply (proj2 (C10_empty_schemes_raises
                  [("schemes", VList []); ("host", VStr "api.example.com")])).
  reflexivity.
Defined.

End BaseUrl.

(* ------------------------------------------------------------------ *)
(** ** The per-property rules *)

Section PropertyRules.

Import OpenAPIParser.

Lemma contains_dict (d : list (string * value)) (k : string) :
  Py.contains (VDict d) k = Ok (has_key k d).
Proof. reflexivity. Qed.

Lemma has_key_false (k : string) (d : list (string * value)) :
  has_key k d = false <-> Py.lookup k d = None.
Proof.
  unfold has_key. destruct (Py.lookup k d); split; congruence.
Qed.

Lemma string_value_cases (name : string) (ps : list (string * value)) :
  exists text,
    string_value name (VDict ps) = Ok (VStr text) /\
    (Py.lookup "format" ps = Some (VStr "email") -> text = "user@example.com") /\
    (Py.lookup "format" ps = Some (VStr "date-time") -> text = "2024-12-31T23:59:59Z") /\
    (Py.lookup "format" ps <> Some (VStr "email") ->
     Py.lookup "format" ps <> Some (VStr "date-time") ->
     text = "<" ++ name ++ ">").
Proof.
  unfold string_value. simpl.
  destruct (Py.lookup "format" ps) as [fmt|] eqn:F.
  - destruct (Py.eq_str fmt "email") eqn:E1.
    + apply eq_str_true in E1. subst fmt. eexists. split; [reflexivity|].
      repeat split; intros; congruence.
    + destruct (Py.eq_str fmt "date-time") eqn:E2.
      * apply eq_str_true in E2. subst fmt. eexists. split; [reflexivity|].
        repeat split; intros; congruence.
      * apply eq_str_false in E1. apply eq_str_false in E2.
        eexists. split; [reflexivity|].
        repeat split; intros; congruence.
  - simpl. eexists. split; [reflexivity|]. repeat split; intros; congruence.
Qed.

(** C8.  A property schema with no [example] and of type string (by its
    [type], or by default when it has none) is given, under a referenced
    definition and under an inline schema alike, the text
    [user@example.com] when its format is email, [2024-12-31T23:59:59Z]
    when its format is date-time, and [<propertyName>] otherwise; that
    text is what the loop stores under the property's name. *)
Theorem C8_string_property_values
    (self : t) (prop_name : string) (ps : list (string * value)) :
  Py.lookup "example" ps = None ->
  get_or "type" (VStr "string") ps = VStr "string" ->
  exists text,
    definition_property_value self prop_name (VDict ps) = Ok (Some (VStr text)) /\
    inline_property_value prop_name (VDict ps) = Ok (Some (VStr text)) /\
    (forall required example,
        definition_property_step self (VList required) example (prop_name, VDict ps)
          = Ok (Py.setitem prop_name (VStr text) example) /\
        inline_property_step (VList required) example (prop_name, VDict ps)
          = Ok (Py.setitem prop_name (VStr text) example)) /\
    (Py.lookup "format" ps = Some (VStr "email") -> text = "user@example.com") /\
    (Py.lookup "format" ps = Some (VStr "date-time") ->
     text = "2024-12-31T23:59:59Z") /\
    (Py.lookup "format" ps <> Some (VStr "email") ->
     Py.lookup "format" ps <> Some (VStr "date-time") ->
     text = "<" ++ prop_name ++ ">").
Proof.
  intros Hex Hty.
  destruct (string_value_cases prop_name ps) as [text [Hv Hcases]].
  assert (Hd : definition_property_value self prop_name (VDict ps)
               = Ok (Some (VStr text))).
  { unfold definition_property_value. simpl. fold (get_or "type" (VStr "string") ps).
    rewrite Hty. simpl. rewrite Hv. reflexivity. }
  assert (Hi : inline_property_value prop_name (VDict ps) = Ok (Some (VStr text))).
  { unfold inline_property_value. simpl. fold (get_or "type" (VStr "string") ps).
    rewrite Hty. simpl. rewrite Hv. reflexivity. }
  exists text. split; [exact Hd|]. split; [exact Hi|]. split; [|exact Hcases].
  intros required example.
  unfold definition_property_step, inline_property_step.
  rewrite contains_dict.
  apply has_key_false in Hex. rewrite Hex. simpl.
  rewrite Hd, Hi. simpl.
  split.
  - destruct (negb _ && negb _); reflexivity.
  - destruct (_ || _); reflexivity.
Qed.

Lemma C8_string_property_values_witness :
  exists text,
    definition_property_value {| spec := VDict []; base_url := "" |} "mail"
      (VDict [("type", VStr "string"); ("format", VStr "email")])
      = Ok (Some (VStr text)) /\
    text = "user@example.com".
Proof.
  destruct (C8_string_property_values {| spec := VDict []; base_url := "" |} "mail"
              [("type", VStr "string"); ("format", VStr "email")]
              eq_refl eq_refl)
    as [text [Hd [_ [_ [Hmail _]]]]].
  exists text. split; [exact Hd | apply Hmail; reflexivity].
Defined.

End PropertyRules.

(* ------------------------------------------------------------------ *)
(** ** Which parameter gives the request body *)

Section RequestBody.

Import OpenAPIParser.

Lemma for_return_app (A R : Type) (body : A -> result (option R))
    (before after : list A) :
  Forall (fun q => body q = Ok None) before ->
  for_return body (before ++ after)%list = for_return body after.
Proof.
  induction 1 as [|q before Hq _ IH]; simpl; [reflexivity|].
  rewrite Hq. simpl. exact IH.
Qed.

Lemma for_return_some (A R : Type) (body : A -> result (option R))
    (l : list A) (r : R) :
  for_return body l = Ok (Some r) ->
  exists before p after,
    l = (before ++ p :: after)%list /\
    Forall (fun q => body q = Ok None) before /\
    body p = Ok (Some r).
Proof.
  induction l as [|x l IH]; simpl; [discriminate|].
  intros H. apply bind_ok in H. destruct H as [o [Hx H]].
  destruct o as [v|].
  - inversion H; subst. exists [], x, l. repeat split; auto.
  - destruct (IH H) as [before [p [after [-> [Hb Hp]]]]].
    exists (x :: before), p, after. repeat split; auto.
Qed.

Lemma for_return_none (A R : Type) (body : A -> result (option R)) (l : list A) :
  for_return body l = Ok None <-> Forall (fun q => body q = Ok None) l.
Proof.
  induction l as [|x l IH]; simpl.
  - split; auto.
  - split.
    + intros H. apply bind_ok in H. destruct H as [o [Hx H]].
      destruct o; [discriminate|]. constructor; [assumption | now apply IH].
    + intros H. inversion H; subst. rewrite H2. simpl. now apply IH.
Qed.

Lemma body_of_parameter_some (self : t) (p : value) (text : string) :
  body_of_parameter self p = Ok (Some text) ->
  Py.get p "in" VNone = Ok (VStr "body").
Proof.
  unfold body_of_parameter. intros H.
  apply bind_ok in H. destruct H as [loc [Hloc H]].
  destruct (Py.eq_str loc "body") eqn:E; [|discriminate].
  apply eq_str_true in E. now subst.
Qed.

(** C1, counterexample.  The first body parameter refers to a definition
    the document does not have and yields nothing; the body returned is
    the one of the second body parameter. *)
Lemma C1_later_body_parameter_is_consulted :
  let self := parser_of (VDict [("definitions", VDict [])]) "https://h" in
  let first := body_parameter (VDict [("$ref", VStr "#/definitions/Missing")]) in
  let second := body_parameter (VDict [("example", VDict [("a", VInt 1)])]) in
  body_of_parameter self first = Ok None /\
  _get_request_body self (operation_with [first; second])
    = Ok (Some (text_of_lines ["{"; "  'a': 1"; "}"])) /\
  _get_request_body self (operation_with [first; second]) <> Ok None.
Proof.
  cbv zeta. split; [reflexivity|]. split; [reflexivity|].
  vm_compute. discriminate.
Qed.

(** C1, as amended.  The loop returns the body of the first parameter
    whose schema yields a text, and that parameter is a body parameter;
    the parameters before it, body parameters among them, yielded
    nothing and were passed over.  The result is absent exactly when no
    parameter yields a text. *)
Theorem C1_first_yielding_body_parameter
    (self : t) (operation : value) (params : list value) :
  Py.get operation "parameters" (VList []) = Ok (VList params) ->
  (forall text,
      _get_request_body self operation = Ok (Some text) <->
      exists before p after,
        params = (before ++ p :: after)%list /\
        Forall (fun q => body_of_parameter self q = Ok None) before /\
        Py.get p "in" VNone = Ok (VStr "body") /\
        body_of_parameter self p = Ok (Some text)) /\
  (_get_request_body self operation = Ok None <->
   Forall (fun q => body_of_parameter self q = Ok None) params).
Proof.
  intros Hp. unfold _get_request_body. rewrite Hp. simpl. split.
  - intros text. split.
    + intros H. apply for_return_some in H.
      destruct H as [before [p [after [-> [Hb Hy]]]]].
      exists before, p, after. repeat split; auto.
      eapply body_of_parameter_some; eassumption.
    + intros [before [p [after [-> [Hb [_ Hy]]]]]].
      rewrite for_return_app by assumption. simpl. rewrite Hy. reflexivity.
  - apply for_return_none.
Qed.

Lemma C1_first_yielding_body_parameter_witness :
  let self := parser_of (VDict [("definitions", VDict [])]) "https://h" in
  let first := body_parameter (VDict [("$ref", VStr "#/definitions/Missing")]) in
  let second := body_parameter (VDict [("example", VDict [("a", VInt 1)])]) in
  _get_request_body self (operation_with [first; second])
    = Ok (Some (text_of_lines ["{"; "  'a': 1"; "}"])).
Proof.
  cbv zeta.
  apply (proj1 (C1_first_yielding_body_parameter
                  (parser_of (VDict [("definitions", VDict [])]) "https://h")
                  (operation_with
                     [body_parameter (VDict [("$ref", VStr "#/definitions/Missing")]);
                      body_parameter (VDict [("example", VDict [("a", VInt 1)])])])
                  _ eq_refl)).
  exists [body_parameter (VDict [("$ref", VStr "#/definitions/Missing")])],
         (body_parameter (VDict [("example", VDict [("a", VInt 1)])])), [].
  split; [reflexivity|]. split.
  - constructor; [reflexivity | constructor].
  - split; reflexivity.
Defined.

End RequestBody.

(* ------------------------------------------------------------------ *)
(** ** Inline schemas against referenced definitions *)

Section InlineAgainstReferenced.

Import OpenAPIParser.

(** Outside arrays the two chains are the same rule. *)
Lemma inline_value_agrees_except_array
    (self : t) (prop_name : string) (prop_schema : value) :
  (forall ty, Py.get prop_schema "type" (VStr "string") = Ok ty ->
              Py.eq_str ty "array" = false) ->
  inline_property_value prop_name prop_schema
  = definition_property_value self prop_name prop_schema.
Proof.
  intros Hty. unfold inline_property_value, definition_property_value.
  destruct (Py.get prop_schema "type" (VStr "string")) as [ty|e] eqn:G; simpl;
    [|reflexivity].
  rewrite (Hty ty eq_refl). reflexivity.
Qed.

(** C3, at the failing input.  For a property of type array whose items
    refer to a definition with properties, the referenced-definition
    branch builds a list holding one example object, and the inline
    branch gives the empty list: the bodies of the two operations differ. *)
Theorem C3_inline_array_items_not_resolved :
  let self := parser_of pet_document "https://h" in
  definition_property_value self "tags" tags_schema
    = Ok (Some (VList [VDict [("name", VStr "<name>")]])) /\
  inline_property_value "tags" tags_schema = Ok (Some (VList [])) /\
  _get_request_body self (operation_with [body_parameter pet_by_reference])
    = Ok (Some (text_of_lines
                  ["{";
                   "  'tags': [";
                   "    {";
                   "      'name': '<name>'";
                   "    }";
                   "  ]";
                   "}"])) /\
  _get_request_body self (operation_with [body_parameter pet_inline])
    = Ok (Some (text_of_lines ["{"; "  'tags': []"; "}"])).
Proof.
  cbv zeta. repeat split; reflexivity.
Qed.

End InlineAgainstReferenced.
(* ------------------------------------------------------------------ *)
(** ** Every processed property is included *)

Section Inclusion.

Import OpenAPIParser.

Variable self : t.

Lemma contains_container (required : value) (k : string) :
  is_container required = true -> exists b, Py.contains required k = Ok b.
Proof.
  destruct required; simpl; intros H; try discriminate; eauto.
Qed.

(** The closing test changes nothing: both of its outcomes go on to the
    next property with the same example object. *)
Lemma guard_is_void (required : value) (example : list (string * value))
    (kv : string * value) :
  is_container required = true ->
  definition_property_step self required example kv
  = property_step_without_guard self example kv.
Proof.
  intros Hc. destruct kv as [prop_name prop_schema].
  unfold definition_property_step, property_step_without_guard.
  destruct (Py.contains prop_schema "example") as [[|]|e]; simpl; try reflexivity.
  destruct (definition_property_value self prop_name prop_schema) as [produced|e];
    simpl; [|reflexivity].
  destruct (contains_container required prop_name Hc) as [b ->]. simpl.
  destruct (negb b && _); reflexivity.
Qed.

Lemma for_each_ext (A B : Type) (f g : B -> A -> result B) (l : list A) (acc : B) :
  (forall b a, f b a = g b a) -> for_each f l acc = for_each g l acc.
Proof.
  intros H. revert acc. induction l as [|x l IH]; intros acc; simpl; [reflexivity|].
  rewrite H. destruct (g acc x); simpl; auto.
Qed.

Lemma lookup_setitem_same (k : string) (v : value) (d : list (string * value)) :
  Py.lookup k (Py.setitem k v d) = Some v.
Proof.
  induction d as [|[k' v'] d IH]; simpl.
  - now rewrite String.eqb_refl.
  - destruct (String.eqb k k') eqn:E; simpl.
    + now rewrite String.eqb_refl.
    + now rewrite E.
Qed.

Lemma lookup_setitem_other (k k0 : string) (v : value) (d : list (string * value)) :
  k <> k0 -> Py.lookup k (Py.setitem k0 v d) = Py.lookup k d.
Proof.
  intros Hne. induction d as [|[k' v'] d IH]; simpl.
  - apply String.eqb_neq in Hne. now rewrite Hne.
  - destruct (String.eqb k0 k') eqn:E; simpl.
    + apply String.eqb_eq in E. subst k'.
      apply String.eqb_neq in Hne. now rewrite Hne.
    + destruct (String.eqb k k'); auto.
Qed.

Lemma has_key_setitem (k k0 : string) (v : value) (d : list (string * value)) :
  has_key k (Py.setitem k0 v d) = String.eqb k k0 || has_key k d.
Proof.
  unfold has_key. destruct (String.eqb k k0) eqn:E; simpl.
  - apply String.eqb_eq in E. subst. now rewrite lookup_setitem_same.
  - apply String.eqb_neq in E. now rewrite lookup_setitem_other.
Qed.

Lemma step_without_guard_keeps_keys (example example' : list (string * value))
    (kv : string * value) (k : string) :
  property_step_without_guard self example kv = Ok example' ->
  has_key k example = true -> has_key k example' = true.
Proof.
  destruct kv as [prop_name prop_schema]. unfold property_step_without_guard.
  intros H Hk. apply bind_ok in H. destruct H as [b [_ H]].
  destruct b.
  - apply bind_ok in H. destruct H as [ex [_ H]]. inversion H; subst.
    rewrite has_key_setitem, Hk. apply orb_true_r.
  - apply bind_ok in H. destruct H as [produced [_ H]]. inversion H; subst.
    destruct produced; simpl; [|assumption].
    rewrite has_key_setitem, Hk. apply orb_true_r.
Qed.

Lemma for_each_without_guard_keeps_keys (props : list (string * value)) :
  forall example example' k,
    for_each (property_step_without_guard self) props example = Ok example' ->
    has_key k example = true -> has_key k example' = true.
Proof.
  induction props as [|kv props IH]; simpl; intros example example' k H Hk.
  - inversion H; subst. assumption.
  - apply bind_ok in H. destruct H as [mid [Hs H]].
    eapply IH; [exact H|].
    eapply step_without_guard_keeps_keys; eassumption.
Qed.

Lemma produced_value_is_some (prop_name : string) (ps : list (string * value))
    (produced : option value) :
  has_key "example" ps = false ->
  produces_value ps = true ->
  definition_property_value self prop_name (VDict ps) = Ok produced ->
  exists v, produced = Some v.
Proof.
  unfold produces_value, definition_property_value. intros Hex Hp.
  rewrite Hex in Hp. simpl in Hp. cbn [Py.get bind].
  fold (get_or "type" (VStr "string") ps).
  destruct (Py.eq_str (get_or "type" (VStr "string") ps) "string"); simpl.
  { intros H. apply bind_ok in H. destruct H as [v [_ H]]. inversion H. eauto. }
  destruct (Py.eq_str (get_or "type" (VStr "string") ps) "integer"); simpl.
  { intros H. inversion H. eauto. }
  destruct (Py.eq_str (get_or "type" (VStr "string") ps) "boolean"); simpl.
  { intros H. inversion H. eauto. }
  destruct (Py.eq_str (get_or "type" (VStr "string") ps) "array"); simpl.
  { intros H. apply bind_ok in H. destruct H as [v [_ H]]. inversion H. eauto. }
  destruct (Py.eq_str (get_or "type" (VStr "string") ps) "object"); simpl.
  { intros H. inversion H. eauto. }
  discriminate.
Qed.

Lemma step_without_guard_includes (example example' : list (string * value))
    (prop_name : string) (ps : list (string * value)) :
  produces_value ps = true ->
  property_step_without_guard self example (prop_name, VDict ps) = Ok example' ->
  has_key prop_name example' = true.
Proof.
  intros Hp. unfold property_step_without_guard. rewrite contains_dict. simpl.
  destruct (has_key "example" ps) eqn:Hex.
  - intros H. apply bind_ok in H. destruct H as [ex [_ H]]. inversion H; subst.
    rewrite has_key_setitem, String.eqb_refl. reflexivity.
  - intros H. apply bind_ok in H. destruct H as [produced [Hv H]].
    inversion H; subst.
    destruct (produced_value_is_some _ _ _ Hex Hp Hv) as [v ->]. simpl.
    rewrite has_key_setitem, String.eqb_refl. reflexivity.
Qed.

Lemma for_each_without_guard_includes (props : list (string * value)) :
  forall example example' prop_name ps,
    for_each (property_step_without_guard self) props example = Ok example' ->
    In (prop_name, VDict ps) props ->
    produces_value ps = true ->
    has_key prop_name example' = true.
Proof.
  induction props as [|kv props IH]; simpl; intros example example' n ps H Hin Hp.
  - contradiction.
  - apply bind_ok in H. destruct H as [mid [Hs H]].
    destruct Hin as [-> | Hin].
    + eapply for_each_without_guard_keeps_keys; [exact H|].
      eapply step_without_guard_includes; eassumption.
    + eapply IH; eassumption.
Qed.

Lemma for_each_without_guard_returns (props : list (string * value)) :
  forallb (property_returns self) props = true ->
  forall example,
    exists example', for_each (property_step_without_guard self) props example
                     = Ok example'.
Proof.
  induction props as [|[n schema] props IH]; simpl; intros H example; [eauto|].
  apply andb_true_iff in H. destruct H as [Hr Hrest].
  unfold property_returns in Hr. simpl in Hr.
  destruct schema as [| | | | |ps]; try discriminate.
  rewrite contains_dict. simpl.
  destruct (has_key "example" ps) eqn:Hex.
  - unfold has_key in Hex. simpl.
    destruct (Py.lookup "example" ps); [|discriminate]. simpl. apply IH, Hrest.
  - simpl in Hr.
    destruct (definition_property_value self n (VDict ps)); [|discriminate].
    simpl. apply IH, Hrest.
Qed.

(** C6, as amended.  For the definition with a string [name], an integer
    [age] of default 0 and [required: [name]], the body is the text
    below, with two-space indentation; it is valid JSON and denotes the
    object with ["name": "<name>"] and ["age": 0].  In general, when the
    processing of each property returns, the example object is the one
    the loop builds without its closing test, whatever [required] lists,
    and every property that is processed to a value (it has an example,
    or its type is string, integer, boolean, array or object, string
    being the default) is a key of that object. *)
Theorem C6_processed_properties_are_included (props : list (string * value)) :
  forallb (property_returns self) props = true ->
  (_get_request_body (parser_of user_document (base_url self)) user_operation
     = Ok (Some user_body) /\
   JsonSyntax.loads user_body
     = Some (VDict [("name", VStr "<name>"); ("age", VInt 0)])) /\
  exists example,
    for_each (property_step_without_guard self) props [] = Ok example /\
    (forall d,
        Py.lookup "properties" d = Some (VDict props) ->
        is_container (get_or "required" (VList []) d) = true ->
        definition_example self (VDict d) = Ok (VDict example)) /\
    (forall prop_name ps,
        In (prop_name, VDict ps) props ->
        produces_value ps = true ->
        has_key prop_name example = true).
Proof.
  intros Hret. split; [split; reflexivity|].
  destruct (for_each_without_guard_returns props Hret []) as [example Hex].
  exists example. split; [exact Hex|]. split.
  - intros d Hprops Hreq. unfold definition_example. cbn [Py.get bind].
    fold (get_or "required" (VList []) d). rewrite Hprops. cbn [Py.items bind].
    rewrite (for_each_ext _ _ _ (property_step_without_guard self)).
    + rewrite Hex. reflexivity.
    + intros b a. apply guard_is_void. exact Hreq.
  - intros prop_name ps Hin Hp.
    eapply for_each_without_guard_includes; eassumption.
Qed.

End Inclusion.

Lemma C6_processed_properties_are_included_witness :
  OpenAPIParser.definition_example (parser_of user_document "https://h")
    (VDict user_definition)
  = Ok (VDict [("name", VStr "<name>"); ("age", VInt 0)]).
Proof.
  destruct (C6_processed_properties_are_included
              (parser_of user_document "https://h") user_properties eq_refl)
    as [_ [example [Hrun [Hdef _]]]].
  rewrite (Hdef user_definition eq_refl eq_refl).
  vm_compute in Hrun. inversion Hrun. reflexivity.
Defined.

(** C6, counterexample.  The definition has a string [name], a number
    [price] and an integer [stock], and requires [price].  The loop
    processes all three properties, and the body has [name] and [stock]
    only: no arm of the chain of types gives a number a value, and being
    required brings nothing into the object.  So not every processed
    property is included. *)
Lemma C6_required_number_is_left_out :
  OpenAPIParser._get_request_body (parser_of product_document "https://h")
    product_operation
  = Ok (Some product_body) /\
  JsonSyntax.loads product_body
  = Some (VDict [("name", VStr "<name>"); ("stock", VInt 0)]) /\
  In ("price", VDict [("type", VStr "number")]) product_properties /\
  Py.contains (VList [VStr "price"]) "price" = Ok true /\
  ~ (forall prop_name schema,
        In (prop_name, schema) product_properties ->
        OpenAPIParser.has_key prop_name
          [("name", VStr "<name>"); ("stock", VInt 0)] = true).
Proof.
  split; [reflexivity|]. split; [reflexivity|].
  split; [right; left; reflexivity|]. split; [reflexivity|].
  intros H.
  specialize (H "price" (VDict [("type", VStr "number")])
                (or_intror (or_introl eq_refl))).
  vm_compute in H. discriminate.
Qed.

(* ------------------------------------------------------------------ *)
(** ** Security headers *)

Section SecurityHeaders.

Import OpenAPIParser.

Lemma key_eqb_str (n : string) (k : value) :
  Py.key_eqb (VStr n) k = true -> k = VStr n.
Proof.
  destruct k; simpl; try discriminate.
  intros H. apply String.eqb_eq in H. now subst.
Qed.

Lemma header_set_sound (n v0 : string) (h : header_map) (k : value) (v : string) :
  In (k, v) (header_set (VStr n) v0 h) -> (k, v) = (VStr n, v0) \/ In (k, v) h.
Proof.
  induction h as [|[k' v'] h IH]; cbn [header_set].
  - intros [H | []]. left. now symmetry.
  - destruct (Py.key_eqb (VStr n) k') eqn:E.
    + apply key_eqb_str in E. subst k'.
      intros [H | H]; [left; now symmetry | right; now right].
    + intros [H | H]; [right; now left|].
      destruct (IH H) as [H' | H']; [now left | right; now right].
Qed.

Lemma header_set_stores (n v0 : string) (h : header_map) :
  In (VStr n, v0) (header_set (VStr n) v0 h).
Proof.
  induction h as [|[k' v'] h IH]; cbn [header_set].
  - now left.
  - destruct (Py.key_eqb (VStr n) k') eqn:E.
    + apply key_eqb_str in E. subst k'. now left.
    + now right.
Qed.

Lemma header_set_keeps_keys (k0 : value) (v0 : string) (h : header_map)
    (k : value) (v : string) :
  In (k, v) h -> exists v', In (k, v') (header_set k0 v0 h).
Proof.
  induction h as [|[k' v'] h IH]; cbn [header_set]; [contradiction|].
  intros [H | H].
  - inversion H; subst. destruct (Py.key_eqb k0 k).
    + exists v0. now left.
    + exists v. now left.
  - destruct (IH H) as [w Hw]. destruct (Py.key_eqb k0 k').
    + exists v. now right.
    + exists w. now right.
Qed.

Lemma store_headers_sound (pairs : list (string * string)) :
  forall (h : header_map) (k : value) (v : string),
    In (k, v) (store_headers pairs h) ->
    (exists name, k = VStr name /\ In (name, v) pairs) \/ In (k, v) h.
Proof.
  unfold store_headers.
  induction pairs as [|[n v0] pairs IH]; simpl; intros h k v H; [now right|].
  destruct (IH _ _ _ H) as [[name [-> Hin]] | Hin].
  - left. exists name. split; [reflexivity | now right].
  - apply header_set_sound in Hin. destruct Hin as [Heq | Hin]; [|now right].
    inversion Heq; subst. left. exists n. split; [reflexivity | now left].
Qed.

Lemma store_headers_keeps_keys (pairs : list (string * string)) :
  forall (h : header_map) (k : value) (v : string),
    In (k, v) h -> exists v', In (k, v') (store_headers pairs h).
Proof.
  unfold store_headers.
  induction pairs as [|[n v0] pairs IH]; simpl; intros h k v H; [eauto|].
  destruct (header_set_keeps_keys (VStr n) v0 h k v H) as [w Hw].
  eapply IH; eassumption.
Qed.

Lemma store_headers_complete (pairs : list (string * string)) :
  forall (h : header_map) (name v : string),
    In (name, v) pairs -> exists v', In (VStr name, v') (store_headers pairs h).
Proof.
  induction pairs as [|[n v0] pairs IH]; simpl; intros h name v H; [contradiction|].
  destruct H as [H | H].
  - inversion H; subst.
    apply (store_headers_keeps_keys pairs _ (VStr name) v).
    apply header_set_stores.
  - apply (IH _ name v H).
Qed.

Lemma store_headers_app (l1 l2 : list (string * string)) (h : header_map) :
  store_headers (l1 ++ l2)%list h = store_headers l2 (store_headers l1 h).
Proof. unfold store_headers. apply fold_left_app. Qed.

(** One scheme name: the loop body stores what the scheme declares. *)
Lemma security_scheme_step_declared
    (defs : list (string * value)) (h : header_map) (sec_name : string) :
  match Py.lookup sec_name defs with
  | None => true
  | Some (VDict sd) => scheme_ok sd
  | Some _ => false
  end = true ->
  security_scheme_step (VDict defs) h sec_name
  = Ok (store_headers (headers_of_scheme_name defs sec_name) h).
Proof.
  unfold security_scheme_step, headers_of_scheme_name. cbn [Py.contains bind Py.getitem].
  destruct (Py.lookup sec_name defs) as [sd_value|]; [|reflexivity].
  destruct sd_value as [| | | | |sd]; try discriminate.
  unfold scheme_ok, scheme_header, is_header_api_key.
  cbn [Py.get bind]. fold (get_or "type" VNone sd). fold (get_or "in" VNone sd).
  fold (get_or "name" (VStr "") sd). fold (get_or "description" (VStr "") sd).
  destruct (Py.eq_str (get_or "type" VNone sd) "apiKey"); [|reflexivity].
  destruct (Py.eq_str (get_or "in" VNone sd) "header"); [|reflexivity].
  cbn [andb].
  destruct (get_or "name" (VStr "") sd) as [| | |name| |]; try discriminate.
  destruct (get_or "description" (VStr "") sd) as [| | |description| |];
    try discriminate.
  intros _. reflexivity.
Qed.

Lemma security_entries_declared (defs : list (string * value))
    (entries : list (string * value)) :
  forall h,
    requirement_ok defs (VDict entries) = true ->
    for_each (security_scheme_step (VDict defs)) (map fst entries) h
    = Ok (store_headers
            (flat_map (fun kv => headers_of_scheme_name defs (fst kv)) entries) h).
Proof.
  induction entries as [|[sec_name sec_value] entries IH]; intros h Hok.
  - reflexivity.
  - simpl in Hok. apply andb_true_iff in Hok. destruct Hok as [H1 H2].
    cbn [map fst for_each flat_map].
    rewrite (security_scheme_step_declared defs h sec_name H1). cbn [bind].
    rewrite store_headers_app. apply IH. exact H2.
Qed.

Lemma security_requirements_declared (defs : list (string * value))
    (reqs : list value) :
  forall h,
    forallb (requirement_ok defs) reqs = true ->
    for_each (security_requirement_step (VDict defs)) reqs h
    = Ok (store_headers (declared_headers defs reqs) h).
Proof.
  induction reqs as [|req reqs IH]; intros h Hok.
  - reflexivity.
  - simpl in Hok. apply andb_true_iff in Hok. destruct Hok as [H1 H2].
    destruct req as [| | | | |entries]; try discriminate.
    cbn [for_each]. unfold security_requirement_step at 1. cbn [Py.items bind].
    rewrite (security_entries_declared defs entries h H1). cbn [bind].
    unfold declared_headers. cbn [flat_map]. rewrite store_headers_app.
    apply IH. exact H2.
Qed.

(** The selection of the requirement list, and the loops over it. *)
Lemma get_security_headers_unfold (doc op : list (string * value)) (base : string) :
  _get_security_headers (parser_of (VDict doc) base) (VDict op)
  = (requirements <- Py.iter (effective_security doc op) ;;
     for_each (security_requirement_step
                 (get_or "securityDefinitions" (VDict []) doc)) requirements []).
Proof.
  unfold _get_security_headers, effective_security, get_or, parser_of.
  cbn [spec Py.get bind].
  destruct (Py.lookup "security" op) as [s|]; cbn [Py.truthy negb bind].
  - destruct (Py.truthy s); reflexivity.
  - reflexivity.
Qed.

Lemma declared_headers_in (defs : list (string * value)) (reqs : list value)
    (name v : string) :
  In (name, v) (declared_headers defs reqs) <->
  exists entries sec_name sec_value sd,
    In (VDict entries) reqs /\
    In (sec_name, sec_value) entries /\
    Py.lookup sec_name defs = Some (VDict sd) /\
    scheme_header sd = Some (name, v).
Proof.
  unfold declared_headers. rewrite in_flat_map. split.
  - intros [req [Hreq Hin]].
    destruct req as [| | | | |entries]; try contradiction.
    apply in_flat_map in Hin. destruct Hin as [[sec_name sec_value] [He Hin]].
    unfold headers_of_scheme_name in Hin. simpl in Hin.
    destruct (Py.lookup sec_name defs) as [[| | | | |sd]|] eqn:L; try contradiction.
    destruct (scheme_header sd) as [hd|] eqn:S; [|contradiction].
    destruct Hin as [Hin | []]. subst hd.
    exists entries, sec_name, sec_value, sd. auto.
  - intros [entries [sec_name [sec_value [sd [Hreq [He [L S]]]]]]].
    exists (VDict entries). split; [assumption|].
    apply in_flat_map. exists (sec_name, sec_value). split; [assumption|].
    unfold headers_of_scheme_name. simpl. rewrite L, S. now left.
Qed.

Lemma scheme_header_some (sd : list (string * value)) (name v : string) :
  scheme_header sd = Some (name, v) <->
  get_or "type" VNone sd = VStr "apiKey" /\
  get_or "in" VNone sd = VStr "header" /\
  get_or "name" (VStr "") sd = VStr name /\
  exists description,
    get_or "description" (VStr "") sd = VStr description /\
    v = token_placeholder description.
Proof.
  unfold scheme_header, is_header_api_key. split.
  - destruct (Py.eq_str (get_or "type" VNone sd) "apiKey") eqn:E1; [|discriminate].
    destruct (Py.eq_str (get_or "in" VNone sd) "header") eqn:E2; [|discriminate].
    apply eq_str_true in E1. apply eq_str_true in E2. simpl.
    destruct (get_or "name" (VStr "") sd) as [| | |n| |]; try discriminate.
    destruct (get_or "description" (VStr "") sd) as [| | |description| |];
      try discriminate.
    intros H. inversion H; subst. repeat split; auto. exists description. auto.
  - intros [E1 [E2 [E3 [description [E4 ->]]]]].
    rewrite E1, E2, E3, E4. reflexivity.
Qed.

Lemma header_declared_by_iff (defs : list (string * value)) (reqs : list value)
    (name v : string) :
  In (name, v) (declared_headers defs reqs) <-> header_declared_by defs reqs name v.
Proof.
  rewrite declared_headers_in. unfold header_declared_by. split.
  - intros [entries [sec_name [sec_value [sd [H1 [H2 [H3 H4]]]]]]].
    apply scheme_header_some in H4.
    destruct H4 as [E1 [E2 [E3 [description [E4 ->]]]]].
    exists entries, sec_name, sec_value, sd, description.
    unfold token_placeholder. repeat split; auto.
  - intros [entries [sec_name [sec_value [sd [description
             [H1 [H2 [H3 [E1 [E2 [E3 [E4 ->]]]]]]]]]]]].
    exists entries, sec_name, sec_value, sd. repeat split; auto.
    apply scheme_header_some. repeat split; auto.
    exists description. auto.
Qed.

(** C7.  The requirements are the operation's own [security] when it is
    present and non-empty and the document's otherwise, never both.  On
    well-formed requirements and schemes the call returns the mapping
    that results from storing, in order, one header for each named scheme
    of type apiKey with [in: header]: its key is the scheme's [name], its
    value is [Bearer <your-token>] when the scheme's [description]
    contains [Bearer] and [<your-token>] otherwise.  Every header of the
    result comes from such a scheme, every such scheme has its header in
    the result, and schemes of other kinds add nothing. *)
Theorem C7_security_headers
    (doc op : list (string * value)) (base : string)
    (reqs : list value) (defs : list (string * value)) :
  effective_security doc op = VList reqs ->
  get_or "securityDefinitions" (VDict []) doc = VDict defs ->
  forallb (requirement_ok defs) reqs = true ->
  exists headers,
    _get_security_headers (parser_of (VDict doc) base) (VDict op) = Ok headers /\
    headers = store_headers (declared_headers defs reqs) [] /\
    (forall k v, In (k, v) headers ->
                 exists name, k = VStr name /\ header_declared_by defs reqs name v) /\
    (forall name v, header_declared_by defs reqs name v ->
                    exists v', In (VStr name, v') headers) /\
    ((forall name v, ~ header_declared_by defs reqs name v) -> headers = []).
Proof.
  intros Hsec Hdefs Hok.
  exists (store_headers (declared_headers defs reqs) []).
  split; [|split; [reflexivity|split; [|split]]].
  - rewrite get_security_headers_unfold, Hsec, Hdefs. cbn [Py.iter bind].
    apply security_requirements_declared. exact Hok.
  - intros k v Hin. apply store_headers_sound in Hin.
    destruct Hin as [[name [-> Hin]] | []].
    exists name. split; [reflexivity|]. now apply header_declared_by_iff.
  - intros name v Hd. apply header_declared_by_iff in Hd.
    eapply store_headers_complete. exact Hd.
  - intros Hnone.
    destruct (declared_headers defs reqs) as [|[name v] rest] eqn:E; [reflexivity|].
    exfalso. apply (Hnone name v). apply header_declared_by_iff.
    rewrite E. now left.
Qed.

Lemma C7_security_headers_witness :
  _get_security_headers (parser_of (VDict api_key_document) "https://h") (VDict [])
  = Ok [(VStr "X-API-Key", "Bearer <your-token>")].
Proof.
  destruct (C7_security_headers api_key_document [] "https://h"
              [VDict [("api_key", VList []); ("login", VList [])]]
              [("api_key", VDict [("type", VStr "apiKey"); ("in", VStr "header");
                                  ("name", VStr "X-API-Key");
                                  ("description", VStr "Bearer token")]);
               ("login", VDict [("type", VStr "basic")])]
              eq_refl eq_refl eq_refl)
    as [headers [Hrun [Heq _]]].
  rewrite Hrun, Heq. reflexivity.
Defined.

End SecurityHeaders.

(* ------------------------------------------------------------------ *)
(** ** The query string *)

Section QueryString.

Import OpenAPIParser.

Lemma query_parameter_step_entry (acc : list string) (p : list (string * value)) :
  query_parameter_step acc (VDict p)
  = Ok (acc ++ (if is_query p then [query_entry p] else []))%list.
Proof.
  unfold query_parameter_step, is_query, query_entry, query_value, parameter_name, get_or.
  cbn [Py.get bind].
  destruct (Py.eq_str _ "query"); [|now rewrite app_nil_r].
  destruct (Py.lookup "example" p); destruct (Py.lookup "default" p); reflexivity.
Qed.

Lemma query_loop_entries (pds : list (list (string * value))) :
  forall acc,
    for_each query_parameter_step (map VDict pds) acc
    = Ok (acc ++ query_entries pds)%list.
Proof.
  unfold query_entries.
  induction pds as [|p pds IH]; intros acc; cbn [map for_each filter].
  - now rewrite app_nil_r.
  - rewrite query_parameter_step_entry. cbn [bind]. rewrite IH.
    destruct (is_query p); cbn [map].
    + now rewrite <- app_assoc.
    + now rewrite app_nil_r.
Qed.

Lemma path_loop_returns (pds : list (list (string * value))) :
  forall url, exists url',
    for_each path_parameter_step (map VDict pds) url = Ok url'.
Proof.
  induction pds as [|p pds IH]; intros url; cbn [map for_each]; [eauto|].
  unfold path_parameter_step at 1. cbn [Py.get bind].
  destruct (Py.eq_str _ "path"); cbn [bind]; apply IH.
Qed.

Lemma contains_mark_append (u rest : string) :
  Str.contains "?" (u ++ String "?"%char rest) = true.
Proof.
  induction u as [|a u IH]; [reflexivity|].
  change (Str.startswith "?" (String a (u ++ String "?"%char rest))
          || Str.contains "?" (u ++ String "?"%char rest) = true).
  rewrite IH. apply orb_true_r.
Qed.

Lemma query_entries_nil (pds : list (list (string * value))) :
  query_entries pds = [] <-> forall p, In p pds -> is_query p = false.
Proof.
  unfold query_entries. split.
  - intros H p Hin. destruct (is_query p) eqn:E; [|reflexivity].
    assert (Hf : In p (filter is_query pds)) by (apply filter_In; auto).
    destruct (filter is_query pds); [contradiction | discriminate].
  - intros H. replace (filter is_query pds) with (@nil (list (string * value)));
      [reflexivity|].
    symmetry. induction pds as [|p pds IH]; [reflexivity|]. simpl.
    rewrite (H p (or_introl eq_refl)). apply IH. intros q Hq. apply H. now right.
Qed.

Section WithUrljoin.

Variable urljoin : string -> string -> result string.

Lemma build_url_parts
    (self : t) (path : string) (op : list (string * value))
    (pds : list (list (string * value))) (joined url : string) :
  joined_url urljoin self path = Ok joined ->
  get_or "parameters" (VList []) op = VList (map VDict pds) ->
  for_each path_parameter_step (map VDict pds) joined = Ok url ->
  _build_url urljoin self path (VDict op) = Ok (url ++ query_string pds).
Proof.
  intros Hj Hp Hurl.
  unfold _build_url. rewrite Hj. cbn [bind Py.get].
  fold (get_or "parameters" (VList []) op). rewrite Hp. cbn [Py.iter bind].
  rewrite Hurl. cbn [bind]. rewrite query_loop_entries. cbn [bind app].
  unfold query_string. destruct (query_entries pds); [|reflexivity].
  now rewrite append_nil_r.
Qed.

(** C5.  The URL is the one left by the path substitutions followed by
    the query string: nothing when the operation has no query parameter,
    else [?] and, in declaration order and joined by [&], one
    [name=value] for each [in: query] parameter, the value being the
    entry's example, else its default, else [<name>].  A [?] is put
    exactly when there is a query parameter; when the substituted path
    has none of its own, the URL has a [?] exactly then. *)
Theorem C5_query_string
    (self : t) (path : string) (op : list (string * value))
    (pds : list (list (string * value))) (joined : string) :
  joined_url urljoin self path = Ok joined ->
  get_or "parameters" (VList []) op = VList (map VDict pds) ->
  exists url,
    for_each path_parameter_step (map VDict pds) joined = Ok url /\
    _build_url urljoin self path (VDict op) = Ok (url ++ query_string pds) /\
    query_string pds
      = match map query_entry (filter is_query pds) with
        | [] => ""
        | entries => "?" ++ Str.join "&" entries
        end /\
    (query_string pds = "" <-> forall p, In p pds -> is_query p = false) /\
    (Str.contains "?" url = false ->
     (Str.contains "?" (url ++ query_string pds) = true <->
      exists p, In p pds /\ is_query p = true)).
Proof.
  intros Hj Hp.
  destruct (path_loop_returns pds joined) as [url Hurl].
  exists url. split; [exact Hurl|].
  assert (Hnil : query_string pds = "" <-> forall p, In p pds -> is_query p = false).
  { rewrite <- query_entries_nil. unfold query_string.
    destruct (query_entries pds); split; intros H; try reflexivity; discriminate. }
  split; [|split; [reflexivity|split; [exact Hnil|]]].
  - exact (build_url_parts self path op pds joined url Hj Hp Hurl).
  - intros Hno. split.
    + intros Hc. destruct (query_string pds) eqn:Q.
      * rewrite append_nil_r in Hc. congruence.
      * assert (Hne : ~ (forall p, In p pds -> is_query p = false)).
        { intros Hall. apply Hnil in Hall. discriminate. }
        destruct (existsb is_query pds) eqn:E.
        -- apply existsb_exists in E. exact E.
        -- exfalso. apply Hne. intros p Hin.
           destruct (is_query p) eqn:Ep; [|reflexivity].
           assert (existsb is_query pds = true)
             by (apply existsb_exists; eauto).
           congruence.
    + intros [p [Hin Hq]]. unfold query_string.
      destruct (query_entries pds) eqn:Q.
      * apply query_entries_nil with (p := p) in Q; [congruence | assumption].
      * apply contains_mark_append.
Qed.

End WithUrljoin.

Lemma C5_query_string_witness :
  _build_url urljoin_unused (parser_of VNone "https://h/v1/") "/search"
    (VDict [("parameters",
             VList [VDict [("in", VStr "query"); ("name", VStr "q")];
                    VDict [("in", VStr "header"); ("name", VStr "X-Trace")];
                    VDict [("in", VStr "query"); ("name", VStr "limit");
                           ("default", VInt 20)];
                    VDict [("in", VStr "query"); ("name", VStr "page");
                           ("default", VInt 1); ("example", VInt 3)]])])
  = Ok "https://h/v1/search?q=<q>&limit=20&page=3".
Proof.
  destruct (C5_query_string urljoin_unused (parser_of VNone "https://h/v1/") "/search"
              [("parameters",
                VList [VDict [("in", VStr "query"); ("name", VStr "q")];
                       VDict [("in", VStr "header"); ("name", VStr "X-Trace")];
                       VDict [("in", VStr "query"); ("name", VStr "limit");
                              ("default", VInt 20)];
                       VDict [("in", VStr "query"); ("name", VStr "page");
                              ("default", VInt 1); ("example", VInt 3)]])]
              [[("in", VStr "query"); ("name", VStr "q")];
               [("in", VStr "header"); ("name", VStr "X-Trace")];
               [("in", VStr "query"); ("name", VStr "limit"); ("default", VInt 20)];
               [("in", VStr "query"); ("name", VStr "page");
                ("default", VInt 1); ("example", VInt 3)]]
              "https://h/v1/search" eq_refl eq_refl)
    as [url [Hurl [Hrun _]]].
  rewrite Hrun. vm_compute in Hurl. inversion Hurl. reflexivity.
Defined.

End QueryString.

(* ------------------------------------------------------------------ *)
(** ** Path parameters *)

Section PathParameters.

Import OpenAPIParser.

Lemma brace_free_no_open (s : string) : brace_free s = true -> no_open s = true.
Proof.
  induction s as [|a s IH]; simpl; [reflexivity|].
  intros H. apply andb_true_iff in H. destruct H as [H1 H2].
  apply andb_true_iff in H1. destruct H1 as [H1 _].
  now rewrite H1, IH.
Qed.

Lemma no_open_append (s1 s2 : string) :
  no_open (s1 ++ s2) = no_open s1 && no_open s2.
Proof.
  induction s1 as [|a s1 IH]; simpl; [reflexivity|].
  now rewrite IH, andb_assoc.
Qed.

Lemma brace_free_append (s1 s2 : string) :
  brace_free (s1 ++ s2) = brace_free s1 && brace_free s2.
Proof.
  induction s1 as [|a s1 IH]; simpl; [reflexivity|].
  now rewrite IH, andb_assoc.
Qed.

Lemma no_open_rstrip (c : ascii) (s : string) :
  no_open s = true -> no_open (Str.rstrip c s) = true.
Proof.
  induction s as [|a s IH]; simpl; [reflexivity|].
  intros H. apply andb_true_iff in H. destruct H as [Ha Hs].
  specialize (IH Hs).
  destruct (Str.rstrip c s) as [|b r].
  - destruct (Ascii.eqb a c); simpl; [reflexivity | now rewrite Ha].
  - cbn [no_open]. cbn [no_open] in IH. now rewrite Ha, IH.
Qed.

(** Two placeholders with brace-free names start alike only when they
    are the same. *)
Lemma hole_prefix_same (n : string) :
  forall m rest,
    brace_free n = true -> brace_free m = true ->
    Str.startswith (n ++ "}") (m ++ "}" ++ rest) = true -> n = m.
Proof.
  induction n as [|a n IH]; intros m rest Hn Hm H.
  - destruct m as [|c m]; [reflexivity|].
    simpl in H, Hm. apply andb_true_iff in H. destruct H as [H _].
    apply Ascii.eqb_eq in H. subst c. rewrite Ascii.eqb_refl in Hm.
    destruct (Ascii.eqb "}" "{"); discriminate.
  - destruct m as [|c m].
    + simpl in H, Hn. apply andb_true_iff in H. destruct H as [H _].
      apply Ascii.eqb_eq in H. subst a. rewrite Ascii.eqb_refl in Hn.
      destruct (Ascii.eqb "}" "{"); discriminate.
    + simpl in H, Hn, Hm.
      apply andb_true_iff in H. destruct H as [H1 H2].
      apply Ascii.eqb_eq in H1. subst c.
      apply andb_true_iff in Hn. destruct Hn as [_ Hn].
      apply andb_true_iff in Hm. destruct Hm as [_ Hm].
      f_equal. exact (IH m rest Hn Hm H2).
Qed.

Lemma startswith_placeholder_no_open (n : string) (a : ascii) (s : string) :
  Ascii.eqb a "{"%char = false -> Str.startswith (placeholder n) (String a s) = false.
Proof.
  intros H. unfold placeholder. cbn [append Str.startswith].
  rewrite Ascii.eqb_sym, H. reflexivity.
Qed.

Lemma startswith_placeholder_other (n m rest : string) :
  brace_free n = true -> brace_free m = true -> n <> m ->
  Str.startswith (placeholder n) (placeholder m ++ rest) = false.
Proof.
  intros Hn Hm Hne.
  destruct (Str.startswith (placeholder n) (placeholder m ++ rest)) eqn:E;
    [|reflexivity].
  exfalso. apply Hne. unfold placeholder in E. cbn [append Str.startswith] in E.
  rewrite Ascii.eqb_refl in E. cbn [andb] in E.
  rewrite append_assoc in E. exact (hole_prefix_same n m rest Hn Hm E).
Qed.

(** *** [replace] on a rendered template *)

Lemma replace_from_skip (old new x rest : string) :
  Str.replace_from old new (String.length x) (x ++ rest)
  = Str.replace_from old new 0 rest.
Proof.
  induction x as [|a x IH]; [reflexivity|].
  cbn [String.length append Str.replace_from]. exact IH.
Qed.

Lemma replace_no_open (n new l rest : string) :
  no_open l = true ->
  Str.replace_from (placeholder n) new 0 (l ++ rest)
  = l ++ Str.replace_from (placeholder n) new 0 rest.
Proof.
  induction l as [|a l IH]; [reflexivity|].
  cbn [no_open]. intros H. apply andb_true_iff in H. destruct H as [Ha Hl].
  apply negb_true_iff in Ha.
  cbn [append Str.replace_from].
  rewrite (startswith_placeholder_no_open n a (l ++ rest) Ha).
  now rewrite IH.
Qed.

Lemma replace_same (n new rest : string) :
  Str.replace_from (placeholder n) new 0 (placeholder n ++ rest)
  = new ++ Str.replace_from (placeholder n) new 0 rest.
Proof.
  assert (Hs : Str.startswith (placeholder n) (placeholder n ++ rest) = true)
    by apply startswith_append.
  unfold placeholder in *. cbn [append] in *. cbn [Str.replace_from].
  rewrite Hs. cbn [String.length]. rewrite Nat.sub_succ, Nat.sub_0_r.
  now rewrite replace_from_skip.
Qed.

Lemma no_open_name_close (m : string) :
  brace_free m = true -> no_open (m ++ "}") = true.
Proof.
  intros Hm. rewrite no_open_append, (brace_free_no_open m Hm). reflexivity.
Qed.

Lemma replace_other (n m new rest : string) :
  brace_free n = true -> brace_free m = true -> n <> m ->
  Str.replace_from (placeholder n) new 0 (placeholder m ++ rest)
  = placeholder m ++ Str.replace_from (placeholder n) new 0 rest.
Proof.
  intros Hn Hm Hne.
  pose proof (startswith_placeholder_other n m rest Hn Hm Hne) as Hs.
  pose proof (replace_no_open n new (m ++ "}") rest (no_open_name_close m Hm)) as Hr.
  unfold placeholder in *. cbn [append] in *. cbn [Str.replace_from].
  rewrite Hs. now rewrite Hr.
Qed.

Lemma replace_render (n v : string) (t : list segment) :
  brace_free n = true ->
  forallb segment_ok t = true ->
  Str.replace_from (placeholder n) v 0 (render t) = render (map (fill_one n v) t).
Proof.
  intros Hn. induction t as [|g t IH]; [reflexivity|].
  cbn [forallb]. intros H. apply andb_true_iff in H. destruct H as [Hg Ht].
  cbn [map render]. rewrite <- (IH Ht).
  destruct g as [text|m]; cbn [render_segment fill_one segment_ok] in *.
  - apply replace_no_open. exact Hg.
  - destruct (String.eqb n m) eqn:E; cbn [render_segment].
    + apply String.eqb_eq in E. subst m. apply replace_same.
    + apply String.eqb_neq in E. apply replace_other; assumption.
Qed.

(** *** No placeholder is left *)

Lemma contains_no_open (n l rest : string) :
  no_open l = true ->
  Str.contains (placeholder n) (l ++ rest) = Str.contains (placeholder n) rest.
Proof.
  induction l as [|a l IH]; [reflexivity|].
  cbn [no_open]. intros H. apply andb_true_iff in H. destruct H as [Ha Hl].
  apply negb_true_iff in Ha.
  cbn [append Str.contains].
  rewrite (startswith_placeholder_no_open n a (l ++ rest) Ha).
  cbn [orb]. exact (IH Hl).
Qed.

Lemma contains_other (n m rest : string) :
  brace_free n = true -> brace_free m = true -> n <> m ->
  Str.contains (placeholder n) (placeholder m ++ rest)
  = Str.contains (placeholder n) rest.
Proof.
  intros Hn Hm Hne.
  pose proof (startswith_placeholder_other n m rest Hn Hm Hne) as Hs.
  pose proof (contains_no_open n (m ++ "}") rest (no_open_name_close m Hm)) as Hc.
  unfold placeholder in *. cbn [append] in *. cbn [Str.contains].
  rewrite Hs. cbn [orb]. exact Hc.
Qed.

Lemma contains_render (n : string) (t : list segment) :
  brace_free n = true ->
  forallb segment_ok t = true ->
  (forall g, In g t -> g <> Hole n) ->
  Str.contains (placeholder n) (render t) = false.
Proof.
  intros Hn. induction t as [|g t IH]; [reflexivity|].
  cbn [forallb]. intros H Hno. apply andb_true_iff in H. destruct H as [Hg Ht].
  assert (IH' : Str.contains (placeholder n) (render t) = false).
  { apply IH; [exact Ht|]. intros g' Hin. apply Hno. now right. }
  cbn [render]. destruct g as [text|m]; cbn [render_segment segment_ok] in *.
  - rewrite contains_no_open by exact Hg. exact IH'.
  - rewrite contains_other; [exact IH' | exact Hn | exact Hg |].
    intros ->. apply (Hno (Hole m)); [now left | reflexivity].
Qed.

(** *** The loop over the path parameters *)

Lemma render_app (t1 t2 : list segment) :
  render (t1 ++ t2)%list = render t1 ++ render t2.
Proof.
  induction t1 as [|g t1 IH]; cbn [app render]; [reflexivity|].
  now rewrite IH, append_assoc.
Qed.

Lemma path_value_brace_free (p : list (string * value)) :
  parameter_brace_free p = true -> brace_free (path_value p) = true.
Proof.
  unfold parameter_brace_free, path_value, get_or. intros H.
  apply andb_true_iff in H. destruct H as [H _].
  apply andb_true_iff in H. destruct H as [Hn He].
  destruct (Py.lookup "example" p); [exact He|].
  change (brace_free ("<" ++ (parameter_name p ++ ">")) = true).
  rewrite brace_free_append, brace_free_append, Hn. reflexivity.
Qed.

Lemma query_value_brace_free (p : list (string * value)) :
  parameter_brace_free p = true -> brace_free (query_value p) = true.
Proof.
  unfold parameter_brace_free, query_value, get_or. intros H.
  apply andb_true_iff in H. destruct H as [H Hd].
  apply andb_true_iff in H. destruct H as [Hn He].
  destruct (Py.lookup "example" p); [exact He|].
  destruct (Py.lookup "default" p); [exact Hd|].
  change (brace_free ("<" ++ (parameter_name p ++ ">")) = true).
  rewrite brace_free_append, brace_free_append, Hn. reflexivity.
Qed.

Lemma parameter_name_brace_free (p : list (string * value)) :
  parameter_brace_free p = true -> brace_free (parameter_name p) = true.
Proof.
  unfold parameter_brace_free. intros H.
  apply andb_true_iff in H. destruct H as [H _].
  apply andb_true_iff in H. now destruct H.
Qed.

Lemma fill_one_ok (n v : string) (t : list segment) :
  no_open v = true ->
  forallb segment_ok t = true ->
  forallb segment_ok (map (fill_one n v) t) = true.
Proof.
  intros Hv. induction t as [|g t IH]; [reflexivity|].
  cbn [forallb map]. intros H. apply andb_true_iff in H. destruct H as [Hg Ht].
  rewrite (IH Ht), andb_true_r.
  destruct g as [text|m]; cbn [fill_one]; [exact Hg|].
  destruct (String.eqb n m); [exact Hv | exact Hg].
Qed.

Lemma path_parameter_step_fill (p : list (string * value)) (t : list segment) :
  brace_free (parameter_name p) = true ->
  forallb segment_ok t = true ->
  path_parameter_step (render t) (VDict p) = Ok (render (after_parameter p t)).
Proof.
  intros Hn Ht.
  unfold path_parameter_step, after_parameter, is_path. cbn [Py.get bind].
  fold (get_or "in" VNone p).
  destruct (Py.eq_str (get_or "in" VNone p) "path"); [|reflexivity].
  fold (get_or "name" (VStr "") p). fold (parameter_name p).
  rewrite <- (replace_render (parameter_name p) (path_value p) t Hn Ht).
  unfold path_value. destruct (Py.lookup "example" p); reflexivity.
Qed.

Lemma fill_cons (p : list (string * value)) (pds : list (list (string * value)))
    (t : list segment) :
  fill (p :: pds) t = fill pds (after_parameter p t).
Proof.
  unfold fill, after_parameter.
  destruct (is_path p) eqn:E.
  - rewrite map_map. apply map_ext. intros [text|m]; cbn [fill_segment fill_one].
    + reflexivity.
    + cbn [first_path_value]. rewrite E. cbn [andb].
      destruct (String.eqb (parameter_name p) m); reflexivity.
  - apply map_ext. intros [text|m]; cbn [fill_segment]; [reflexivity|].
    cbn [first_path_value]. rewrite E. reflexivity.
Qed.

Lemma after_parameter_ok (p : list (string * value)) (t : list segment) :
  parameter_brace_free p = true ->
  forallb segment_ok t = true ->
  forallb segment_ok (after_parameter p t) = true.
Proof.
  intros Hp Ht. unfold after_parameter. destruct (is_path p); [|exact Ht].
  apply fill_one_ok; [|exact Ht].
  apply brace_free_no_open, path_value_brace_free, Hp.
Qed.

Lemma path_loop_fill (pds : list (list (string * value))) :
  forall t,
    forallb parameter_brace_free pds = true ->
    forallb segment_ok t = true ->
    for_each path_parameter_step (map VDict pds) (render t)
    = Ok (render (fill pds t)) /\
    forallb segment_ok (fill pds t) = true.
Proof.
  induction pds as [|p pds IH]; intros t Hp Ht.
  - unfold fill. rewrite map_ext with (g := fun g => g).
    + rewrite map_id. split; [reflexivity | exact Ht].
    + intros [text|m]; reflexivity.
  - cbn [forallb] in Hp. apply andb_true_iff in Hp. destruct Hp as [Hp Hrest].
    cbn [map for_each].
    rewrite (path_parameter_step_fill p t (parameter_name_brace_free p Hp) Ht).
    cbn [bind]. rewrite fill_cons.
    apply IH; [exact Hrest|]. apply after_parameter_ok; assumption.
Qed.

Lemma first_path_value_found (pds : list (list (string * value)))
    (p : list (string * value)) :
  In p pds -> is_path p = true ->
  exists v, first_path_value pds (parameter_name p) = Some v.
Proof.
  induction pds as [|q pds IH]; [contradiction|].
  intros Hin Hp. cbn [first_path_value].
  destruct (is_path q && String.eqb (parameter_name q) (parameter_name p)) eqn:E;
    [eauto|].
  destruct Hin as [-> | Hin]; [|now apply IH].
  rewrite Hp, String.eqb_refl in E. discriminate.
Qed.

Lemma fill_leaves_no_hole (pds : list (list (string * value)))
    (p : list (string * value)) (t : list segment) (g : segment) :
  In p pds -> is_path p = true ->
  In g (fill pds t) -> g <> Hole (parameter_name p).
Proof.
  intros Hin Hp Hg. unfold fill in Hg. apply in_map_iff in Hg.
  destruct Hg as [g0 [<- _]].
  destruct g0 as [text|m]; cbn [fill_segment]; [discriminate|].
  destruct (first_path_value pds m) eqn:E; [discriminate|].
  intros Heq. inversion Heq; subst m.
  destruct (first_path_value_found pds p Hin Hp) as [v Hv]. congruence.
Qed.

Lemma join_brace_free (sep : string) (l : list string) :
  brace_free sep = true ->
  forallb brace_free l = true ->
  brace_free (Str.join sep l) = true.
Proof.
  intros Hsep. unfold Str.join.
  induction l as [|x l IH]; [reflexivity|].
  cbn [forallb]. intros H. apply andb_true_iff in H. destruct H as [Hx Hl].
  cbn [String.concat]. destruct l as [|y l]; [exact Hx|].
  rewrite !brace_free_append, Hx, Hsep. exact (IH Hl).
Qed.

Lemma query_string_no_open (pds : list (list (string * value))) :
  forallb parameter_brace_free pds = true ->
  no_open (query_string pds) = true.
Proof.
  intros H. apply brace_free_no_open. unfold query_string.
  assert (Hall : forallb brace_free (query_entries pds) = true).
  { unfold query_entries. induction pds as [|p pds IH]; [reflexivity|].
    cbn [forallb] in H. apply andb_true_iff in H. destruct H as [Hp Hrest].
    cbn [filter]. destruct (is_query p); [|exact (IH Hrest)].
    cbn [map forallb]. rewrite (IH Hrest), andb_true_r.
    unfold query_entry. rewrite !brace_free_append.
    rewrite (parameter_name_brace_free p Hp), (query_value_brace_free p Hp).
    reflexivity. }
  destruct (query_entries pds) as [|e es] eqn:Q; [reflexivity|].
  change (brace_free ("?" ++ Str.join "&" (e :: es)) = true).
  rewrite brace_free_append. rewrite join_brace_free; [reflexivity | reflexivity | exact Hall].
Qed.

(** C4, counterexample.  The path declares [id] without an example and
    the operation declares it again with the example 42: in the merged
    list the declaration of the path comes first, its placeholder [<id>]
    is substituted, and the example never is. *)
Lemma C4_example_of_shadowed_parameter_not_substituted :
  extracted_urls shadowed_document = Ok ["https://api.example.com/v1/users/<id>"] /\
  (forall url, extracted_urls shadowed_document = Ok [url] ->
               Str.contains "42" url = false).
Proof.
  split; [reflexivity|].
  intros url H. vm_compute in H. inversion H. reflexivity.
Qed.

Section WithUrljoin.

Variable urljoin : string -> string -> result string.

(** C4, as amended.  The base URL is [scheme://host/basePath] with the
    first scheme, [https] when there is no [schemes]; a path that starts
    with a slash is put directly after the base without its trailing
    slashes.  When braces occur only around the placeholder names of the
    path, and in no parameter's name, example or default, every
    placeholder [{param}] for which the list has a path parameter is
    replaced by the value of the first path parameter of that name, its
    example if it carries one and [<param>] if not, and the URL, query
    string included, has no [{param}] left for any path parameter.  The
    scenario document resolves to [https://api.example.com/v1/users/42]. *)
Theorem C4_path_parameters_substituted
    (doc : list (string * value)) (self : t) (op : list (string * value))
    (pds : list (list (string * value))) (t : list segment) :
  __init__ (VDict doc) = Ok self ->
  no_open (base_url self) = true ->
  forallb segment_ok t = true ->
  Str.startswith "/" (render t) = true ->
  get_or "parameters" (VList []) op = VList (map VDict pds) ->
  forallb parameter_brace_free pds = true ->
  (exists scheme,
      Py.getitem0 (get_or "schemes" (VList [VStr "https"]) doc) = Ok scheme /\
      base_url self = Py.str scheme ++ "://" ++ host_and_base_path doc) /\
  (exists url,
      _build_url urljoin self (render t) (VDict op) = Ok url /\
      url = Str.rstrip "/" (base_url self) ++ render (fill pds t) ++ query_string pds /\
      forall p, In p pds -> is_path p = true ->
                Str.contains (placeholder (parameter_name p)) url = false) /\
  extracted_urls scenario_document = Ok ["https://api.example.com/v1/users/42"].
Proof.
  intros Hinit Hbase Ht Hslash Hparams Hfree.
  split; [|split; [|reflexivity]].
  - unfold __init__ in Hinit. rewrite build_base_url_unfold in Hinit.
    destruct (Py.getitem0 (get_or "schemes" (VList [VStr "https"]) doc))
      as [scheme|e]; [|discriminate].
    exists scheme. split; [reflexivity|].
    cbn [bind] in Hinit. inversion Hinit. reflexivity.
  - set (whole := (Lit (Str.rstrip "/" (base_url self)) :: t)).
    assert (Hwhole : forallb segment_ok whole = true).
    { unfold whole. cbn [forallb segment_ok]. rewrite Ht, andb_true_r.
      apply no_open_rstrip. exact Hbase. }
    destruct (path_loop_fill pds whole Hfree Hwhole) as [Hloop Hok].
    assert (Hjoined : joined_url urljoin self (render t) = Ok (render whole)).
    { unfold joined_url. rewrite Hslash. reflexivity. }
    exists (render (fill pds whole) ++ query_string pds).
    split;
      [exact (build_url_parts urljoin self (render t) op pds (render whole)
                (render (fill pds whole)) Hjoined Hparams Hloop)|].
    split.
    + unfold whole, fill. cbn [map fill_segment render render_segment].
      now rewrite append_assoc.
    + intros p Hin Hp.
      replace (render (fill pds whole) ++ query_string pds)
        with (render (fill pds whole ++ [Lit (query_string pds)])%list).
      * apply contains_render.
        -- apply parameter_name_brace_free.
           rewrite forallb_forall in Hfree. apply Hfree. exact Hin.
        -- rewrite forallb_app, Hok. cbn [forallb segment_ok].
           rewrite (query_string_no_open pds Hfree). reflexivity.
        -- intros g Hg. apply in_app_or in Hg. destruct Hg as [Hg | [<- | []]].
           ++ eapply fill_leaves_no_hole; eassumption.
           ++ discriminate.
      * rewrite render_app. cbn [render render_segment].
        now rewrite append_nil_r.
Qed.

End WithUrljoin.

Lemma C4_path_parameters_substituted_witness :
  exists url,
    _build_url urljoin_unused
      (parser_of scenario_document "https://api.example.com/v1")
      "/users/{id}/posts/{id}"
      (VDict [("parameters", VList [id_with_example])]) = Ok url /\
    url = "https://api.example.com/v1/users/42/posts/42".
Proof.
  destruct (C4_path_parameters_substituted urljoin_unused
              [("schemes", VList [VStr "https"]);
               ("host", VStr "api.example.com");
               ("basePath", VStr "/v1");
               ("paths", VDict [("/users/{id}",
                                 VDict [("get", VDict [("parameters",
                                                        VList [id_with_example])])])])]
              (parser_of scenario_document "https://api.example.com/v1")
              [("parameters", VList [id_with_example])]
              [[("in", VStr "path"); ("name", VStr "id"); ("example", VInt 42)]]
              [Lit "/users/"; Hole "id"; Lit "/posts/"; Hole "id"]
              eq_refl eq_refl eq_refl eq_refl eq_refl eq_refl)
    as [_ [[url [Hrun [Hurl _]]] _]].
  exists url. split; [exact Hrun|]. rewrite Hurl. reflexivity.
Defined.

End PathParameters.

(* ------------------------------------------------------------------ *)
(** ** The document after the extraction *)

Section DocumentAfterExtraction.

Import OpenAPIParser.

(** *** Writes into a mapping *)

Lemma upsert_const (k : string) (x : value) (d : list (string * value)) :
  upsert k (fun _ => x) d = Py.setitem k x d.
Proof.
  induction d as [|[k' v] d IH]; cbn [upsert Py.setitem]; [reflexivity|].
  destruct (String.eqb k k') eqn:E.
  - apply String.eqb_eq in E. now subst.
  - now rewrite IH.
Qed.

Lemma upsert_setitem (k : string) (f : value -> value) (v : value)
    (d : list (string * value)) :
  upsert k f (Py.setitem k v d) = Py.setitem k (f v) d.
Proof.
  induction d as [|[k' v'] d IH]; cbn [upsert Py.setitem].
  - now rewrite String.eqb_refl.
  - destruct (String.eqb k k') eqn:E; cbn [upsert].
    + now rewrite String.eqb_refl.
    + now rewrite E, IH.
Qed.

Lemma upsert_at (k : string) (f : value -> value) (v : value)
    (before after : list (string * value)) :
  ~ In k (map fst before) ->
  upsert k f (before ++ (k, v) :: after)%list = (before ++ (k, f v) :: after)%list.
Proof.
  induction before as [|[k' v'] before IH]; cbn [map fst In app upsert]; intros Hn.
  - now rewrite String.eqb_refl.
  - destruct (String.eqb k k') eqn:E.
    + apply String.eqb_eq in E. subst k'. exfalso. apply Hn. now left.
    + rewrite IH; [reflexivity|]. intros Hin. apply Hn. now right.
Qed.

Lemma setitem_lookup (k : string) (v : value) (d : list (string * value)) :
  Py.lookup k d = Some v -> Py.setitem k v d = d.
Proof.
  induction d as [|[k' v'] d IH]; cbn [Py.lookup Py.setitem]; [discriminate|].
  destruct (String.eqb k k') eqn:E.
  - apply String.eqb_eq in E. subst k'. intros H. now inversion H.
  - intros H. now rewrite IH.
Qed.

Lemma unique_keys_NoDup (d : list (string * value)) :
  unique_keys d = true -> NoDup (map fst d).
Proof.
  induction d as [|[k v] d IH]; cbn [unique_keys map fst]; [constructor|].
  intros H. apply andb_true_iff in H. destruct H as [Hk Hd].
  constructor; [|exact (IH Hd)].
  intros Hin. apply negb_true_iff in Hk.
  assert (existsb (String.eqb k) (map fst d) = true)
    by (apply existsb_eqb_In; exact Hin).
  congruence.
Qed.

Lemma merged_entry_key (common : value) (e : string * value) :
  fst (merged_entry common e) = fst e.
Proof. unfold merged_entry. destruct (is_method (fst e)); reflexivity. Qed.

Lemma merged_path_item_key (e : string * value) :
  fst (merged_path_item e) = fst e.
Proof. unfold merged_path_item. destruct (snd e); reflexivity. Qed.

Lemma map_fst_same (f : string * value -> string * value)
    (d : list (string * value)) :
  (forall e, fst (f e) = fst e) -> map fst (map f d) = map fst d.
Proof.
  intros H. rewrite map_map. apply map_ext. exact H.
Qed.

(** The write of line 259, on a document seen through the position of
    the operation. *)
Lemma write_parameters_at
    (top before after : list (string * value)) (path : string)
    (ibefore iafter : list (string * value)) (method : string)
    (o : list (string * value)) (all_params : value) :
  ~ In path (map fst before) ->
  ~ In method (map fst ibefore) ->
  write_at ["paths"; path; method; "parameters"] all_params
    (with_paths top
       (before ++ (path, VDict (ibefore ++ (method, VDict o) :: iafter)) :: after))
  = with_paths top
      (before
       ++ (path, VDict (ibefore
                        ++ (method, VDict (Py.setitem "parameters" all_params o))
                        :: iafter))
       :: after).
Proof.
  intros Hp Hm. unfold with_paths. cbn [write_at].
  rewrite upsert_setitem. rewrite (upsert_at _ _ _ _ _ Hp).
  rewrite (upsert_at _ _ _ _ _ Hm). now rewrite upsert_const.
Qed.

Section WithUrljoin.

Variable urljoin : string -> string -> result string.

(** *** What one iteration does to the document *)

Lemma operation_step_effect
    (path : string) (common : value) (eps : list endpoint) (self : t)
    (method : string) (op : value) (eps' : list endpoint) (self' : t) :
  operation_step urljoin path common (eps, self) (method, op) = Ok (eps', self') ->
  base_url self' = base_url self /\
  ((is_method method = false /\ spec self' = spec self) \/
   (is_method method = true /\
    exists o all_params,
      op = VDict o /\
      Py.add common (get_or "parameters" (VList []) o) = Ok all_params /\
      spec self' = write_at ["paths"; path; method; "parameters"] all_params
                     (spec self))).
Proof.
  unfold operation_step. destruct (is_method method) eqn:M; cbn [negb].
  - intros H.
    destruct op as [| | | | |o]; try discriminate.
    cbn [Py.get bind] in H. fold (get_or "parameters" (VList []) o) in H.
    destruct (Py.add common (get_or "parameters" (VList []) o))
      as [all_params|e] eqn:A; [|discriminate].
    cbn [bind Py.store] in H.
    repeat (apply bind_ok in H; destruct H as [? [_ H]]).
    inversion H; subst. cbn [base_url spec].
    split; [reflexivity|]. right. split; [reflexivity|].
    exists o, all_params. auto.
  - intros H. inversion H; subst. split; [reflexivity|]. left. auto.
Qed.

Lemma operations_loop_effect
    (top before after : list (string * value)) (path : string) (common : value) :
  ~ In path (map fst before) ->
  forall (itodo idone : list (string * value)) eps self eps' self',
    NoDup (map fst (idone ++ itodo)%list) ->
    spec self
    = with_paths top
        (before ++ (path, VDict (map (merged_entry common) idone ++ itodo)) :: after) ->
    for_each (operation_step urljoin path common) itodo (eps, self)
    = Ok (eps', self') ->
    spec self'
    = with_paths top
        (before ++ (path, VDict (map (merged_entry common) (idone ++ itodo))) :: after)
    /\ base_url self' = base_url self.
Proof.
  intros Hp. induction itodo as [|[method op] itodo IH];
    intros idone eps self eps' self' Hnd Hspec Hrun.
  - cbn [for_each] in Hrun. inversion Hrun; subst.
    rewrite !app_nil_r in *. auto.
  - cbn [for_each] in Hrun. apply bind_ok in Hrun.
    destruct Hrun as [[eps1 self1] [Hstep Hrun]].
    apply operation_step_effect in Hstep. destruct Hstep as [Hbase Hstep].
    assert (Hm : ~ In method (map fst (map (merged_entry common) idone))).
    { rewrite (map_fst_same _ _ (merged_entry_key common)).
      rewrite map_app in Hnd. apply NoDup_remove_2 in Hnd.
      intros Hin. apply Hnd. apply in_or_app. now left. }
    assert (Hnd' : NoDup (map fst ((idone ++ [(method, op)]) ++ itodo)%list))
      by now rewrite <- app_assoc.
    assert (Hgoal : forall entry,
               merged_entry common (method, op) = entry ->
               spec self1
               = with_paths top
                   (before ++ (path, VDict (map (merged_entry common) idone
                                            ++ entry :: itodo)) :: after) ->
               spec self'
               = with_paths top
                   (before
                    ++ (path, VDict (map (merged_entry common)
                                       (idone ++ (method, op) :: itodo))) :: after)
               /\ base_url self' = base_url self).
    { intros entry He Hs. rewrite <- Hbase.
      replace (idone ++ (method, op) :: itodo)%list
        with ((idone ++ [(method, op)]) ++ itodo)%list by now rewrite <- app_assoc.
      apply (IH (idone ++ [(method, op)])%list eps1 self1 eps' self' Hnd');
        [|exact Hrun].
      rewrite Hs, map_app. cbn [map]. rewrite He, <- app_assoc. reflexivity. }
    destruct Hstep as [[M Hsame] | [M [o [all_params [-> [Hadd Hwrite]]]]]].
    + apply (Hgoal (method, op)).
      * unfold merged_entry. cbn [fst]. now rewrite M.
      * now rewrite Hsame, Hspec.
    + apply (Hgoal (method, VDict (Py.setitem "parameters" all_params o))).
      * unfold merged_entry, merged_operation. cbn [fst snd]. now rewrite M, Hadd.
      * rewrite Hwrite, Hspec. now apply write_parameters_at.
Qed.

Lemma paths_loop_effect (top : list (string * value)) :
  forall (todo done : list (string * value)) eps self eps' self',
    NoDup (map fst (done ++ todo)%list) ->
    forallb (fun kv => match snd kv with
                       | VDict item => unique_keys item
                       | _ => true
                       end) todo = true ->
    spec self = with_paths top (map merged_path_item done ++ todo) ->
    for_each (path_step urljoin) todo (eps, self) = Ok (eps', self') ->
    spec self' = with_paths top (map merged_path_item (done ++ todo))
    /\ base_url self' = base_url self.
Proof.
  induction todo as [|[path path_item] todo IH];
    intros done eps self eps' self' Hnd Huniq Hspec Hrun.
  - cbn [for_each] in Hrun. inversion Hrun; subst.
    rewrite !app_nil_r in *. auto.
  - cbn [for_each] in Hrun. apply bind_ok in Hrun.
    destruct Hrun as [[eps1 self1] [Hstep Hrun]].
    cbn [forallb snd] in Huniq. apply andb_true_iff in Huniq.
    destruct Huniq as [Hitem Huniq].
    unfold path_step in Hstep.
    destruct path_item as [| | | | |item]; try discriminate.
    cbn [Py.get Py.items bind] in Hstep.
    fold (get_or "parameters" (VList []) item) in Hstep.
    assert (Hp : ~ In path (map fst (map merged_path_item done))).
    { rewrite (map_fst_same _ _ merged_path_item_key).
      rewrite map_app in Hnd. apply NoDup_remove_2 in Hnd.
      intros Hin. apply Hnd. apply in_or_app. now left. }
    destruct (operations_loop_effect top (map merged_path_item done) todo path
                (get_or "parameters" (VList []) item) Hp
                item [] eps self eps1 self1
                (unique_keys_NoDup item Hitem) Hspec Hstep) as [Hs1 Hb1].
    rewrite <- Hb1.
    replace (done ++ (path, VDict item) :: todo)%list
      with ((done ++ [(path, VDict item)]) ++ todo)%list by now rewrite <- app_assoc.
    apply (IH (done ++ [(path, VDict item)])%list eps1 self1 eps' self');
      [now rewrite <- app_assoc | exact Huniq | | exact Hrun].
    rewrite Hs1. cbn [app]. rewrite map_app. cbn [map].
    rewrite <- app_assoc. reflexivity.
Qed.

Lemma extract_endpoints_effect (self : t) (eps : list endpoint) (self' : t) :
  well_keyed (spec self) = true ->
  extract_endpoints urljoin self = Ok (eps, self') ->
  spec self' = merged_document (spec self) /\ base_url self' = base_url self.
Proof.
  unfold extract_endpoints, well_keyed, merged_document.
  destruct (spec self) as [| | | | |top] eqn:S; try discriminate.
  cbn [Py.get bind].
  destruct (Py.lookup "paths" top) as [paths_value|] eqn:L.
  - destruct paths_value as [| | | | |paths]; try discriminate.
    cbn [Py.items bind]. intros Hwf Hrun.
    apply andb_true_iff in Hwf. destruct Hwf as [Hu Hitems].
    apply (paths_loop_effect top paths [] [] self eps self'
             (unique_keys_NoDup paths Hu) Hitems); [|exact Hrun].
    rewrite S. unfold with_paths. cbn [map app].
    now rewrite (setitem_lookup _ _ _ L).
  - cbn [Py.items bind for_each]. intros _ H. inversion H; subst. auto.
Qed.

End WithUrljoin.

Lemma get_merged_document_other (doc : value) (k : string) (dflt : value) :
  k <> "paths" -> Py.get (merged_document doc) k dflt = Py.get doc k dflt.
Proof.
  intros Hk. unfold merged_document.
  destruct doc as [| | | | |top]; try reflexivity.
  destruct (Py.lookup "paths" top) as [[| | | | |paths]|]; try reflexivity.
  unfold with_paths. cbn [Py.get]. now rewrite lookup_setitem_other.
Qed.

(** C2, counterexample.  The path declares a parameter and its [get]
    operation another: after the extraction the operation's [parameters]
    in the document hold both, so the document is not the one loaded. *)
Lemma C2_extraction_rewrites_parameters :
  document_after shadowed_document
  = Ok (users_document
          [("parameters", VList [id_without_example]);
           ("get", VDict [("parameters",
                           VList [id_without_example; id_with_example])])]) /\
  document_after shadowed_document <> Ok shadowed_document.
Proof.
  split; [reflexivity|]. vm_compute. discriminate.
Qed.

(** C2, as amended.  The document is one that was loaded without anchors
    and aliases: a tree, in which no node is reached by two ways, and
    every mapping has each key once.  On such a document a call of
    [extract_endpoints] that returns leaves the parser's base URL as it
    was and the document changed in one respect only: under every path,
    each operation (the value of a key among get, post, put, patch,
    delete, head, options) has its [parameters] set to the parameters of
    the path followed by the operation's own.  The keys of the document
    other than [paths], the entries of a path item under other keys, and
    the other keys of an operation are as loaded.  (A node that an alias
    shares between two places is left out of the statement: the write
    to it is seen at both.) *)
Theorem C2_document_after_extraction
    (urljoin : string -> string -> result string)
    (self : t) (eps : list endpoint) (self' : t) :
  well_keyed (spec self) = true ->
  extract_endpoints urljoin self = Ok (eps, self') ->
  spec self' = merged_document (spec self) /\
  base_url self' = base_url self /\
  (forall k dflt, k <> "paths" ->
                  Py.get (spec self') k dflt = Py.get (spec self) k dflt) /\
  (forall top paths dflt,
      spec self = VDict top ->
      Py.lookup "paths" top = Some (VDict paths) ->
      Py.get (spec self') "paths" dflt = Ok (VDict (map merged_path_item paths))) /\
  (forall path item,
      merged_path_item (path, VDict item)
      = (path, VDict (map (merged_entry (get_or "parameters" (VList []) item)) item))) /\
  (forall key v common, is_method key = false -> merged_entry common (key, v) = (key, v)) /\
  (forall key common own o,
      is_method key = true ->
      get_or "parameters" (VList []) o = VList own ->
      merged_entry (VList common) (key, VDict o)
      = (key, VDict (Py.setitem "parameters" (VList (common ++ own)%list) o))).
Proof.
  intros Hwf Hrun.
  destruct (extract_endpoints_effect urljoin self eps self' Hwf Hrun) as [Hs Hb].
  split; [exact Hs|]. split; [exact Hb|]. split; [|split; [|split; [|split]]].
  - intros k dflt Hk. rewrite Hs. now apply get_merged_document_other.
  - intros top paths dflt Htop Hpaths.
    rewrite Hs, Htop. unfold merged_document, with_paths. rewrite Hpaths.
    cbn [Py.get]. now rewrite lookup_setitem_same.
  - reflexivity.
  - intros key v common M. unfold merged_entry. cbn [fst]. now rewrite M.
  - intros key common own o M Hown. unfold merged_entry, merged_operation.
    cbn [fst snd]. now rewrite M, Hown.
Qed.

Lemma C2_document_after_extraction_witness :
  match extract_endpoints urljoin_unused
          (parser_of shadowed_document "https://api.example.com/v1") with
  | Ok (_, self') => spec self' = merged_document shadowed_document
  | Raise _ => False
  end.
Proof.
  destruct (extract_endpoints urljoin_unused
              (parser_of shadowed_document "https://api.example.com/v1"))
    as [[eps self']|e] eqn:E.
  - exact (proj1 (C2_document_after_extraction urljoin_unused
                    (parser_of shadowed_document "https://api.example.com/v1")
                    eps self' eq_refl E)).
  - vm_compute in E. discriminate.
Defined.

End DocumentAfterExtraction.

(* ================================================================== *)
(** * Further properties of the walker *)
(* ================================================================== *)

(* ------------------------------------------------------------------ *)
(** ** Construction *)

Section Construction.

Import OpenAPIParser.

Lemma contains_append_l (sub s rest : string) :
  Str.contains sub s = true -> Str.contains sub (s ++ rest) = true.
Proof.
  assert (Hsw : forall p s0, Str.startswith p s0 = true ->
                             Str.startswith p (s0 ++ rest) = true).
  { induction p as [|a p IH]; intros s0 H; [reflexivity|].
    destruct s0 as [|b s0]; [discriminate|].
    cbn [append Str.startswith] in *.
    apply andb_true_iff in H. destruct H as [H1 H2].
    now rewrite H1, (IH s0 H2). }
  induction s as [|a s IH]; intros H.
  - cbn [Str.contains] in H. rewrite orb_false_r in H.
    destruct sub; [|discriminate]. destruct rest; reflexivity.
  - cbn [append Str.contains] in *. apply orb_true_iff in H.
    destruct H as [H | H].
    + apply (Hsw sub (String a s)) in H. cbn [append] in H. now rewrite H.
    + rewrite (IH H). apply orb_true_r.
Qed.

Lemma contains_append_r (sub s rest : string) :
  Str.contains sub rest = true -> Str.contains sub (s ++ rest) = true.
Proof.
  intros H. induction s as [|a s IH]; [exact H|].
  cbn [append Str.contains]. rewrite IH. apply orb_true_r.
Qed.

(** X1.  What the constructor does is decided by [schemes].  A document
    that is no mapping raises [AttributeError] (the null of an empty file
    among them).  For a mapping, the constructor returns when [schemes] is
    absent, a non-empty list or a non-empty string (of which the first
    character is then taken); it raises [IndexError] when [schemes] is
    the empty list or the empty string, and [TypeError] when it is null,
    a boolean or an integer.  (Of a [schemes] that is itself a mapping
    nothing is said: there the outcome hangs on a key [0].)  The parser
    returned holds the document, and its base URL has [://] in it
    whatever [host] and [basePath] are. *)
Theorem constructor_outcome_by_schemes (doc : value) :
  ((forall d, doc <> VDict d) -> __init__ doc = Raise AttributeError) /\
  (forall d, doc = VDict d ->
     match Py.lookup "schemes" d with
     | None => exists self, __init__ doc = Ok self
     | Some (VList []) => __init__ doc = Raise IndexError
     | Some (VList (_ :: _)) => exists self, __init__ doc = Ok self
     | Some (VStr EmptyString) => __init__ doc = Raise IndexError
     | Some (VStr (String _ _)) => exists self, __init__ doc = Ok self
     | Some (VDict _) => True
     | Some _ => __init__ doc = Raise TypeError
     end) /\
  (forall self, __init__ doc = Ok self ->
                spec self = doc /\ Str.contains "://" (base_url self) = true).
Proof.
  split; [|split].
  - intros Hno. destruct doc as [| | | | |d]; try reflexivity.
    now destruct (Hno d).
  - intros d ->. unfold __init__. rewrite build_base_url_unfold.
    unfold get_or.
    destruct (Py.lookup "schemes" d) as [[| | |s|l|]|]; try exact I;
      try reflexivity.
    + destruct s; [reflexivity | cbn; eauto].
    + destruct l; [reflexivity | cbn; eauto].
    + cbn. eauto.
  - intros self H. unfold __init__ in H.
    destruct doc as [| | | | |d]; try discriminate.
    rewrite build_base_url_unfold in H.
    destruct (Py.getitem0 _) as [scheme|e]; [|discriminate].
    cbn [bind] in H. inversion H; subst. cbn [spec base_url].
    split; [reflexivity|].
    apply contains_append_r.
    apply (contains_append_l "://" "://" (host_and_base_path d)). reflexivity.
Qed.

Lemma constructor_outcome_by_schemes_witness :
  exists self,
    __init__ users_api_document = Ok self /\
    spec self = users_api_document /\
    Str.contains "://" (base_url self) = true.
Proof.
  eexists. split; [reflexivity|].
  apply (proj2 (proj2 (constructor_outcome_by_schemes users_api_document))).
  reflexivity.
Defined.

End Construction.

(* ------------------------------------------------------------------ *)
(** ** URLs that need no substitution *)

Section PlainUrls.

Import OpenAPIParser.

Lemma rstrip_trailing (c : ascii) (s : string) :
  Str.rstrip c (s ++ String c EmptyString) = Str.rstrip c s.
Proof.
  induction s as [|a s IH].
  - cbn [append Str.rstrip]. now rewrite Ascii.eqb_refl.
  - cbn [append Str.rstrip]. now rewrite IH.
Qed.

Lemma replace_from_absent (old new s : string) :
  Str.contains old s = false -> Str.replace_from old new 0 s = s.
Proof.
  induction s as [|a s IH]; [reflexivity|].
  cbn [Str.contains Str.replace_from]. intros H.
  apply orb_false_iff in H. destruct H as [H1 H2].
  now rewrite H1, (IH H2).
Qed.

Lemma path_parameter_step_absent (url : string) (p : list (string * value)) :
  (is_path p = true -> Str.contains (placeholder (parameter_name p)) url = false) ->
  path_parameter_step url (VDict p) = Ok url.
Proof.
  intros H. unfold path_parameter_step, is_path in *. cbn [Py.get bind].
  fold (get_or "in" VNone p).
  destruct (Py.eq_str (get_or "in" VNone p) "path"); [|reflexivity].
  fold (get_or "name" (VStr "") p). fold (parameter_name p).
  specialize (H eq_refl). unfold placeholder in H.
  change (Ok (Str.replace_from ("{" ++ parameter_name p ++ "}")
                (Py.str (get_or "example"
                           (VStr ("<" ++ parameter_name p ++ ">")) p)) 0 url)
          = Ok url).
  now rewrite replace_from_absent.
Qed.

Lemma path_loop_absent (pds : list (list (string * value))) (url : string) :
  (forall p, In p pds -> is_path p = true ->
             Str.contains (placeholder (parameter_name p)) url = false) ->
  for_each path_parameter_step (map VDict pds) url = Ok url.
Proof.
  induction pds as [|p pds IH]; intros H; [reflexivity|].
  cbn [map for_each]. rewrite path_parameter_step_absent.
  - cbn [bind]. apply IH. intros q Hq. apply H. now right.
  - apply H. now left.
Qed.

Section WithUrljoin.

Variable urljoin : string -> string -> result string.

(** X2.  Trailing slashes of the base URL do not count: a parser whose
    base URL ends in one more slash builds the same URL for every path
    and operation. *)
Theorem build_url_ignores_trailing_slash
    (doc : value) (base path : string) (operation : value) :
  _build_url urljoin (parser_of doc (base ++ "/")) path operation
  = _build_url urljoin (parser_of doc base) path operation.
Proof.
  unfold _build_url, joined_url, parser_of. cbn [base_url].
  now rewrite (rstrip_trailing "/"%char base).
Qed.

(** X3.  When the operation has no query parameter and the placeholder
    of none of its path parameters occurs in the joined URL, the URL is
    the base URL and the path joined and nothing else: parameters of
    other kinds (header, body, formData) never show in it. *)
Theorem build_url_without_substitution
    (self : t) (path : string) (op : list (string * value))
    (pds : list (list (string * value))) (joined : string) :
  joined_url urljoin self path = Ok joined ->
  get_or "parameters" (VList []) op = VList (map VDict pds) ->
  (forall p, In p pds -> is_query p = false) ->
  (forall p, In p pds -> is_path p = true ->
             Str.contains (placeholder (parameter_name p)) joined = false) ->
  _build_url urljoin self path (VDict op) = Ok joined.
Proof.
  intros Hj Hp Hq Habs.
  rewrite (build_url_parts urljoin self path op pds joined joined Hj Hp
             (path_loop_absent pds joined Habs)).
  apply query_entries_nil in Hq. unfold query_string. rewrite Hq.
  now rewrite append_nil_r.
Qed.

End WithUrljoin.

Lemma build_url_without_substitution_witness :
  _build_url urljoin_unused (parser_of VNone "https://h/v1/") "/users"
    (VDict [("parameters",
             VList [VDict [("in", VStr "header"); ("name", VStr "X-Trace")];
                    VDict [("in", VStr "path"); ("name", VStr "id");
                           ("example", VInt 7)]])])
  = Ok "https://h/v1/users".
Proof.
  apply (build_url_without_substitution urljoin_unused
           (parser_of VNone "https://h/v1/") "/users"
           [("parameters",
             VList [VDict [("in", VStr "header"); ("name", VStr "X-Trace")];
                    VDict [("in", VStr "path"); ("name", VStr "id");
                           ("example", VInt 7)]])]
           [[("in", VStr "header"); ("name", VStr "X-Trace")];
            [("in", VStr "path"); ("name", VStr "id"); ("example", VInt 7)]]
           "https://h/v1/users" eq_refl eq_refl).
  - intros p [<- | [<- | []]]; reflexivity.
  - intros p [<- | [<- | []]] _; reflexivity.
Defined.

End PlainUrls.

(* ------------------------------------------------------------------ *)
(** ** What the security headers hold *)

Section SecurityInvariants.

Import OpenAPIParser.

Lemma for_each_invariant (A B : Type) (P : B -> Prop) (f : B -> A -> result B)
    (l : list A) :
  (forall acc x acc', P acc -> f acc x = Ok acc' -> P acc') ->
  forall acc r, P acc -> for_each f l acc = Ok r -> P r.
Proof.
  intros Hstep. induction l as [|x l IH]; intros acc r Hacc Hrun.
  - cbn [for_each] in Hrun. inversion Hrun; subst. exact Hacc.
  - cbn [for_each] in Hrun. apply bind_ok in Hrun.
    destruct Hrun as [acc' [Hx Hrun]].
    exact (IH acc' r (Hstep acc x acc' Hacc Hx) Hrun).
Qed.

Lemma header_set_forall (P : string -> Prop) (k : value) (v : string)
    (h : header_map) :
  P v -> Forall (fun kv => P (snd kv)) h ->
  Forall (fun kv => P (snd kv)) (header_set k v h).
Proof.
  intros Hv. induction 1 as [|[k' v'] h Hk Hh IH]; cbn [header_set].
  - constructor; [exact Hv | constructor].
  - destruct (Py.key_eqb k k'); constructor; auto.
Qed.

Lemma security_scheme_step_placeholders
    (security_defs : value) (h : header_map) (sec_name : string) (h' : header_map) :
  Forall (fun kv => is_token_placeholder (snd kv)) h ->
  security_scheme_step security_defs h sec_name = Ok h' ->
  Forall (fun kv => is_token_placeholder (snd kv)) h'.
Proof.
  intros Hh H. unfold security_scheme_step in H.
  apply bind_ok in H. destruct H as [known [_ H]].
  destruct known; [|inversion H; subst; exact Hh].
  apply bind_ok in H. destruct H as [sec_def [_ H]].
  apply bind_ok in H. destruct H as [ty [_ H]].
  destruct (Py.eq_str ty "apiKey"); [|inversion H; subst; exact Hh].
  apply bind_ok in H. destruct H as [loc [_ H]].
  destruct (Py.eq_str loc "header"); [|inversion H; subst; exact Hh].
  apply bind_ok in H. destruct H as [header_name [_ H]].
  apply bind_ok in H. destruct H as [description [_ H]].
  apply bind_ok in H. destruct H as [bearer [_ H]].
  unfold header_setitem in H.
  destruct (Py.hashable header_name); [|discriminate].
  inversion H; subst. apply header_set_forall; [|exact Hh].
  destruct bearer; [now left | now right].
Qed.

(** X4.  Whatever the document declares, a security header never holds
    anything but one of the two placeholder texts. *)
Theorem security_headers_hold_placeholders
    (self : t) (operation : value) (headers : header_map) :
  _get_security_headers self operation = Ok headers ->
  Forall (fun kv => snd kv = "Bearer <your-token>" \/ snd kv = "<your-token>")
         headers.
Proof.
  unfold _get_security_headers. intros H.
  apply bind_ok in H. destruct H as [op_security [_ H]].
  apply bind_ok in H. destruct H as [security [_ H]].
  apply bind_ok in H. destruct H as [security_defs [_ H]].
  apply bind_ok in H. destruct H as [requirements [_ H]].
  apply (for_each_invariant _ _
           (Forall (fun kv => is_token_placeholder (snd kv)))
           (security_requirement_step security_defs) requirements)
    with (acc := []); [|constructor | exact H].
  intros acc sec acc' Hacc Hstep. unfold security_requirement_step in Hstep.
  apply bind_ok in Hstep. destruct Hstep as [entries [_ Hstep]].
  apply (for_each_invariant _ _
           (Forall (fun kv => is_token_placeholder (snd kv)))
           (security_scheme_step security_defs) (map fst entries))
    with (acc := acc); [|exact Hacc | exact Hstep].
  intros h sec_name h' Hh Hs.
  exact (security_scheme_step_placeholders security_defs h sec_name h' Hh Hs).
Qed.

Lemma security_headers_hold_placeholders_witness :
  Forall (fun kv => snd kv = "Bearer <your-token>" \/ snd kv = "<your-token>")
         [(VStr "X-API-Key", "Bearer <your-token>")].
Proof.
  exact (security_headers_hold_placeholders
           (parser_of (VDict api_key_document) "https://h") (VDict [])
           [(VStr "X-API-Key", "Bearer <your-token>")] eq_refl).
Defined.

End SecurityInvariants.

(* ------------------------------------------------------------------ *)
(** ** The endpoints of a document *)

Section Endpoints.

Import OpenAPIParser.

Lemma of_Z_nonempty (n : Z) : Str.of_Z n <> "".
Proof.
  unfold Str.of_Z, NilZero.string_of_int, NilZero.string_of_uint.
  destruct (Z.to_int n) as [d|d]; [|discriminate].
  destruct d; cbn; discriminate.
Qed.

Lemma dumps_nonempty (v : value) : Json.dumps v <> "".
Proof.
  unfold Json.dumps. destruct v as [|b|n|s|l|d]; cbn [Json.encode].
  - discriminate.
  - destruct b; discriminate.
  - apply of_Z_nonempty.
  - unfold Json.encode_string. discriminate.
  - destruct l; discriminate.
  - destruct d; discriminate.
Qed.

(** Every [return] of the loop body returns the text of [json.dumps]. *)
Lemma body_of_parameter_is_dump (self : t) (param : value) (text : string) :
  body_of_parameter self param = Ok (Some text) -> exists v, text = Json.dumps v.
Proof.
  unfold body_of_parameter. intros H.
  repeat match type of H with
         | bind _ _ = Ok _ =>
             let x := fresh "x" in
             apply bind_ok in H; destruct H as [x [_ H]]
         | (if ?b then _ else _) = Ok _ => destruct b
         | Ok (Some _) = Ok (Some _) => inversion H; subst; eauto
         | Ok None = Ok (Some _) => discriminate
         end.
Qed.

Lemma get_request_body_nonempty (self : t) (operation : value) (text : string) :
  _get_request_body self operation = Ok (Some text) -> text <> "".
Proof.
  unfold _get_request_body. intros H.
  apply bind_ok in H. destruct H as [parameters [_ H]].
  apply bind_ok in H. destruct H as [params [_ H]].
  apply for_return_some in H. destruct H as [before [p [after [_ [_ H]]]]].
  apply body_of_parameter_is_dump in H. destruct H as [v ->].
  apply dumps_nonempty.
Qed.

Lemma is_method_upper (method : string) :
  is_method method = true -> In (Str.upper method) http_methods.
Proof.
  unfold is_method. intros H. apply existsb_exists in H.
  destruct H as [m [Hin Heq]]. apply String.eqb_eq in Heq. subst m.
  unfold http_methods. cbn [In] in *.
  repeat (destruct Hin as [<- | Hin]; [cbn; tauto|]). contradiction.
Qed.

Section WithUrljoin.

Variable urljoin : string -> string -> result string.

(** What one iteration of the inner loop adds to the endpoints. *)
Lemma operation_step_endpoint
    (path : string) (common : value) (eps : list endpoint) (self : t)
    (method : string) (op : value) (eps' : list endpoint) (self' : t) :
  operation_step urljoin path common (eps, self) (method, op) = Ok (eps', self') ->
  (is_method method = false /\ eps' = eps) \/
  (is_method method = true /\
   exists ep,
     eps' = (eps ++ [ep])%list /\
     ep_path ep = path /\
     ep_method ep = Str.upper method /\
     ep_body ep <> Some "" /\
     (ep_body ep <> None -> has_json_content_type ep) /\
     (ep_body ep = None ->
      Forall (fun kv => is_token_placeholder (snd kv)) (ep_headers ep))).
Proof.
  unfold operation_step. destruct (is_method method) eqn:M; cbn [negb].
  - intros H. right. split; [reflexivity|].
    apply bind_ok in H. destruct H as [op_params [_ H]].
    apply bind_ok in H. destruct H as [all_params [_ H]].
    apply bind_ok in H. destruct H as [operation [_ H]].
    cbv zeta in H.
    apply bind_ok in H. destruct H as [url [_ H]].
    apply bind_ok in H. destruct H as [headers [Hsec H]].
    apply bind_ok in H. destruct H as [request_body [Hbody H]].
    apply bind_ok in H. destruct H as [headers' [Hct H]].
    apply bind_ok in H. destruct H as [summary [_ H]].
    apply bind_ok in H. destruct H as [description [_ H]].
    apply bind_ok in H. destruct H as [operation_id [_ H]].
    apply bind_ok in H. destruct H as [tags [_ H]].
    inversion H; subst. eexists. split; [reflexivity|].
    cbn [ep_path ep_method ep_body ep_headers]. unfold has_json_content_type.
    cbn [ep_headers].
    split; [reflexivity|]. split; [reflexivity|].
    destruct request_body as [text|].
    + pose proof (get_request_body_nonempty _ _ _ Hbody) as Hne.
      split; [congruence|]. split; [|discriminate].
      intros _. apply String.eqb_neq in Hne. rewrite Hne in Hct. cbn [negb] in Hct.
      unfold header_setitem in Hct. cbn [Py.hashable] in Hct.
      inversion Hct; subst. apply header_set_stores.
    + split; [discriminate|]. split; [congruence|].
      intros _. inversion Hct; subst.
      exact (security_headers_hold_placeholders _ _ _ Hsec).
  - intros H. inversion H; subst. left. auto.
Qed.

(** X5.  Of the endpoints of a document, those with a body are exactly
    those with the header [Content-Type: application/json], and no body
    is the empty text. *)
Theorem json_content_type_exactly_with_body
    (self : t) (eps : list endpoint) (self' : t) :
  extract_endpoints urljoin self = Ok (eps, self') ->
  Forall (fun ep => (ep_body ep <> None <-> has_json_content_type ep)
                    /\ ep_body ep <> Some "") eps.
Proof.
  set (Q := fun ep => (ep_body ep <> None <-> has_json_content_type ep)
                      /\ ep_body ep <> Some "").
  unfold extract_endpoints. intros H.
  apply bind_ok in H. destruct H as [paths [_ H]].
  apply bind_ok in H. destruct H as [entries [_ H]].
  apply (for_each_invariant _ _ (fun st => Forall Q (fst st))
           (path_step urljoin) entries) with (acc := ([], self)) in H;
    [exact H | | constructor].
  intros [eps0 self0] [path path_item] [eps1 self1] Hacc Hstep.
  unfold path_step in Hstep.
  apply bind_ok in Hstep. destruct Hstep as [common [_ Hstep]].
  apply bind_ok in Hstep. destruct Hstep as [operations [_ Hstep]].
  apply (for_each_invariant _ _ (fun st => Forall Q (fst st))
           (operation_step urljoin path common) operations)
    with (acc := (eps0, self0)) in Hstep; [exact Hstep | | exact Hacc].
  intros [eps2 self2] [method op] [eps3 self3] Hacc2 Hop.
  apply operation_step_endpoint in Hop.
  destruct Hop as [[_ ->] | [_ [ep [-> [_ [_ [Hne [Hsome Hnone]]]]]]]];
    [exact Hacc2|].
  cbn [fst] in *. apply Forall_app. split; [exact Hacc2|].
  constructor; [|constructor]. unfold Q. split; [|exact Hne].
  split; [exact Hsome|].
  intros Hct Hbody. specialize (Hnone Hbody).
  unfold has_json_content_type in Hct. rewrite Forall_forall in Hnone.
  destruct (Hnone _ Hct) as [E | E]; discriminate.
Qed.

(** What the loops add to the list of (path, method) pairs. *)
Lemma operations_loop_endpoints (path : string) (common : value)
    (items : list (string * value)) :
  forall eps self eps' self',
    for_each (operation_step urljoin path common) items (eps, self)
    = Ok (eps', self') ->
    map (fun ep => (ep_path ep, ep_method ep)) eps'
    = (map (fun ep => (ep_path ep, ep_method ep)) eps
       ++ map (fun e => (path, Str.upper (fst e)))
              (filter (fun e => is_method (fst e)) items))%list.
Proof.
  induction items as [|[method op] items IH]; intros eps self eps' self' H.
  - cbn [for_each] in H. inversion H; subst. cbn. now rewrite app_nil_r.
  - cbn [for_each] in H. apply bind_ok in H. destruct H as [[eps1 self1] [Hop H]].
    apply IH in H. rewrite H. clear H.
    apply operation_step_endpoint in Hop. cbn [filter fst].
    destruct Hop as [[M ->] | [M [ep [-> [Hp [Hm _]]]]]]; rewrite M.
    + reflexivity.
    + rewrite map_app. cbn [map fst]. rewrite Hp, Hm, <- app_assoc. reflexivity.
Qed.

Lemma paths_loop_endpoints (entries : list (string * value)) :
  forall eps self eps' self',
    for_each (path_step urljoin) entries (eps, self) = Ok (eps', self') ->
    map (fun ep => (ep_path ep, ep_method ep)) eps'
    = (map (fun ep => (ep_path ep, ep_method ep)) eps
       ++ declared_operations (VDict entries))%list.
Proof.
  induction entries as [|[path path_item] entries IH]; intros eps self eps' self' H.
  - cbn [for_each] in H. inversion H; subst. cbn. now rewrite app_nil_r.
  - cbn [for_each] in H. apply bind_ok in H. destruct H as [[eps1 self1] [Hp H]].
    apply IH in H. rewrite H. clear H.
    unfold path_step in Hp.
    destruct path_item as [| | | | |item]; try discriminate.
    cbn [Py.get Py.items bind] in Hp.
    apply operations_loop_endpoints in Hp. rewrite Hp.
    cbn [declared_operations flat_map snd fst]. now rewrite <- app_assoc.
Qed.

(** X6.  The endpoints are the operations of the document, one for each
    method key under each path, in the order of the document: paths in
    their order and under each path the methods in theirs.  The keys of a
    path item that are no method give none, and the method of an endpoint
    is one of the seven in capitals. *)
Theorem endpoints_are_the_declared_operations
    (self : t) (eps : list endpoint) (self' : t) (top : list (string * value)) :
  extract_endpoints urljoin self = Ok (eps, self') ->
  spec self = VDict top ->
  map (fun ep => (ep_path ep, ep_method ep)) eps
  = declared_operations (get_or "paths" (VDict []) top) /\
  Forall (fun ep => In (ep_method ep) http_methods) eps.
Proof.
  unfold extract_endpoints. intros H Htop. rewrite Htop in H.
  cbn [Py.get bind] in H. fold (get_or "paths" (VDict []) top) in H.
  destruct (get_or "paths" (VDict []) top) as [| | | | |entries];
    try discriminate.
  cbn [Py.items bind] in H. apply paths_loop_endpoints in H. cbn [map app] in H.
  split; [exact H|].
  assert (Hall : Forall (fun pm => In (snd pm) http_methods)
                        (map (fun ep => (ep_path ep, ep_method ep)) eps)).
  { rewrite H. unfold declared_operations. apply Forall_forall.
    intros [p m] Hin. apply in_flat_map in Hin.
    destruct Hin as [[path path_item] [_ Hin]]. cbn [snd fst] in Hin.
    destruct path_item as [| | | | |item]; try contradiction.
    apply in_map_iff in Hin. destruct Hin as [[method op] [Heq Hf]].
    apply filter_In in Hf. destruct Hf as [_ M]. inversion Heq; subst.
    cbn [snd fst] in *. now apply is_method_upper. }
  rewrite Forall_map in Hall. exact Hall.
Qed.

End WithUrljoin.

Lemma json_content_type_exactly_with_body_witness :
  match extract_endpoints urljoin_unused users_api_parser with
  | Ok (eps, _) =>
      Forall (fun ep => (ep_body ep <> None <-> has_json_content_type ep)
                        /\ ep_body ep <> Some "") eps
      /\ map ep_body eps = [None; Some user_body]
  | Raise _ => False
  end.
Proof.
  destruct (extract_endpoints urljoin_unused users_api_parser)
    as [[eps self']|e] eqn:E.
  - split.
    + exact (json_content_type_exactly_with_body urljoin_unused
               users_api_parser eps self' E).
    + vm_compute in E. inversion E. reflexivity.
  - vm_compute in E. discriminate.
Defined.

Lemma endpoints_are_the_declared_operations_witness :
  match extract_endpoints urljoin_unused users_api_parser with
  | Ok (eps, _) =>
      map (fun ep => (ep_path ep, ep_method ep)) eps
      = [("/users", "GET"); ("/users", "POST")]
  | Raise _ => False
  end.
Proof.
  destruct (extract_endpoints urljoin_unused users_api_parser)
    as [[eps self']|e] eqn:E.
  - rewrite (proj1 (endpoints_are_the_declared_operations urljoin_unused
                      users_api_parser eps self' _ E eq_refl)).
    reflexivity.
  - vm_compute in E. discriminate.
Defined.

End Endpoints.

(* ------------------------------------------------------------------ *)
(** ** A second extraction *)

Section SecondExtraction.

Import OpenAPIParser.

Lemma unique_keys_same_keys (d1 : list (string * value)) :
  forall d2, map fst d1 = map fst d2 -> unique_keys d1 = unique_keys d2.
Proof.
  induction d1 as [|[k1 v1] d1 IH]; intros [|[k2 v2] d2] H; try discriminate.
  - reflexivity.
  - cbn [map fst] in H. inversion H; subst. cbn [unique_keys].
    now rewrite H2, (IH d2 H2).
Qed.

Lemma unique_keys_merged_entries (common : value) (item : list (string * value)) :
  unique_keys (map (merged_entry common) item) = unique_keys item.
Proof.
  apply unique_keys_same_keys. apply map_fst_same. apply merged_entry_key.
Qed.

Lemma well_keyed_merged_document (doc : value) :
  well_keyed doc = true -> well_keyed (merged_document doc) = true.
Proof.
  unfold merged_document.
  destruct doc as [| | | | |top]; try (intros; assumption).
  destruct (Py.lookup "paths" top) as [[| | | | |paths]|] eqn:L;
    try (intros; assumption).
  unfold well_keyed at 1. rewrite L. intros H.
  apply andb_true_iff in H. destruct H as [Hu Hitems].
  unfold well_keyed, with_paths. rewrite lookup_setitem_same.
  apply andb_true_iff. split.
  - rewrite (unique_keys_same_keys (map merged_path_item paths) paths); [exact Hu|].
    apply map_fst_same. apply merged_path_item_key.
  - rewrite forallb_forall in *. intros kv Hin. apply in_map_iff in Hin.
    destruct Hin as [[path path_item] [<- Hin]]. specialize (Hitems _ Hin).
    unfold merged_path_item. cbn [snd fst] in *.
    destruct path_item as [| | | | |item]; try reflexivity.
    cbn [snd]. now rewrite unique_keys_merged_entries.
Qed.

Lemma lookup_merged_entries (common : value) (k : string)
    (item : list (string * value)) :
  is_method k = false ->
  Py.lookup k (map (merged_entry common) item) = Py.lookup k item.
Proof.
  intros Hk. induction item as [|[k' v] item IH]; [reflexivity|].
  cbn [map]. unfold merged_entry at 1. cbn [fst snd].
  destruct (is_method k') eqn:M; cbn [Py.lookup];
    destruct (String.eqb k k') eqn:E; try exact IH; try reflexivity.
  apply String.eqb_eq in E. subst k'. congruence.
Qed.

Lemma setitem_twice (k : string) (v1 v2 : value) (d : list (string * value)) :
  Py.setitem k v2 (Py.setitem k v1 d) = Py.setitem k v2 d.
Proof.
  induction d as [|[k' v'] d IH]; cbn [Py.setitem].
  - now rewrite String.eqb_refl.
  - destruct (String.eqb k k') eqn:E; cbn [Py.setitem].
    + now rewrite String.eqb_refl.
    + now rewrite E, IH.
Qed.

Section WithUrljoin.

Variable urljoin : string -> string -> result string.

(** X7.  On a document loaded without anchors and aliases (a tree, every
    mapping with each key once), a second call on the same parser merges
    again: the document it leaves is the merge of the merged document,
    in which each operation holds the parameters of its path twice,
    followed by its own. *)
Theorem second_extraction_merges_again
    (self : t) (eps1 : list endpoint) (self1 : t)
    (eps2 : list endpoint) (self2 : t) :
  well_keyed (spec self) = true ->
  extract_endpoints urljoin self = Ok (eps1, self1) ->
  extract_endpoints urljoin self1 = Ok (eps2, self2) ->
  spec self2 = merged_document (merged_document (spec self)) /\
  (forall path item,
      merged_path_item (merged_path_item (path, VDict item))
      = (path,
         VDict (map (fun e =>
                       merged_entry (get_or "parameters" (VList []) item)
                         (merged_entry (get_or "parameters" (VList []) item) e))
                    item))) /\
  (forall key common own o,
      is_method key = true ->
      get_or "parameters" (VList []) o = VList own ->
      merged_entry (VList common) (merged_entry (VList common) (key, VDict o))
      = (key, VDict (Py.setitem "parameters"
                       (VList (common ++ common ++ own)%list) o))).
Proof.
  intros Hwf H1 H2.
  destruct (extract_endpoints_effect urljoin self eps1 self1 Hwf H1) as [Hs1 _].
  assert (Hwf1 : well_keyed (spec self1) = true)
    by (rewrite Hs1; now apply well_keyed_merged_document).
  destruct (extract_endpoints_effect urljoin self1 eps2 self2 Hwf1 H2) as [Hs2 _].
  split; [now rewrite Hs2, Hs1|]. split.
  - intros path item. unfold merged_path_item. cbn [snd fst].
    unfold get_or at 1. rewrite lookup_merged_entries by reflexivity.
    fold (get_or "parameters" (VList []) item). now rewrite map_map.
  - intros key common own o M Hown.
    unfold merged_entry, merged_operation. cbn [fst snd]. rewrite M, Hown.
    cbn [Py.add fst snd]. rewrite M. unfold get_or at 1.
    rewrite lookup_setitem_same. cbn [Py.add]. now rewrite setitem_twice.
Qed.

End WithUrljoin.

Lemma second_extraction_merges_again_witness :
  match extract_endpoints urljoin_unused users_api_parser with
  | Ok (eps1, self1) =>
      match extract_endpoints urljoin_unused self1 with
      | Ok (eps2, self2) =>
          spec self2 = merged_document (merged_document users_api_document) /\
          map ep_url eps1 = ["https://api.example.com/users?page=1";
                             "https://api.example.com/users?page=1"] /\
          map ep_url eps2 = ["https://api.example.com/users?page=1&page=1";
                             "https://api.example.com/users?page=1&page=1"]
      | Raise _ => False
      end
  | Raise _ => False
  end.
Proof.
  destruct (extract_endpoints urljoin_unused users_api_parser)
    as [[eps1 self1]|e] eqn:E1; [|vm_compute in E1; discriminate].
  destruct (extract_endpoints urljoin_unused self1)
    as [[eps2 self2]|e] eqn:E2.
  - split.
    + exact (proj1 (second_extraction_merges_again urljoin_unused
                      users_api_parser eps1 self1 eps2 self2 eq_refl E1 E2)).
    + vm_compute in E1. inversion E1; subst. vm_compute in E2.
      inversion E2; subst. split; reflexivity.
  - vm_compute in E1. inversion E1; subst. vm_compute in E2. discriminate.
Defined.

End SecondExtraction.

(* ------------------------------------------------------------------ *)
(** ** The synthesized object *)

Section SynthesizedObject.

Import OpenAPIParser.

Variable self : t.

Lemma produced_value_is_none (prop_name : string) (ps : list (string * value))
    (produced : option value) :
  has_key "example" ps = false ->
  produces_value ps = false ->
  definition_property_value self prop_name (VDict ps) = Ok produced ->
  produced = None.
Proof.
  unfold produces_value, definition_property_value, synthesized_types.
  intros Hex Hp. rewrite Hex in Hp. cbn [orb existsb] in Hp.
  cbn [Py.get bind]. fold (get_or "type" (VStr "string") ps).
  repeat (apply orb_false_iff in Hp; destruct Hp as [?E Hp]).
  rewrite E, E0, E1, E2, E3. intros H. now inversion H.
Qed.

Lemma definition_step_stores_producing (required : value) :
  step_stores_producing (definition_property_step self required).
Proof.
  intros example prop_name schema example' H.
  unfold definition_property_step in H. unfold producing. cbn [snd].
  destruct schema as [| | |s|l|ps]; try discriminate.
  - cbn [Py.contains bind] in H. destruct (Str.contains "example" s); discriminate.
  - cbn [Py.contains bind] in H.
    destruct (existsb (fun v => Py.eq_str v "example") l); discriminate.
  - rewrite contains_dict in H. cbn [bind] in H.
    destruct (has_key "example" ps) eqn:Hex.
    + apply bind_ok in H. destruct H as [ex [_ H]]. inversion H; subst.
      left. unfold produces_value. rewrite Hex. eauto.
    + apply bind_ok in H. destruct H as [produced [Hv H]].
      apply bind_ok in H. destruct H as [is_required [_ H]].
      assert (He : example' = assign prop_name produced example)
        by (destruct (negb is_required && _); now inversion H).
      destruct (produces_value ps) eqn:Hp.
      * destruct (produced_value_is_some self _ _ _ Hex Hp Hv) as [v ->].
        left. eauto.
      * rewrite (produced_value_is_none _ _ _ Hex Hp Hv) in He. right. auto.
Qed.

Lemma inline_produced (prop_name : string) (ps : list (string * value))
    (produced : option value) :
  has_key "example" ps = false ->
  inline_property_value prop_name (VDict ps) = Ok produced ->
  (produces_value ps = true /\ exists v, produced = Some v) \/
  (produces_value ps = false /\ produced = None).
Proof.
  unfold produces_value, inline_property_value, synthesized_types.
  intros Hex. rewrite Hex. cbn [orb existsb Py.get bind].
  fold (get_or "type" (VStr "string") ps).
  destruct (Py.eq_str (get_or "type" (VStr "string") ps) "string"); cbn [orb].
  { intros H. apply bind_ok in H. destruct H as [v [_ H]]. inversion H. left. eauto. }
  destruct (Py.eq_str (get_or "type" (VStr "string") ps) "integer"); cbn [orb].
  { intros H. inversion H. left. eauto. }
  destruct (Py.eq_str (get_or "type" (VStr "string") ps) "boolean"); cbn [orb].
  { intros H. inversion H. left. eauto. }
  destruct (Py.eq_str (get_or "type" (VStr "string") ps) "array"); cbn [orb].
  { intros H. inversion H. left. eauto. }
  destruct (Py.eq_str (get_or "type" (VStr "string") ps) "object"); cbn [orb].
  { intros H. inversion H. left. eauto. }
  intros H. inversion H. right. auto.
Qed.

Lemma inline_step_stores_producing (required : value) :
  step_stores_producing (inline_property_step required).
Proof.
  intros example prop_name schema example' H.
  unfold inline_property_step in H. unfold producing. cbn [snd].
  destruct schema as [| | |s|l|ps]; try discriminate.
  - cbn [Py.contains bind] in H. destruct (Str.contains "example" s); discriminate.
  - cbn [Py.contains bind] in H.
    destruct (existsb (fun v => Py.eq_str v "example") l); discriminate.
  - rewrite contains_dict in H. cbn [bind] in H.
    destruct (has_key "example" ps) eqn:Hex.
    + apply bind_ok in H. destruct H as [ex [_ H]]. inversion H; subst.
      left. unfold produces_value. rewrite Hex. eauto.
    + apply bind_ok in H. destruct H as [produced [Hv H]].
      apply bind_ok in H. destruct H as [is_required [_ H]].
      assert (He : example' = assign prop_name produced example)
        by (destruct (is_required || _); now inversion H).
      destruct (inline_produced _ _ _ Hex Hv) as [[Hp [v ->]] | [Hp ->]].
      * left. rewrite Hp. eauto.
      * right. rewrite Hp. auto.
Qed.

Lemma keys_setitem_new (k : string) (v : value) (d : list (string * value)) :
  has_key k d = false ->
  map fst (Py.setitem k v d) = (map fst d ++ [k])%list.
Proof.
  unfold has_key. induction d as [|[k' v'] d IH]; cbn [Py.setitem Py.lookup map fst app].
  - reflexivity.
  - destruct (String.eqb k k'); [discriminate|].
    intros H. cbn [map fst]. now rewrite (IH H).
Qed.

Lemma unique_keys_head (k : string) (v : value) (d : list (string * value)) :
  unique_keys ((k, v) :: d) = true ->
  unique_keys d = true /\ forall kv, In kv d -> String.eqb (fst kv) k = false.
Proof.
  cbn [unique_keys]. intros H. apply andb_true_iff in H. destruct H as [Hk Hd].
  split; [exact Hd|]. intros kv Hin.
  destruct (String.eqb (fst kv) k) eqn:E; [|reflexivity].
  apply String.eqb_eq in E. subst k. apply negb_true_iff in Hk.
  assert (existsb (String.eqb (fst kv)) (map fst d) = true).
  { apply existsb_eqb_In. now apply in_map. }
  congruence.
Qed.

Lemma keys_of_loop
    (step : list (string * value) -> string * value -> result (list (string * value)))
    (props : list (string * value)) :
  step_stores_producing step ->
  forall acc example,
    for_each step props acc = Ok example ->
    unique_keys props = true ->
    (forall kv, In kv props -> has_key (fst kv) acc = false) ->
    map fst example = (map fst acc ++ map fst (filter producing props))%list.
Proof.
  intros Hstep. induction props as [|[n schema] props IH];
    intros acc example Hrun Hu Hfresh.
  - cbn [for_each] in Hrun. inversion Hrun; subst. cbn. now rewrite app_nil_r.
  - cbn [for_each] in Hrun. apply bind_ok in Hrun.
    destruct Hrun as [acc' [Hs Hrun]].
    destruct (unique_keys_head _ _ _ Hu) as [Hu' Hne].
    cbn [filter].
    destruct (Hstep _ _ _ _ Hs) as [[Hp [v ->]] | [Hp ->]]; rewrite Hp.
    + rewrite (IH _ _ Hrun Hu').
      * rewrite keys_setitem_new by (apply (Hfresh (n, schema)); now left).
        cbn [map fst]. now rewrite <- app_assoc.
      * intros kv Hin. rewrite has_key_setitem, (Hne kv Hin).
        apply Hfresh. now right.
    + apply (IH _ _ Hrun Hu'). intros kv Hin. apply Hfresh. now right.
Qed.

(** X8.  The keys of the synthesized object, from a referenced definition
    and from an inline schema alike, are the names of the properties that
    are processed to a value, in the order of their declaration: nothing
    else gets in, and a property without example whose type is none of
    string, integer, boolean, array, object (a number, say) is left out. *)
Theorem synthesized_object_keys
    (d props example : list (string * value)) :
  get_or "properties" (VDict []) d = VDict props ->
  unique_keys props = true ->
  (definition_example self (VDict d) = Ok (VDict example) \/
   inline_example (VDict d) = Ok (VDict example)) ->
  map fst example = map fst (filter producing props).
Proof.
  intros Hprops Hu [H | H].
  - unfold definition_example in H. cbn [Py.get bind] in H.
    fold (get_or "properties" (VDict []) d) in H. rewrite Hprops in H.
    cbn [Py.items bind] in H.
    apply bind_ok in H. destruct H as [ex [Hrun H]]. inversion H; subst.
    apply (keys_of_loop _ props (definition_step_stores_producing _) [] _ Hrun Hu).
    reflexivity.
  - unfold inline_example in H. cbn [Py.get bind] in H.
    fold (get_or "properties" (VDict []) d) in H. rewrite Hprops in H.
    cbn [Py.items bind] in H.
    apply bind_ok in H. destruct H as [ex [Hrun H]]. inversion H; subst.
    apply (keys_of_loop _ props (inline_step_stores_producing _) [] _ Hrun Hu).
    reflexivity.
Qed.

End SynthesizedObject.

Lemma synthesized_object_keys_witness :
  OpenAPIParser.definition_example (parser_of (VDict []) "https://h")
    (VDict [("properties", VDict product_properties)])
  = Ok (VDict [("name", VStr "<name>"); ("stock", VInt 0)])
  /\ map fst [("name", VStr "<name>"); ("stock", VInt 0)]
     = map fst (filter producing product_properties).
Proof.
  split; [reflexivity|].
  apply (synthesized_object_keys (parser_of (VDict []) "https://h")
           [("properties", VDict product_properties)] product_properties
           [("name", VStr "<name>"); ("stock", VInt 0)] eq_refl eq_refl).
  left. reflexivity.
Defined.

(* ------------------------------------------------------------------ *)
(** ** The example of an array *)

Section ArrayExample.

Import OpenAPIParser.

Lemma setitem_new (k : string) (v : value) (d : list (string * value)) :
  has_key k d = false -> Py.setitem k v d = (d ++ [(k, v)])%list.
Proof.
  unfold has_key. induction d as [|[k' v'] d IH]; cbn [Py.setitem Py.lookup app].
  - reflexivity.
  - destruct (String.eqb k k'); [discriminate|]. intros H. now rewrite (IH H).
Qed.

Lemma has_key_snoc (k k0 : string) (v : value) (d : list (string * value)) :
  has_key k (d ++ [(k0, v)])%list = has_key k d || String.eqb k k0.
Proof.
  unfold has_key. induction d as [|[k' v'] d IH]; cbn [app Py.lookup].
  - destruct (String.eqb k k0); reflexivity.
  - destruct (String.eqb k k'); [reflexivity | exact IH].
Qed.

Lemma item_property_step_entry (acc : list (string * value)) (kv : string * value) :
  is_mapping (snd kv) = true ->
  has_key (fst kv) acc = false ->
  item_property_step acc kv = Ok (acc ++ [item_entry kv])%list.
Proof.
  destruct kv as [item_prop schema]. cbn [fst snd]. intros Hm Hfresh.
  destruct schema as [| | | | |ips]; try discriminate.
  unfold item_property_step, item_entry, get_or. cbn [fst snd].
  rewrite contains_dict. unfold has_key at 1. cbn [bind Py.getitem].
  destruct (Py.lookup "example" ips); cbn [bind]; now rewrite setitem_new.
Qed.

Lemma item_loop_entries (props : list (string * value)) :
  forall acc,
    forallb (fun kv => is_mapping (snd kv)) props = true ->
    unique_keys props = true ->
    (forall kv, In kv props -> has_key (fst kv) acc = false) ->
    for_each item_property_step props acc = Ok (acc ++ map item_entry props)%list.
Proof.
  induction props as [|[n schema] props IH]; intros acc Hm Hu Hfresh.
  - cbn. now rewrite app_nil_r.
  - cbn [forallb] in Hm. apply andb_true_iff in Hm. destruct Hm as [Hm1 Hm].
    destruct (unique_keys_head _ _ _ Hu) as [Hu' Hne].
    cbn [for_each map].
    rewrite item_property_step_entry; [|exact Hm1 | apply Hfresh; now left].
    cbn [bind]. rewrite IH; [now rewrite <- app_assoc | exact Hm | exact Hu' |].
    intros kv Hin. unfold item_entry at 1. cbn [fst].
    rewrite has_key_snoc, (Hne kv Hin), orb_false_r. apply Hfresh. now right.
Qed.

(** X9.  For a property of type array whose [items] carry a [$ref], the
    reference is resolved by its last segment in [definitions], whatever
    stands before it.  The example is the empty list when the definition
    is missing or has no [properties], and else one object with, for each
    property of the definition in order, its own example or the bare
    placeholder [<name>]: the types, formats and defaults of the item
    properties are not looked at. *)
Theorem array_example_from_item_definition
    (self : t) (top ps items defs item_def props : list (string * value))
    (ref : string) :
  spec self = VDict top ->
  get_or "definitions" (VDict []) top = VDict defs ->
  get_or "items" (VDict []) ps = VDict items ->
  Py.lookup "$ref" items = Some (VStr ref) ->
  ref <> "" ->
  get_or (Str.split_last "/" ref) (VDict []) defs = VDict item_def ->
  get_or "properties" (VDict []) item_def = VDict props ->
  forallb (fun kv => is_mapping (snd kv)) props = true ->
  unique_keys props = true ->
  array_value self (VDict ps)
  = Ok (VList (if has_key "properties" item_def
               then [VDict (map item_entry props)]
               else [])).
Proof.
  intros Htop Hdefs Hitems Href Hne Hdef Hprops Hm Hu.
  unfold array_value. cbn [Py.get bind]. fold (get_or "items" (VDict []) ps).
  rewrite Hitems. cbn [Py.get bind Py.getitem]. rewrite Href.
  cbn [Py.truthy]. apply String.eqb_neq in Hne. rewrite Hne.
  cbn [negb bind Py.split_last]. rewrite Htop. cbn [Py.get bind].
  fold (get_or "definitions" (VDict []) top). rewrite Hdefs. cbn [Py.get bind].
  fold (get_or (Str.split_last "/" ref) (VDict []) defs). rewrite Hdef.
  rewrite contains_dict. cbn [bind Py.getitem].
  unfold get_or in Hprops. unfold has_key.
  destruct (Py.lookup "properties" item_def) as [properties|]; [|reflexivity].
  subst properties. cbn [bind Py.items].
  rewrite (item_loop_entries props [] Hm Hu) by reflexivity. reflexivity.
Qed.

Lemma array_example_from_item_definition_witness :
  array_value (parser_of (VDict order_document) "https://h") (VDict order_items_schema)
  = Ok (VList [VDict [("sku", VStr "A-1"); ("count", VStr "<count>");
                      ("mail", VStr "<mail>")]]).
Proof.
  rewrite (array_example_from_item_definition
             (parser_of (VDict order_document) "https://h")
             order_document order_items_schema
             [("$ref", VStr "#/components/schemas/Item")]
             [("Item",
               VDict [("properties",
                       VDict [("sku", VDict [("type", VStr "string");
                                             ("example", VStr "A-1")]);
                              ("count", VDict [("type", VStr "integer");
                                               ("default", VInt 1)]);
                              ("mail", VDict [("type", VStr "string");
                                              ("format", VStr "email")])])])]
             [("properties",
               VDict [("sku", VDict [("type", VStr "string"); ("example", VStr "A-1")]);
                      ("count", VDict [("type", VStr "integer"); ("default", VInt 1)]);
                      ("mail", VDict [("type", VStr "string");
                                      ("format", VStr "email")])])]
             [("sku", VDict [("type", VStr "string"); ("example", VStr "A-1")]);
              ("count", VDict [("type", VStr "integer"); ("default", VInt 1)]);
              ("mail", VDict [("type", VStr "string"); ("format", VStr "email")])]
             "#/components/schemas/Item"
             eq_refl eq_refl eq_refl eq_refl).
  - reflexivity.
  - discriminate.
  - reflexivity.
  - reflexivity.
  - reflexivity.
  - reflexivity.
Defined.

End ArrayExample.

(* ------------------------------------------------------------------ *)
(** ** A definition spelled inline *)

Section InlineDefinition.

Import OpenAPIParser.

Variable self : t.

Lemma inline_step_agrees (required : value) (example : list (string * value))
    (kv : string * value) :
  not_array kv ->
  inline_property_step required example kv
  = definition_property_step self required example kv.
Proof.
  destruct kv as [prop_name prop_schema]. unfold not_array. cbn [snd]. intros Hna.
  unfold inline_property_step, definition_property_step.
  destruct (Py.contains prop_schema "example") as [[|]|e]; cbn [bind];
    try reflexivity.
  rewrite (inline_value_agrees_except_array self prop_name prop_schema Hna).
  destruct (definition_property_value self prop_name prop_schema) as [produced|e];
    cbn [bind]; [|reflexivity].
  destruct (Py.contains required prop_name) as [is_required|e]; cbn [bind];
    [|reflexivity].
  destruct (is_required || _); destruct (negb is_required && _); reflexivity.
Qed.

Lemma for_each_ext_in (A B : Type) (f g : B -> A -> result B) (l : list A) :
  (forall b a, In a l -> f b a = g b a) ->
  forall acc, for_each f l acc = for_each g l acc.
Proof.
  induction l as [|x l IH]; intros H acc; [reflexivity|].
  cbn [for_each]. rewrite (H acc x (or_introl eq_refl)).
  destruct (g acc x) as [acc'|e]; cbn [bind]; [|reflexivity].
  apply IH. intros b y Hin. apply H. now right.
Qed.

Lemma inline_example_agrees (d : list (string * value)) :
  (forall props, get_or "properties" (VDict []) d = VDict props ->
                 Forall not_array props) ->
  inline_example (VDict d) = definition_example self (VDict d).
Proof.
  intros Hna. unfold inline_example, definition_example. cbn [Py.get bind].
  fold (get_or "properties" (VDict []) d).
  destruct (get_or "properties" (VDict []) d) as [| | | | |props] eqn:P;
    try reflexivity.
  cbn [Py.items bind].
  rewrite (for_each_ext_in _ _ _
             (definition_property_step self (get_or "required" (VList []) d)));
    [reflexivity|].
  intros b a Hin. apply inline_step_agrees.
  specialize (Hna props eq_refl). rewrite Forall_forall in Hna. now apply Hna.
Qed.

Lemma contains_char (c : ascii) (s : string) :
  Str.contains (String c EmptyString) s
  = existsb (Ascii.eqb c) (list_ascii_of_string s).
Proof.
  induction s as [|a s IH]; [reflexivity|].
  cbn [Str.contains Str.startswith list_ascii_of_string existsb].
  now rewrite IH, andb_true_r.
Qed.

Lemma split_last_after (c : ascii) (before name : string) :
  Str.contains (String c EmptyString) name = false ->
  Str.split_last c (before ++ String c name) = name.
Proof.
  intros Hn. rewrite contains_char in Hn. induction before as [|a before IH].
  - cbn [append Str.split_last]. now rewrite Hn, Ascii.eqb_refl.
  - cbn [append Str.split_last]. rewrite <- contains_char.
    rewrite contains_append_r; [exact IH|].
    cbn [Str.contains Str.startswith]. now rewrite Ascii.eqb_refl.
Qed.

Lemma body_parameter_in (schema : value) :
  Py.get (body_parameter schema) "in" VNone = Ok (VStr "body").
Proof. reflexivity. Qed.

Lemma body_parameter_schema (schema : value) :
  Py.get (body_parameter schema) "schema" (VDict []) = Ok schema.
Proof. reflexivity. Qed.

(** The body of a definition that has no example. *)
Lemma body_of_reference (top defs d : list (string * value)) (name : string) :
  spec self = VDict top ->
  get_or "definitions" (VDict []) top = VDict defs ->
  Py.lookup name defs = Some (VDict d) ->
  Str.contains "/" name = false ->
  Py.lookup "example" d = None ->
  body_of_parameter self
    (body_parameter (VDict [("$ref", VStr ("#/definitions/" ++ name))]))
  = if has_key "properties" d
    then example <- definition_example self (VDict d) ;;
         Ok (Some (Json.dumps example))
    else Ok None.
Proof.
  intros Htop Hdefs Hdef Hname Hex.
  unfold body_of_parameter.
  rewrite body_parameter_in, body_parameter_schema.
  cbn [bind Py.eq_str]. rewrite String.eqb_refl.
  change (Py.contains (VDict [("$ref", VStr ("#/definitions/" ++ name))]) "example")
    with (@Ok bool false).
  change (Py.get (VDict [("$ref", VStr ("#/definitions/" ++ name))]) "$ref" (VStr ""))
    with (Ok (VStr ("#/definitions/" ++ name))).
  cbn [bind Py.truthy Py.startswith].
  change (String.eqb ("#/definitions/" ++ name) "") with false.
  cbn [negb]. rewrite startswith_append. cbn [bind Py.split_last].
  replace (Str.split_last "/" ("#/definitions/" ++ name)) with name
    by (symmetry; exact (split_last_after "/"%char "#/definitions" name Hname)).
  rewrite Htop. cbn [Py.get bind]. fold (get_or "definitions" (VDict []) top).
  rewrite Hdefs. cbn [Py.get bind]. rewrite Hdef.
  rewrite !contains_dict. unfold has_key at 1. rewrite Hex. cbn [bind].
  destruct (has_key "properties" d); reflexivity.
Qed.

(** The body of an inline schema of type object that has no example. *)
Lemma body_of_inline (d : list (string * value)) :
  Py.lookup "example" d = None ->
  Py.truthy (get_or "$ref" (VStr "") d) = false ->
  get_or "type" VNone d = VStr "object" ->
  body_of_parameter self (body_parameter (VDict d))
  = if has_key "properties" d
    then example <- inline_example (VDict d) ;;
         Ok (Some (Json.dumps example))
    else Ok None.
Proof.
  intros Hex Href Hty.
  unfold body_of_parameter.
  rewrite body_parameter_in, body_parameter_schema.
  cbn [bind Py.eq_str]. rewrite String.eqb_refl.
  rewrite !contains_dict. unfold has_key at 1. rewrite Hex.
  cbn [bind Py.get]. fold (get_or "$ref" (VStr "") d). rewrite Href. cbn [bind].
  fold (get_or "type" VNone d). rewrite Hty.
  unfold get_or in Hty. unfold has_key at 1.
  destruct (Py.lookup "type" d); [|discriminate].
  cbn [bind Py.eq_str]. rewrite String.eqb_refl.
  destruct (has_key "properties" d); reflexivity.
Qed.

(** X10.  A definition of type object, with no example and no [$ref] of
    its own and no array among its properties, gives one and the same
    body whether the body parameter refers to it or spells it inline. *)
Theorem inline_definition_gives_the_same_body
    (top defs d : list (string * value)) (name : string) :
  spec self = VDict top ->
  get_or "definitions" (VDict []) top = VDict defs ->
  Py.lookup name defs = Some (VDict d) ->
  Str.contains "/" name = false ->
  Py.lookup "example" d = None ->
  Py.truthy (get_or "$ref" (VStr "") d) = false ->
  get_or "type" VNone d = VStr "object" ->
  (forall props, get_or "properties" (VDict []) d = VDict props ->
                 Forall not_array props) ->
  body_of_parameter self (body_parameter (VDict d))
  = body_of_parameter self
      (body_parameter (VDict [("$ref", VStr ("#/definitions/" ++ name))])).
Proof.
  intros Htop Hdefs Hdef Hname Hex Href Hty Hna.
  rewrite (body_of_reference top defs d name Htop Hdefs Hdef Hname Hex).
  rewrite (body_of_inline d Hex Href Hty).
  now rewrite (inline_example_agrees d Hna).
Qed.

End InlineDefinition.

Lemma inline_definition_gives_the_same_body_witness :
  OpenAPIParser.body_of_parameter (parser_of (VDict account_document) "https://h")
    (body_parameter (VDict account_definition))
  = OpenAPIParser.body_of_parameter (parser_of (VDict account_document) "https://h")
      (body_parameter (VDict [("$ref", VStr "#/definitions/Account")]))
  /\ OpenAPIParser.body_of_parameter (parser_of (VDict account_document) "https://h")
       (body_parameter (VDict account_definition))
     = Ok (Some (text_of_lines ["{";
                                "  'mail': 'user@example.com',";
                                "  'active': false,";
                                "  'profile': {}";
                                "}"])).
Proof.
  split; [|reflexivity].
  apply (inline_definition_gives_the_same_body
           (parser_of (VDict account_document) "https://h")
           account_document
           [("Account", VDict account_definition)] account_definition "Account"
           eq_refl eq_refl eq_refl eq_refl eq_refl eq_refl eq_refl).
  intros props H. inversion H; subst.
  repeat constructor; intros ty Hty; inversion Hty; reflexivity.
Defined.

(* ================================================================== *)
(** * Properties of the command line's header parser *)
(* ================================================================== *)

Section ParseHeaders.

Lemma split_once_found (s : string) :
  Str.contains ":" s = true ->
  exists k v, Str.split_once ":"%char s = [k; v].
Proof.
  induction s as [|a s IH]; [discriminate|].
  cbn [Str.contains Str.startswith Str.split_once]. rewrite andb_true_r.
  rewrite (Ascii.eqb_sym ":"%char a).
  destruct (Ascii.eqb a ":"%char); [eauto|]. cbn [orb]. intros H.
  destruct (IH H) as [k [v ->]]. eauto.
Qed.

Lemma parse_header_step_returns (h : list (string * string)) (w : list string)
    (s : string) :
  exists h',
    parse_header_step (h, w) s
    = Ok (h', if Str.contains ":" s then w
              else (w ++ [invalid_header_warning s])%list)
    /\ (Str.contains ":" s = false -> h' = h)
    /\ forall w', Str.contains ":" s = true -> parse_header_step (h, w') s = Ok (h', w').
Proof.
  unfold parse_header_step. destruct (Str.contains ":" s) eqn:C.
  - destruct (split_once_found s C) as [k [v ->]]. cbn [unpack2 bind fst snd].
    eexists. split; [reflexivity|]. split; [discriminate | reflexivity].
  - exists h. split; [reflexivity|]. split; [reflexivity | discriminate].
Qed.

Lemma parse_loop_returns (l : list string) :
  forall h w,
    exists h',
      for_each parse_header_step l (h, w)
      = Ok (h', (w ++ map invalid_header_warning
                        (filter (fun s => negb (Str.contains ":" s)) l))%list)
      /\ forall w', for_each parse_header_step (filter (Str.contains ":") l) (h, w')
                    = Ok (h', w').
Proof.
  induction l as [|s l IH]; intros h w.
  - exists h. cbn. rewrite app_nil_r. auto.
  - destruct (parse_header_step_returns h w s) as [h1 [Hs [Hsame Hvalid]]].
    cbn [for_each filter]. rewrite Hs. cbn [bind].
    destruct (Str.contains ":" s) eqn:C; cbn [negb].
    + destruct (IH h1 w) as [h' [Hrun Hf]]. exists h'. split; [exact Hrun|].
      intros w'. cbn [for_each]. rewrite (Hvalid w' eq_refl). cbn [bind]. apply Hf.
    + rewrite (Hsame eq_refl).
      destruct (IH h (w ++ [invalid_header_warning s])%list) as [h' [Hrun Hf]].
      exists h'. split; [|exact Hf].
      rewrite Hrun. cbn [map]. now rewrite <- app_assoc.
Qed.

(** X11.  [parse_headers] never raises.  A string without a colon adds
    nothing to the mapping and one warning to the error stream, the
    warnings coming in the order of the strings; the mapping is the one
    of the strings that have a colon, which give no warning. *)
Theorem parse_headers_skips_the_invalid (header_strings : list string) :
  exists headers,
    parse_headers header_strings
    = Ok (headers,
          map invalid_header_warning
              (filter (fun s => negb (Str.contains ":" s)) header_strings))
    /\ parse_headers (filter (Str.contains ":") header_strings) = Ok (headers, []).
Proof.
  unfold parse_headers.
  destruct (parse_loop_returns header_strings [] []) as [h' [Hrun Hf]].
  exists h'. split; [exact Hrun | apply Hf].
Qed.

(** *** Back from the REST Client format *)

Lemma contains_colon_in_line (k v : string) :
  Str.contains ":" (k ++ ": " ++ v) = true.
Proof. apply contains_append_r. reflexivity. Qed.

Lemma split_once_line (k rest : string) :
  Str.contains ":" k = false ->
  Str.split_once ":"%char (k ++ String ":"%char rest) = [k; rest].
Proof.
  induction k as [|a k IH].
  - intros _. cbn [append Str.split_once]. now rewrite Ascii.eqb_refl.
  - cbn [Str.contains Str.startswith append Str.split_once].
    rewrite andb_true_r, (Ascii.eqb_sym ":"%char a).
    destruct (Ascii.eqb a ":"%char); [discriminate|]. cbn [orb]. intros H.
    now rewrite (IH H).
Qed.

Lemma header_store_new (k v : string) (h : list (string * string)) :
  existsb (String.eqb k) (map fst h) = false ->
  header_store k v h = (h ++ [(k, v)])%list.
Proof.
  induction h as [|[k' v'] h IH]; cbn [header_store map fst existsb app].
  - reflexivity.
  - destruct (String.eqb k k'); [discriminate|]. cbn [orb]. intros H.
    now rewrite (IH H).
Qed.

Lemma parse_header_step_line (acc : list (string * string)) (w : list string)
    (kv : string * string) :
  plain_header kv = true ->
  parse_header_step (acc, w) (fst kv ++ ": " ++ snd kv)
  = Ok (header_store (fst kv) (snd kv) acc, w).
Proof.
  destruct kv as [k v]. unfold plain_header. cbn [fst snd]. intros H.
  apply andb_true_iff in H. destruct H as [H Hv].
  apply andb_true_iff in H. destruct H as [Hc Hk].
  apply negb_true_iff in Hc. apply String.eqb_eq in Hk, Hv.
  unfold parse_header_step. rewrite contains_colon_in_line.
  change (k ++ ": " ++ v) with (k ++ String ":"%char (String " "%char v)).
  rewrite (split_once_line k _ Hc). cbn [unpack2 bind fst snd].
  change (Str.strip (String " "%char v)) with (Str.strip v).
  now rewrite Hk, Hv.
Qed.

Lemma unique_names_head (k v : string) (h : list (string * string)) :
  unique_names ((k, v) :: h) = true ->
  unique_names h = true /\
  forall kv, In kv h -> String.eqb (fst kv) k = false.
Proof.
  cbn [unique_names]. intros H. apply andb_true_iff in H. destruct H as [Hk Hh].
  split; [exact Hh|]. intros kv Hin.
  destruct (String.eqb (fst kv) k) eqn:E; [|reflexivity].
  apply String.eqb_eq in E. subst k. apply negb_true_iff in Hk.
  assert (existsb (String.eqb (fst kv)) (map fst h) = true).
  { apply existsb_eqb_In. now apply in_map. }
  congruence.
Qed.

Lemma parse_loop_lines (h : list (string * string)) :
  forall acc w,
    forallb plain_header h = true ->
    unique_names h = true ->
    (forall kv, In kv h -> existsb (String.eqb (fst kv)) (map fst acc) = false) ->
    for_each parse_header_step (rest_client_header_lines h) (acc, w)
    = Ok ((acc ++ h)%list, w).
Proof.
  induction h as [|[k v] h IH]; intros acc w Hp Hu Hfresh.
  - cbn. now rewrite app_nil_r.
  - cbn [forallb] in Hp. apply andb_true_iff in Hp. destruct Hp as [Hp1 Hp].
    destruct (unique_names_head _ _ _ Hu) as [Hu' Hne].
    unfold rest_client_header_lines. cbn [map for_each].
    rewrite (parse_header_step_line acc w (k, v) Hp1). cbn [bind fst snd].
    rewrite header_store_new by (apply (Hfresh (k, v)); now left).
    fold (rest_client_header_lines h). rewrite IH; [|exact Hp | exact Hu' |].
    + now rewrite <- app_assoc.
    + intros kv Hin. rewrite map_app, existsb_app. cbn [map fst existsb].
      rewrite (Hne kv Hin). cbn [orb]. rewrite orb_false_r.
      apply Hfresh. now right.
Qed.

(** X12.  The REST Client text is the request line, then one line
    [name: value] for each header in order, then, for a body that is not
    empty, an empty line and the body; and the header lines read back:
    when no name has a colon and neither names nor values have blanks
    around them, [parse_headers] returns from those lines the mapping the
    text was made from, with no warning. *)
Theorem rest_client_headers_parse_back (self : HTTPFileMaker.t) :
  forallb plain_header (HTTPFileMaker.headers self) = true ->
  unique_names (HTTPFileMaker.headers self) = true ->
  HTTPFileMaker.generate_rest_client self
  = Str.join (String Py.newline EmptyString)
      (cons (HTTPFileMaker.method self ++ " " ++ HTTPFileMaker.url self)
            (app (rest_client_header_lines (HTTPFileMaker.headers self))
                 match HTTPFileMaker.has_body self with
                 | Some text => [""; text]
                 | None => []
                 end))
  /\ parse_headers (rest_client_header_lines (HTTPFileMaker.headers self))
     = Ok (HTTPFileMaker.headers self, []).
Proof.
  intros Hp Hu. split.
  - unfold HTTPFileMaker.generate_rest_client, rest_client_header_lines.
    destruct (HTTPFileMaker.has_body self); cbn [app].
    + reflexivity.
    + now rewrite app_nil_r.
  - unfold parse_headers.
    rewrite (parse_loop_lines (HTTPFileMaker.headers self) [] [] Hp Hu); [reflexivity|].
    reflexivity.
Qed.

Lemma rest_client_headers_parse_back_witness :
  parse_headers ["Content-Type: application/json"; "X-Token: a:b"]
  = Ok ([("Content-Type", "application/json"); ("X-Token", "a:b")], []).
Proof.
  exact (proj2 (rest_client_headers_parse_back sample_maker eq_refl eq_refl)).
Defined.

End ParseHeaders.

(* ================================================================== *)
(** * Properties of the generated file *)
(* ================================================================== *)

Section Grouping.

(** *** Keys of the grouping *)

Ltac key_cases :=
  repeat match goal with
         | H : (_ =? _)%Z = true |- _ => apply Z.eqb_eq in H
         | H : String.eqb _ _ = true |- _ => apply String.eqb_eq in H
         | H : Bool.eqb _ _ = true |- _ => apply Bool.eqb_prop in H
         end;
  subst;
  rewrite ?Z.eqb_refl, ?String.eqb_refl, ?Bool.eqb_reflx;
  try reflexivity.

Lemma key_eqb_refl (a : value) : Py.hashable a = true -> Py.key_eqb a a = true.
Proof. destruct a; cbn; intros; try discriminate; key_cases. Qed.

Lemma key_eqb_sym (a b : value) : Py.key_eqb a b = Py.key_eqb b a.
Proof.
  destruct a, b; cbn; try reflexivity;
    try apply Z.eqb_sym; try apply String.eqb_sym.
  destruct b, b0; reflexivity.
Qed.

Lemma key_eqb_trans (a b c : value) :
  Py.key_eqb a b = true -> Py.key_eqb b c = true -> Py.key_eqb a c = true.
Proof.
  destruct a, b, c; cbn [Py.key_eqb]; intros H1 H2; try discriminate;
    repeat match goal with x : bool |- _ => destruct x end;
    cbn [Z.b2z Bool.eqb] in *; try discriminate; key_cases; try discriminate.
Qed.

Lemma key_eqb_hashable (a b : value) :
  Py.key_eqb a b = true -> Py.hashable a = true.
Proof. destruct a, b; cbn; intros; try discriminate; reflexivity. Qed.

(** *** Appending to a group *)

Lemma group_append_cases (tag : value) (ep : endpoint)
    (g : list (value * list endpoint)) :
  (exists g1 t ms g2,
      g = (g1 ++ (t, ms) :: g2)%list /\
      Py.key_eqb tag t = true /\
      (forall t' ms', In (t', ms') g1 -> Py.key_eqb tag t' = false) /\
      group_append tag ep g = (g1 ++ (t, ms ++ [ep]) :: g2)%list) \/
  ((forall t' ms', In (t', ms') g -> Py.key_eqb tag t' = false) /\
   group_append tag ep g = (g ++ [(tag, [ep])])%list).
Proof.
  induction g as [|[t ms] g IH]; cbn [group_append].
  - right. split; [intros t' ms' []|reflexivity].
  - destruct (Py.key_eqb tag t) eqn:E.
    + left. exists [], t, ms, g. repeat split; auto. intros t' ms' [].
    + destruct IH as [[g1 [t0 [ms0 [g2 [-> [Ht [Hg1 ->]]]]]]] | [Hg ->]].
      * left. exists ((t, ms) :: g1), t0, ms0, g2. repeat split; auto.
        intros t' ms' [H | H]; [inversion H; subst; exact E | eauto].
      * right. split; [|reflexivity].
        intros t' ms' [H | H]; [inversion H; subst; exact E | eauto].
Qed.

(** *** The grouping is kept by the loop *)

Lemma distinct_tags_same_tags (g : list (value * list endpoint)) :
  forall g', map fst g = map fst g' -> distinct_tags g -> distinct_tags g'.
Proof.
  induction g as [|[t ms] g IH]; intros [|[t' ms'] g'] Hm Hd; try discriminate.
  - exact I.
  - cbn [map fst] in Hm. inversion Hm; subst. destruct Hd as [Hhd Htl].
    split; [|exact (IH g' H1 Htl)].
    intros t0 ms0 Hin.
    assert (Ht0 : In t0 (map fst g)).
    { rewrite H1. change t0 with (fst (t0, ms0)). now apply in_map. }
    apply in_map_iff in Ht0. destruct Ht0 as [[t1 ms1] [E Hin1]].
    cbn [fst] in E. subst t1. exact (Hhd t0 ms1 Hin1).
Qed.

Lemma distinct_tags_split (g1 g2 : list (value * list endpoint))
    (t : value) (ms : list endpoint) :
  distinct_tags (g1 ++ (t, ms) :: g2)%list ->
  (forall t' ms', In (t', ms') g1 -> Py.key_eqb t' t = false) /\
  (forall t' ms', In (t', ms') g2 -> Py.key_eqb t t' = false).
Proof.
  induction g1 as [|[t1 ms1] g1 IH]; cbn [app distinct_tags].
  - intros [Hhd _]. split; [intros t' ms' [] | exact Hhd].
  - intros [Hhd Htl]. destruct (IH Htl) as [H1 H2]. split; [|exact H2].
    intros t' ms' [H | H].
    + inversion H; subst. apply (Hhd t ms). apply in_or_app. right. now left.
    + eauto.
Qed.

Lemma distinct_tags_snoc (g : list (value * list endpoint))
    (t : value) (ms : list endpoint) :
  distinct_tags g ->
  (forall t' ms', In (t', ms') g -> Py.key_eqb t' t = false) ->
  distinct_tags (g ++ [(t, ms)])%list.
Proof.
  induction g as [|[t1 ms1] g IH]; cbn [app distinct_tags]; intros Hd Hnew.
  - split; [intros t' ms' [] | exact I].
  - destruct Hd as [Hhd Htl]. split.
    + intros t' ms' Hin. apply in_app_or in Hin. destruct Hin as [Hin | [Hin | []]].
      * eauto.
      * inversion Hin; subst. apply (Hnew t1 ms1). now left.
    + apply IH; [exact Htl|]. intros t' ms' Hin. apply (Hnew t' ms'). now right.
Qed.

Lemma filter_snoc (A : Type) (f : A -> bool) (l : list A) (x : A) :
  filter f (l ++ [x])%list = (filter f l ++ (if f x then [x] else []))%list.
Proof. rewrite filter_app. reflexivity. Qed.

Lemma grouping_covers (eps : list endpoint) (g : list (value * list endpoint))
    (ep : endpoint) :
  grouping_of eps g -> In ep eps ->
  exists t ms, In (t, ms) g /\ has_tag t ep = true.
Proof.
  intros [_ [Hms Hperm]] Hin.
  apply (Permutation_in _ (Permutation_sym Hperm)) in Hin.
  apply in_flat_map in Hin. destruct Hin as [[t ms] [Hg Hin]]. cbn [snd] in Hin.
  exists t, ms. split; [exact Hg|].
  destruct (Hms t ms Hg) as [_ E]. rewrite E in Hin.
  apply filter_In in Hin. now destruct Hin.
Qed.

Lemma group_step_keeps_grouping (eps : list endpoint)
    (g : list (value * list endpoint)) (ep : endpoint)
    (g' : list (value * list endpoint)) :
  grouping_of eps g ->
  group_step g ep = Ok g' ->
  grouping_of (eps ++ [ep])%list g'.
Proof.
  intros Hg Hstep. pose proof Hg as [Hd [Hms Hperm]].
  unfold group_step in Hstep. apply bind_ok in Hstep.
  destruct Hstep as [tag [Htag Hstep]].
  destruct (Py.hashable tag) eqn:Hh; [|discriminate]. inversion Hstep; subst g'.
  assert (Hown : forall t, has_tag t ep = Py.key_eqb tag t)
    by (intros t; unfold has_tag; now rewrite Htag).
  destruct (group_append_cases tag ep g)
    as [[g1 [t [ms [g2 [-> [Ht [Hg1 ->]]]]]]] | [Hnone ->]].
  - destruct (distinct_tags_split _ _ _ _ Hd) as [Hbefore Hafter].
    assert (Hother : forall t' ms', In (t', ms') (g1 ++ g2)%list ->
                                    Py.key_eqb tag t' = false).
    { intros t' ms' Hin. apply in_app_or in Hin.
      destruct (Py.key_eqb tag t') eqn:E; [|reflexivity]. exfalso.
      rewrite key_eqb_sym in Ht.
      pose proof (key_eqb_trans _ _ _ Ht E) as Htt'.
      destruct Hin as [Hin | Hin].
      - rewrite key_eqb_sym, (Hbefore _ _ Hin) in Htt'. discriminate.
      - rewrite (Hafter _ _ Hin) in Htt'. discriminate. }
    split; [|split].
    + apply (distinct_tags_same_tags _ _ (eq_sym eq_refl)) in Hd.
      revert Hd. apply distinct_tags_same_tags.
      rewrite !map_app. reflexivity.
    + intros t' ms' Hin. rewrite filter_snoc, Hown.
      apply in_app_or in Hin. destruct Hin as [Hin | [Hin | Hin]].
      * rewrite (Hother t' ms') by (apply in_or_app; now left).
        rewrite app_nil_r. apply Hms. apply in_or_app. now left.
      * inversion Hin; subst. rewrite Ht.
        destruct (Hms t' ms) as [_ E]; [apply in_or_app; right; now left|].
        split; [now destruct ms | now rewrite <- E].
      * rewrite (Hother t' ms') by (apply in_or_app; now right).
        rewrite app_nil_r. apply Hms. apply in_or_app. right. now right.
    + rewrite flat_map_app in *. cbn [flat_map snd] in *.
      apply Permutation_trans
        with (l' := ((flat_map snd g1 ++ ms ++ flat_map snd g2) ++ [ep])%list);
        [|now apply Permutation_app_tail].
      rewrite <- !app_assoc. do 2 apply Permutation_app_head.
      apply Permutation_app_comm.
  - split; [|split].
    + apply distinct_tags_snoc; [exact Hd|].
      intros t' ms' Hin. rewrite key_eqb_sym. eauto.
    + intros t' ms' Hin. rewrite filter_snoc, Hown.
      apply in_app_or in Hin. destruct Hin as [Hin | [Hin | []]].
      * rewrite (Hnone _ _ Hin), app_nil_r. now apply Hms.
      * inversion Hin; subst. rewrite (key_eqb_refl _ Hh).
        split; [discriminate|].
        destruct (filter (has_tag t') eps) as [|x rest] eqn:E; [reflexivity|].
        exfalso.
        assert (Hx : In x (filter (has_tag t') eps)) by (rewrite E; now left).
        apply filter_In in Hx. destruct Hx as [Hx Hxt].
        destruct (grouping_covers _ _ _ Hg Hx) as [t2 [ms2 [Hin2 Hxt2]]].
        unfold has_tag in Hxt, Hxt2. destruct (tag_of x) as [tx|]; [|discriminate].
        rewrite key_eqb_sym in Hxt.
        pose proof (key_eqb_trans _ _ _ Hxt Hxt2) as Hc.
        rewrite (Hnone _ _ Hin2) in Hc. discriminate.
    + rewrite flat_map_app. cbn [flat_map snd app].
      now apply Permutation_app_tail.
Qed.

Lemma grouping_loop (todo : list endpoint) :
  forall done g g',
    grouping_of done g ->
    for_each group_step todo g = Ok g' ->
    grouping_of (done ++ todo)%list g'.
Proof.
  induction todo as [|ep todo IH]; intros done g g' Hg Hrun.
  - cbn in Hrun. inversion Hrun; subst. now rewrite app_nil_r.
  - cbn [for_each] in Hrun. apply bind_ok in Hrun.
    destruct Hrun as [g1 [Hstep Hrun]].
    replace (done ++ ep :: todo)%list with ((done ++ [ep]) ++ todo)%list
      by (rewrite <- app_assoc; reflexivity).
    apply (IH _ g1); [|exact Hrun].
    exact (group_step_keeps_grouping _ _ _ _ Hg Hstep).
Qed.

Lemma grouping_of_nil : grouping_of [] [].
Proof.
  split; [exact I|]. split; [intros t ms []|]. constructor.
Qed.

Lemma grouping_returns (todo : list endpoint) :
  forall g,
    (forall ep, In ep todo ->
                exists t, tag_of ep = Ok t /\ Py.hashable t = true) ->
    exists g', for_each group_step todo g = Ok g'.
Proof.
  induction todo as [|ep todo IH]; intros g Hall.
  - exists g. reflexivity.
  - destruct (Hall ep (or_introl eq_refl)) as [t [Ht Hh]].
    cbn [for_each]. unfold group_step at 1. rewrite Ht. cbn [bind]. rewrite Hh.
    apply IH. intros ep' Hin. apply Hall. now right.
Qed.

Lemma grouping_needs_keys (todo : list endpoint) :
  forall g g',
    for_each group_step todo g = Ok g' ->
    forall ep, In ep todo -> exists t, tag_of ep = Ok t /\ Py.hashable t = true.
Proof.
  induction todo as [|ep todo IH]; intros g g' Hrun ep' Hin; [destruct Hin|].
  cbn [for_each] in Hrun. apply bind_ok in Hrun.
  destruct Hrun as [g1 [Hstep Hrun]].
  destruct Hin as [<- | Hin]; [|exact (IH _ _ Hrun _ Hin)].
  unfold group_step in Hstep. apply bind_ok in Hstep.
  destruct Hstep as [t [Ht Hstep]]. exists t. split; [exact Ht|].
  now destruct (Py.hashable t).
Qed.

(** *** The order of the groups *)

Lemma string_ltb_total (s1 s2 : string) :
  String.ltb s1 s2 = false -> String.eqb s1 s2 = false -> String.ltb s2 s1 = true.
Proof.
  unfold String.ltb. rewrite (String.compare_antisym s2 s1).
  intros Hlt Hne. destruct (String.compare s1 s2) eqn:E; cbn; try reflexivity.
  - apply String.compare_eq_iff in E. subst.
    rewrite String.eqb_refl in Hne. discriminate.
  - discriminate.
Qed.

Lemma tag_lt_total (a b : value) :
  tag_lt a b = Ok false -> Py.key_eqb a b = false -> tag_lt b a = Ok true.
Proof.
  destruct a, b; cbn [tag_lt Py.key_eqb]; try discriminate; intros Hlt Hne;
    inversion Hlt as [Hlt']; f_equal.
  - destruct b, b0; cbn in *; congruence.
  - apply Z.ltb_lt. apply Z.ltb_ge in Hlt'. apply Z.eqb_neq in Hne. lia.
  - apply Z.ltb_lt. apply Z.ltb_ge in Hlt'. apply Z.eqb_neq in Hne. lia.
  - apply Z.ltb_lt. apply Z.ltb_ge in Hlt'. apply Z.eqb_neq in Hne. lia.
  - now apply string_ltb_total.
Qed.

Lemma sorted_insert_head (g g0 : value * list endpoint)
    (rest out : list (value * list endpoint)) :
  sorted_insert g rest = Ok out ->
  HdRel group_before g0 rest -> group_before g0 g ->
  HdRel group_before g0 out.
Proof.
  destruct rest as [|g1 rest]; cbn [sorted_insert]; intros Hins Hhd Hlt.
  - inversion Hins; subst. now constructor.
  - apply bind_ok in Hins. destruct Hins as [smaller [_ Hins]].
    destruct smaller.
    + inversion Hins; subst. now constructor.
    + apply bind_ok in Hins. destruct Hins as [rest' [_ Hins]].
      inversion Hins; subst. constructor. now inversion Hhd.
Qed.

Lemma sorted_insert_sorted (g : value * list endpoint)
    (sorted : list (value * list endpoint)) :
  forall out,
    Sorted group_before sorted ->
    (forall g', In g' sorted -> Py.key_eqb (fst g) (fst g') = false) ->
    sorted_insert g sorted = Ok out ->
    Sorted group_before out /\ Permutation (g :: sorted) out.
Proof.
  induction sorted as [|g0 rest IH]; cbn [sorted_insert]; intros out Hs Hne Hins.
  - inversion Hins; subst. split; [repeat constructor | apply Permutation_refl].
  - apply bind_ok in Hins. destruct Hins as [smaller [Hlt Hins]].
    destruct smaller.
    + inversion Hins; subst. split; [|apply Permutation_refl].
      constructor; [exact Hs|]. now constructor.
    + apply bind_ok in Hins. destruct Hins as [rest' [Hrest Hins]].
      inversion Hins; subst. inversion Hs; subst.
      destruct (IH rest') as [Hs' Hp'];
        [assumption | intros g' Hin; apply Hne; now right | exact Hrest |].
      split.
      * constructor; [exact Hs'|].
        apply (sorted_insert_head g g0 rest rest' Hrest); [assumption|].
        apply tag_lt_total; [exact Hlt|]. apply Hne. now left.
      * apply Permutation_trans with (l' := g0 :: g :: rest);
          [apply perm_swap | now apply perm_skip].
Qed.

Lemma sorted_groups_loop (todo : list (value * list endpoint)) :
  forall done acc out,
    distinct_tags (done ++ todo)%list ->
    Sorted group_before acc -> Permutation done acc ->
    for_each (fun sorted g => sorted_insert g sorted) todo acc = Ok out ->
    Sorted group_before out /\ Permutation (done ++ todo)%list out.
Proof.
  induction todo as [|[t ms] todo IH]; intros done acc out Hd Hs Hp Hrun.
  - cbn in Hrun. inversion Hrun; subst. now rewrite app_nil_r.
  - cbn [for_each] in Hrun. apply bind_ok in Hrun.
    destruct Hrun as [acc' [Hins Hrun]].
    destruct (distinct_tags_split _ _ _ _ Hd) as [Hbefore _].
    assert (Hne : forall g', In g' acc ->
                             Py.key_eqb (fst (t, ms)) (fst g') = false).
    { intros [t' ms'] Hin. cbn [fst]. rewrite key_eqb_sym.
      apply (Hbefore t' ms').
      exact (Permutation_in _ (Permutation_sym Hp) Hin). }
    destruct (sorted_insert_sorted (t, ms) acc acc' Hs Hne Hins) as [Hs' Hp'].
    replace (done ++ (t, ms) :: todo)%list
      with ((done ++ [(t, ms)]) ++ todo)%list in *
      by (rewrite <- app_assoc; reflexivity).
    apply (IH _ acc'); [exact Hd | exact Hs' | | exact Hrun].
    apply Permutation_trans with (l' := (t, ms) :: acc); [|exact Hp'].
    apply Permutation_trans with (l' := (t, ms) :: done);
      [apply Permutation_sym, Permutation_cons_append | now apply perm_skip].
Qed.

Lemma tag_lt_same_kind (a b : value * list endpoint) (r : bool) :
  tag_lt (fst a) (fst b) = Ok r ->
  (is_text_tag a /\ is_text_tag b) \/ (is_number_tag a /\ is_number_tag b).
Proof.
  unfold is_text_tag, is_number_tag.
  destruct a as [[]?], b as [[]?]; cbn [tag_lt fst]; try discriminate; intros _;
    eauto 8.
Qed.

Lemma tag_lt_of_kind (a b : value * list endpoint) :
  (is_text_tag a /\ is_text_tag b) \/ (is_number_tag a /\ is_number_tag b) ->
  exists r, tag_lt (fst a) (fst b) = Ok r.
Proof.
  unfold is_text_tag, is_number_tag.
  intros [[[s1 ->] [s2 ->]] | [[[n1 ->] | [b1 ->]] [[n2 ->] | [b2 ->]]]];
    cbn [tag_lt]; eauto.
Qed.

Lemma sorted_insert_returns (g : value * list endpoint)
    (sorted : list (value * list endpoint)) :
  comparable_tags (g :: sorted) ->
  exists out, sorted_insert g sorted = Ok out.
Proof.
  induction sorted as [|g0 rest IH]; cbn [sorted_insert]; intros Hc; [eauto|].
  destruct (tag_lt_of_kind g g0) as [r ->].
  { destruct Hc as [Hc | Hc]; inversion Hc as [|? ? ? Hc']; inversion Hc'; auto. }
  cbn [bind]. destruct r; [eauto|].
  destruct IH as [out ->]; [|cbn [bind]; eauto].
  destruct Hc as [Hc | Hc]; inversion Hc as [|? ? ? Hc']; inversion Hc'; subst;
    [left | right]; now constructor.
Qed.

Lemma comparable_tags_perm (g g' : list (value * list endpoint)) :
  Permutation g g' -> comparable_tags g -> comparable_tags g'.
Proof.
  intros Hp [H | H]; [left | right]; rewrite Forall_forall in *; intros x Hin;
    apply H; exact (Permutation_in _ (Permutation_sym Hp) Hin).
Qed.

Lemma sorted_comparable (g : list (value * list endpoint)) :
  Sorted group_before g -> (2 <= length g)%nat -> comparable_tags g.
Proof.
  induction g as [|a [|b g] IH]; cbn [length]; intros Hs Hlen; try lia.
  inversion Hs as [|? ? Hs' Hhd]; subst. inversion Hhd as [|? ? Hab]; subst.
  destruct (tag_lt_same_kind a b true Hab) as [[Ha Hb] | [Ha Hb]].
  - left. constructor; [exact Ha|].
    destruct g as [|c g]; [constructor; [exact Hb | constructor]|].
    destruct (IH Hs') as [H | H]; [cbn; lia | exact H |].
    exfalso. inversion H as [|? ? Hb' _]; subst.
    destruct Hb as [s Es], Hb' as [[n En] | [n En]]; congruence.
  - right. constructor; [exact Ha|].
    destruct g as [|c g]; [constructor; [exact Hb | constructor]|].
    destruct (IH Hs') as [H | H]; [cbn; lia | | exact H].
    exfalso. inversion H as [|? ? Hb' _]; subst.
    destruct Hb' as [s Es], Hb as [[n En] | [n En]]; congruence.
Qed.

Lemma sorted_insert_perm (g : value * list endpoint)
    (sorted : list (value * list endpoint)) :
  forall out, sorted_insert g sorted = Ok out -> Permutation (g :: sorted) out.
Proof.
  induction sorted as [|g0 rest IH]; cbn [sorted_insert]; intros out Hins.
  - inversion Hins; subst. apply Permutation_refl.
  - apply bind_ok in Hins. destruct Hins as [smaller [_ Hins]].
    destruct smaller; [inversion Hins; subst; apply Permutation_refl|].
    apply bind_ok in Hins. destruct Hins as [rest' [Hrest Hins]].
    inversion Hins; subst.
    apply Permutation_trans with (l' := g0 :: g :: rest);
      [apply perm_swap | apply perm_skip; now apply IH].
Qed.

Lemma sorted_groups_returns (todo : list (value * list endpoint)) :
  forall done acc,
    comparable_tags (done ++ todo)%list -> Permutation done acc ->
    exists out, for_each (fun sorted g => sorted_insert g sorted) todo acc = Ok out.
Proof.
  induction todo as [|g todo IH]; intros done acc Hc Hp; [cbn; eauto|].
  cbn [for_each].
  destruct (sorted_insert_returns g acc) as [acc' Hins].
  { destruct Hc as [H | H]; [left | right]; rewrite Forall_forall in *;
      intros x [<- | Hin]; apply H; apply in_or_app;
      solve [ right; now left
            | left; exact (Permutation_in _ (Permutation_sym Hp) Hin) ]. }
  rewrite Hins. cbn [bind].
  apply (IH (done ++ [g])%list).
  - now rewrite <- app_assoc.
  - apply Permutation_trans with (l' := g :: acc);
      [|exact (sorted_insert_perm _ _ _ Hins)].
    apply Permutation_trans with (l' := g :: done);
      [apply Permutation_sym, Permutation_cons_append | now apply perm_skip].
Qed.

Lemma sorted_insert_raises (g : value * list endpoint)
    (sorted : list (value * list endpoint)) (e : pyerr) :
  sorted_insert g sorted = Raise e -> e = TypeError.
Proof.
  induction sorted as [|g0 rest IH]; cbn [sorted_insert]; [discriminate|].
  destruct (tag_lt (fst g) (fst g0)) as [[]|e'] eqn:E; cbn [bind].
  - discriminate.
  - destruct (sorted_insert g rest) as [rest'|e'']; cbn [bind];
      [discriminate | intros H; inversion H; subst; now apply IH].
  - intros H; inversion H; subst.
    destruct (fst g) as [| | | | |], (fst g0) as [| | | | |];
      cbn [tag_lt] in E; congruence.
Qed.

Lemma sorted_groups_raises (todo : list (value * list endpoint)) :
  forall acc e,
    for_each (fun sorted g => sorted_insert g sorted) todo acc = Raise e ->
    e = TypeError.
Proof.
  induction todo as [|g todo IH]; intros acc e; cbn [for_each]; [discriminate|].
  destruct (sorted_insert g acc) as [acc'|e'] eqn:E; cbn [bind].
  - apply IH.
  - intros H; inversion H; subst. exact (sorted_insert_raises _ _ _ E).
Qed.

(** X13.  The grouping by tag returns exactly when the tag of every
    endpoint, the first of its tags or [Other] when it has none, can be a
    key.  The groups then have different tags, none is empty, each holds
    the endpoints of its tag in the order of the walk, and together they
    hold every endpoint once.  ([True] and [1] are one key.) *)
Theorem endpoints_grouped_by_first_tag (eps : list endpoint) :
  ((exists by_tag, for_each group_step eps [] = Ok by_tag) <->
   (forall ep, In ep eps ->
               exists t, tag_of ep = Ok t /\ Py.hashable t = true)) /\
  (forall by_tag,
     for_each group_step eps [] = Ok by_tag ->
     distinct_tags by_tag /\
     (forall t ms, In (t, ms) by_tag ->
                   ms <> [] /\ ms = filter (has_tag t) eps) /\
     Permutation (flat_map snd by_tag) eps).
Proof.
  split; [split|].
  - intros [by_tag Hrun]. exact (grouping_needs_keys _ _ _ Hrun).
  - apply grouping_returns.
  - intros by_tag Hrun.
    exact (grouping_loop eps [] [] by_tag grouping_of_nil Hrun).
Qed.

Lemma endpoints_grouped_by_first_tag_witness :
  exists by_tag,
    for_each group_step tagged_endpoints [] = Ok by_tag /\
    map fst by_tag = [VStr "zoo"; VStr "Other"; VStr "fruit"] /\
    Permutation (flat_map snd by_tag) tagged_endpoints.
Proof.
  eexists. split; [reflexivity|]. split; [reflexivity|].
  apply (proj2 (endpoints_grouped_by_first_tag tagged_endpoints)).
  reflexivity.
Defined.

Lemma sorted_groups_of_one_kind (g : list (value * list endpoint))
    (a b : value * list endpoint) :
  Sorted group_before g -> In a g -> In b g ->
  is_text_tag a -> is_number_tag b -> False.
Proof.
  intros Hs Ha Hb [s Es] Hnum.
  assert (Hkinds : forall c, is_text_tag c -> is_number_tag c -> False).
  { intros c [s' E] [[n E'] | [n E']]; congruence. }
  destruct g as [|x [|y g]].
  - destruct Ha.
  - destruct Ha as [<- | []]. destruct Hb as [<- | []].
    apply (Hkinds x); [now exists s | exact Hnum].
  - destruct (sorted_comparable (x :: y :: g) Hs) as [H | H]; [cbn; lia | |];
      rewrite Forall_forall in H.
    + apply (Hkinds b); [now apply H | exact Hnum].
    + apply (Hkinds a); [now exists s | now apply H].
Qed.

(** X14.  The sections of the generated file come in ascending order of
    their tags.  Of the groups that the grouping of the endpoints leaves,
    line 320 returns when the tags are all strings, or all integers and
    booleans; it raises [TypeError] when a string and a number are both
    among the tags.  Whenever it returns, it gives the same groups in
    strictly ascending order of their tags. *)
Theorem groups_sorted_by_tag
    (eps : list endpoint) (by_tag : list (value * list endpoint)) :
  for_each group_step eps [] = Ok by_tag ->
  (comparable_tags by_tag -> exists groups, sorted_groups by_tag = Ok groups) /\
  ((exists a b, In a by_tag /\ In b by_tag /\ is_text_tag a /\ is_number_tag b) ->
   sorted_groups by_tag = Raise TypeError) /\
  (forall groups,
     sorted_groups by_tag = Ok groups ->
     Sorted group_before groups /\ Permutation by_tag groups).
Proof.
  intros Hgroup.
  pose proof (grouping_loop eps [] [] by_tag grouping_of_nil Hgroup) as [Hd _].
  assert (Hsorted : forall groups, sorted_groups by_tag = Ok groups ->
            Sorted group_before groups /\ Permutation by_tag groups).
  { intros groups Hrun.
    exact (sorted_groups_loop by_tag [] [] groups Hd (Sorted_nil _)
             (Permutation_refl _) Hrun). }
  split; [|split].
  - intros Hc. apply (sorted_groups_returns by_tag [] []); [exact Hc | constructor].
  - intros [a [b [Ha [Hb [Hta Hnb]]]]].
    destruct (sorted_groups by_tag) as [groups|e] eqn:Hrun.
    + exfalso. destruct (Hsorted groups eq_refl) as [Hs Hp].
      exact (sorted_groups_of_one_kind groups a b Hs
               (Permutation_in _ Hp Ha) (Permutation_in _ Hp Hb) Hta Hnb).
    + f_equal. exact (sorted_groups_raises by_tag [] e Hrun).
  - exact Hsorted.
Qed.

Lemma groups_sorted_by_tag_witness :
  for_each group_step tagged_endpoints [] = Ok tagged_groups /\
  exists groups,
    sorted_groups tagged_groups = Ok groups /\
    map fst groups = [VStr "Other"; VStr "fruit"; VStr "zoo"] /\
    Sorted group_before groups.
Proof.
  split; [reflexivity|].
  eexists. split; [reflexivity|]. split; [reflexivity|].
  apply (groups_sorted_by_tag tagged_endpoints tagged_groups eq_refl).
  reflexivity.
Defined.

End Grouping.

(** ** The text of the generated file *)

Section Rendering.

Local Open Scope list_scope.

Section Appending.

Variable A : Type.
Variable f : list string -> A -> result (list string).
Variable Q : A -> list string -> Prop.
Hypothesis f_appends : forall acc x acc',
  f acc x = Ok acc' -> exists mid, acc' = acc ++ mid /\ Q x mid.

Lemma for_each_appends (l : list A) :
  forall acc out,
    for_each f l acc = Ok out ->
    exists suffix,
      out = acc ++ suffix /\
      forall x, In x l -> exists b mid a, suffix = b ++ mid ++ a /\ Q x mid.
Proof.
  induction l as [|x l IH]; intros acc out Hrun.
  - cbn in Hrun. inversion Hrun; subst. exists []. rewrite app_nil_r.
    split; [reflexivity | intros x []].
  - cbn [for_each] in Hrun. apply bind_ok in Hrun.
    destruct Hrun as [acc1 [Hstep Hrun]].
    destruct (f_appends _ _ _ Hstep) as [mid [-> HQ]].
    destruct (IH _ _ Hrun) as [suffix [-> Hall]].
    exists (mid ++ suffix). split; [now rewrite app_assoc|].
    intros y [<- | Hin].
    + exists [], mid, suffix. split; [reflexivity | exact HQ].
    + destruct (Hall y Hin) as [b [mid' [a [-> HQ']]]].
      exists (mid ++ b), mid', a. split; [now rewrite <- app_assoc | exact HQ'].
Qed.

End Appending.

Lemma endpoint_lines_step_appends (lines : list string) (ep : endpoint)
    (lines' : list string) :
  endpoint_lines_step lines ep = Ok lines' ->
  exists mid, lines' = lines ++ mid /\
              exists pre, mid = pre ++ request_lines ep ++ [""%string; ""%string].
Proof.
  unfold endpoint_lines_step. intros H. apply bind_ok in H.
  destruct H as [description [_ H]]. inversion H; subst. clear H.
  destruct (Py.truthy (ep_summary ep)).
  - exists ((["### " ++ Py.str (ep_summary ep)]%string ++ description) ++
            request_lines ep ++ [""%string; ""%string]).
    split; [now rewrite <- !app_assoc | eauto].
  - exists (description ++ request_lines ep ++ [""%string; ""%string]).
    split; [now rewrite <- !app_assoc | eauto].
Qed.

Lemma tag_lines_step_appends (lines : list string) (g : value * list endpoint)
    (lines' : list string) :
  tag_lines_step lines g = Ok lines' ->
  exists mid, lines' = lines ++ mid /\
    exists inner,
      mid = [("### " ++ Py.str (fst g))%string; ""%string] ++ inner /\
      forall ep, In ep (snd g) ->
        exists b a, inner = b ++ request_lines ep ++ [""%string; ""%string] ++ a.
Proof.
  unfold tag_lines_step. intros H.
  apply (for_each_appends _ _ _ endpoint_lines_step_appends) in H.
  destruct H as [inner [-> Hall]].
  exists ([("### " ++ Py.str (fst g))%string; ""%string] ++ inner).
  split; [now rewrite <- app_assoc|]. exists inner. split; [reflexivity|].
  intros ep Hin. destruct (Hall ep Hin) as [b [mid [a [-> [pre ->]]]]].
  exists (b ++ pre), a. now rewrite <- !app_assoc.
Qed.

(** X15.  The generated file begins with the two banner lines and an
    empty line.  Every endpoint of the walk has its request in it, the
    request line, the headers and the body as the REST Client text has
    them, followed by two empty lines and preceded by the heading of its
    tag.  With an output file of a non-empty name that file is written
    with the returned text; otherwise nothing is written. *)
Theorem file_holds_every_request
    (urljoin : string -> string -> result string) (doc : value)
    (output_file : option string) (content : string)
    (files : list (string * string)) :
  generate_http_file_from_openapi urljoin doc output_file = Ok (content, files) ->
  exists parser eps parser' lines,
    OpenAPIParser.__init__ doc = Ok parser /\
    OpenAPIParser.extract_endpoints urljoin parser = Ok (eps, parser') /\
    content = Str.join (String Py.newline EmptyString)
                       (banner (OpenAPIParser.base_url parser) ++ lines) /\
    (forall ep, In ep eps ->
       exists tag before between after,
         has_tag tag ep = true /\
         lines = before ++ [("### " ++ Py.str tag)%string; ""%string] ++ between
                 ++ request_lines ep ++ [""%string; ""%string] ++ after) /\
    (output_file = None \/ output_file = Some ""%string -> files = []) /\
    (forall file, output_file = Some file -> file <> ""%string ->
                  files = [(file, content)]).
Proof.
  unfold generate_http_file_from_openapi. intros H.
  apply bind_ok in H. destruct H as [parser [Hinit H]].
  apply bind_ok in H. destruct H as [[eps parser'] [Hwalk H]].
  apply bind_ok in H. destruct H as [by_tag [Hgroup H]].
  apply bind_ok in H. destruct H as [groups [Hsort H]].
  apply bind_ok in H. destruct H as [all_lines [Hlines H]].
  cbn [fst] in Hgroup.
  pose proof (grouping_loop eps [] [] by_tag grouping_of_nil Hgroup) as Hg.
  cbn [app] in Hg. pose proof Hg as [Hd [Hms Hperm]].
  destruct (sorted_groups_loop by_tag [] [] groups Hd (Sorted_nil _)
              (Permutation_refl _) Hsort) as [_ Hp].
  cbn [app] in Hp.
  apply (for_each_appends _ _ _ tag_lines_step_appends) in Hlines.
  destruct Hlines as [lines [-> Hall]].
  exists parser, eps, parser', lines.
  split; [exact Hinit|]. split; [exact Hwalk|].
  assert (Hcontent : content = Str.join (String Py.newline EmptyString)
                       (banner (OpenAPIParser.base_url parser) ++ lines)).
  { destruct output_file as [file|]; [destruct (String.eqb file "")|];
      now inversion H. }
  split; [exact Hcontent|]. split; [|split].
  - intros ep Hin.
    destruct (grouping_covers _ _ _ Hg Hin) as [t [ms [Hin_g Ht]]].
    assert (Hin_ms : In ep ms).
    { destruct (Hms t ms Hin_g) as [_ ->]. apply filter_In. now split. }
    destruct (Hall (t, ms) (Permutation_in _ Hp Hin_g))
      as [b [mid [a [-> [inner [-> Hinner]]]]]].
    destruct (Hinner ep Hin_ms) as [b' [a' ->]].
    exists t, b, b', (a' ++ a). split; [exact Ht|].
    cbn [fst]. now rewrite <- !app_assoc.
  - intros [-> | ->]; cbn in H; now inversion H.
  - intros file -> Hne. apply String.eqb_neq in Hne. rewrite Hne in H.
    inversion H. reflexivity.
Qed.

Lemma file_holds_every_request_witness :
  exists content files,
    generate_http_file_from_openapi urljoin_unused users_api_document
      (Some "api.http"%string) = Ok (content, files) /\
    files = [("api.http"%string, content)].
Proof.
  eexists. eexists. split; [reflexivity|].
  destruct (file_holds_every_request urljoin_unused users_api_document
              (Some "api.http"%string) _ _ eq_refl)
    as [parser [eps [parser' [lines [_ [_ [_ [_ [_ Hfile]]]]]]]]].
  apply (Hfile "api.http"%string eq_refl). discriminate.
Defined.

End Rendering.

(** X16.  The request of an endpoint in the generated file is the text
    the single request mode gives in the REST Client format for the same
    method, URL, headers and body. *)
Theorem request_is_the_rest_client_text (ep : endpoint) :
  In (ep_method ep) http_methods ->
  exists maker,
    HTTPFileMaker.__init__ (ep_method ep) (ep_url ep) (Some (maker_headers ep))
      (ep_body ep) "rest-client" = Ok maker /\
    HTTPFileMaker.generate maker
    = Ok (Str.join (String Py.newline EmptyString) (request_lines ep)).
Proof.
  intros Hm. eexists. split; [reflexivity|].
  assert (Hup : Str.upper (ep_method ep) = ep_method ep).
  { unfold http_methods in Hm. cbn [In] in Hm.
    repeat (destruct Hm as [<- | Hm]; [reflexivity|]). contradiction. }
  unfold HTTPFileMaker.generate. cbn [HTTPFileMaker.format_type].
  change (String.eqb "rest-client" "rest-client") with true. cbv iota.
  f_equal. unfold HTTPFileMaker.generate_rest_client, HTTPFileMaker.has_body.
  cbn [HTTPFileMaker.method HTTPFileMaker.url HTTPFileMaker.headers
       HTTPFileMaker.body].
  rewrite Hup. unfold request_lines, maker_headers. rewrite map_map.
  cbn [fst snd].
  destruct (ep_body ep) as [text|]; [destruct (String.eqb text "")|];
    reflexivity.
Qed.

Lemma request_is_the_rest_client_text_witness :
  exists maker,
    HTTPFileMaker.__init__ "POST" "/zebras" (Some []) None "rest-client"
    = Ok maker /\
    HTTPFileMaker.generate maker = Ok "POST /zebras".
Proof.
  apply (request_is_the_rest_client_text
           (tagged_endpoint "POST" "/zebras" (VList [VStr "zoo"]))).
  cbn. tauto.
Defined.

(** ** Properties of the single request mode *)

Lemma join_cons (sep x : string) (l : list string) :
  exists rest, Str.join sep (x :: l) = x ++ rest.
Proof.
  unfold Str.join. destruct l as [|y l]; cbn [String.concat].
  - exists "". now rewrite append_nil_r.
  - eauto.
Qed.

Lemma join_snoc (sep x last : string) (l : list string) :
  exists middle, Str.join sep (app (x :: l) [last]) = x ++ middle ++ last.
Proof.
  unfold Str.join. revert x. induction l as [|y l IH]; intros x.
  - exists sep. reflexivity.
  - destruct (IH y) as [middle E]. exists (sep ++ y ++ middle).
    change (String.concat sep (app (x :: y :: l) [last]))
      with (x ++ sep ++ String.concat sep (app (y :: l) [last])).
    rewrite E. now rewrite !append_assoc.
Qed.

(** X17.  A maker that the constructor returned always generates a text:
    the branch of an unknown format is never reached.  The text is that of
    its format; it begins with the request line ([http] before it for
    HTTPie), and for cURL it begins with [curl -X] and the method and ends
    with the quoted URL. *)
Theorem constructed_maker_generates
    (method url : string) (headers : option (list (string * string)))
    (body : option string) (format_type : string) (maker : HTTPFileMaker.t) :
  HTTPFileMaker.__init__ method url headers body format_type = Ok maker ->
  exists text,
    HTTPFileMaker.generate maker = Ok text /\
    ((format_type = "rest-client" /\
      text = HTTPFileMaker.generate_rest_client maker /\
      exists rest, text = (HTTPFileMaker.method maker ++ " "
                           ++ HTTPFileMaker.url maker) ++ rest) \/
     (format_type = "httpie" /\
      text = HTTPFileMaker.generate_httpie maker /\
      exists rest, text = ("http " ++ HTTPFileMaker.method maker ++ " "
                           ++ HTTPFileMaker.url maker) ++ rest) \/
     (format_type = "curl" /\
      text = HTTPFileMaker.generate_curl maker /\
      exists middle, text = ("curl -X " ++ HTTPFileMaker.method maker) ++ middle
                            ++ ("'" ++ HTTPFileMaker.url maker ++ "'"))).
Proof.
  unfold HTTPFileMaker.__init__. intros H.
  destruct (existsb (String.eqb format_type) HTTPFileMaker.FORMATS) eqn:E;
    cbn [negb] in H; [|discriminate].
  inversion H; subst maker; clear H.
  unfold HTTPFileMaker.generate. cbn [HTTPFileMaker.format_type].
  unfold HTTPFileMaker.FORMATS in E. cbn [existsb] in E.
  destruct (String.eqb format_type "rest-client") eqn:E1.
  { apply String.eqb_eq in E1. eexists. split; [reflexivity|]. left.
    split; [exact E1|]. split; [reflexivity|].
    unfold HTTPFileMaker.generate_rest_client.
    destruct (HTTPFileMaker.has_body _); cbn [app]; apply join_cons. }
  destruct (String.eqb format_type "httpie") eqn:E2.
  { apply String.eqb_eq in E2. eexists. split; [reflexivity|]. right. left.
    split; [exact E2|]. split; [reflexivity|].
    unfold HTTPFileMaker.generate_httpie.
    destruct (HTTPFileMaker.has_body _); cbn [app]; apply join_cons. }
  destruct (String.eqb format_type "curl") eqn:E3.
  { apply String.eqb_eq in E3. eexists. split; [reflexivity|]. right. right.
    split; [exact E3|]. split; [reflexivity|].
    unfold HTTPFileMaker.generate_curl.
    destruct (HTTPFileMaker.has_body _); cbn [app]; apply join_snoc. }
  cbn in E. discriminate.
Qed.

Lemma constructed_maker_generates_witness :
  exists maker text,
    HTTPFileMaker.__init__ "get" "https://api.example.com/users"
      (Some [("Accept", "application/json")]) None "curl" = Ok maker /\
    HTTPFileMaker.generate maker = Ok text /\
    Str.startswith "curl -X GET" text = true.
Proof.
  eexists.
  destruct (constructed_maker_generates "get" "https://api.example.com/users"
              (Some [("Accept", "application/json")]) None "curl" _ eq_refl)
    as [text [Hgen _]].
  exists text. split; [reflexivity|]. split; [exact Hgen|].
  vm_compute in Hgen. inversion Hgen. reflexivity.
Defined.

(** ** The value of a repeated header *)

Lemma for_each_app (A B : Type) (f : B -> A -> result B) (l1 l2 : list A) :
  forall acc,
    for_each f (app l1 l2) acc = bind (for_each f l1 acc) (for_each f l2).
Proof.
  induction l1 as [|x l1 IH]; intros acc; cbn [app for_each bind].
  - reflexivity.
  - destruct (f acc x) as [acc'|e]; cbn [bind]; [apply IH | reflexivity].
Qed.

Lemma header_store_names (x k v : string) (h : list (string * string)) :
  existsb (String.eqb x) (map fst (header_store k v h))
  = existsb (String.eqb x) (map fst h) || String.eqb x k.
Proof.
  induction h as [|[k' v'] h IH]; cbn [header_store map fst existsb].
  - now rewrite orb_false_r.
  - destruct (String.eqb k k') eqn:E; cbn [map fst existsb].
    + apply String.eqb_eq in E. subst k'.
      destruct (String.eqb x k), (existsb (String.eqb x) (map fst h));
        reflexivity.
    + rewrite IH. now rewrite orb_assoc.
Qed.

Lemma header_store_unique (k v : string) (h : list (string * string)) :
  unique_names h = true -> unique_names (header_store k v h) = true.
Proof.
  induction h as [|[k' v'] h IH]; cbn [header_store unique_names].
  - reflexivity.
  - intros H. apply andb_true_iff in H. destruct H as [Hk Hh].
    destruct (String.eqb k k') eqn:E; cbn [unique_names].
    + now rewrite Hk, Hh.
    + rewrite header_store_names, (IH Hh).
      apply negb_true_iff in Hk. rewrite Hk, String.eqb_sym, E. reflexivity.
Qed.

Lemma header_store_value (k v : string) (h : list (string * string)) :
  header_value k (header_store k v h) = Some v.
Proof.
  unfold header_value.
  induction h as [|[k' v'] h IH]; cbn [header_store find fst].
  - now rewrite String.eqb_refl.
  - destruct (String.eqb k k') eqn:E; cbn [find fst]; rewrite E;
      [reflexivity | exact IH].
Qed.

Lemma parse_loop_unique (l : list string) :
  forall h w h' w',
    for_each parse_header_step l (h, w) = Ok (h', w') ->
    unique_names h = true -> unique_names h' = true.
Proof.
  induction l as [|s l IH]; intros h w h' w' Hrun Hu.
  - cbn in Hrun. now inversion Hrun; subst.
  - cbn [for_each] in Hrun. apply bind_ok in Hrun.
    destruct Hrun as [[h1 w1] [Hstep Hrun]].
    apply (IH _ _ _ _ Hrun).
    unfold parse_header_step in Hstep.
    destruct (Str.contains ":" s).
    + apply bind_ok in Hstep. destruct Hstep as [kv [_ Hstep]].
      inversion Hstep; subst. now apply header_store_unique.
    + now inversion Hstep; subst.
Qed.

(** X18.  Only the first colon of a header string separates the name
    from the value, both are stripped of the blanks around them, and the
    last string of a name decides its value: after any header strings,
    a string [name:value] leaves the stripped value under the stripped
    name.  The names of the mapping are always different. *)
Theorem last_header_string_decides
    (header_strings : list string) (name value : string) :
  Str.contains ":" name = false ->
  exists headers warnings,
    parse_headers (app header_strings [name ++ ":" ++ value])
    = Ok (headers, warnings) /\
    header_value (Str.strip name) headers = Some (Str.strip value) /\
    unique_names headers = true.
Proof.
  intros Hname. unfold parse_headers. rewrite for_each_app.
  destruct (parse_loop_returns header_strings [] []) as [h [Hrun _]].
  rewrite Hrun. cbn [bind for_each].
  unfold parse_header_step at 1.
  rewrite (contains_append_r ":" name (":" ++ value)) by reflexivity.
  change (name ++ ":" ++ value) with (name ++ String ":"%char value).
  rewrite (split_once_line name value Hname). cbn [unpack2 bind fst snd].
  eexists. eexists. split; [reflexivity|]. split.
  - apply header_store_value.
  - apply header_store_unique.
    exact (parse_loop_unique _ _ _ _ _ Hrun eq_refl).
Qed.

Lemma last_header_string_decides_witness :
  exists headers warnings,
    parse_headers ["Host: a.example"; "X-Time : 10:30"; "host"; "Host:b.example:8080 "]
    = Ok (headers, warnings) /\
    header_value "Host" headers = Some "b.example:8080" /\
    unique_names headers = true.
Proof.
  exact (last_header_string_decides
           ["Host: a.example"; "X-Time : 10:30"; "host"]
           "Host" "b.example:8080 " eq_refl).
Defined.
